(** * The long running example service of Grassroots

    A shallow embedding of [src/src/long_running_service.c]: the timed
    service jobs, their status rule, the batch builder, the runner, the
    JSON (de)serialiser and the close operation, followed by the theorems
    that settle the claims made about them.

    Conventions of the embedding.
    - C integers are [Z]; a signed w-bit result is reduced with [wrap].
    - The code talks to its surroundings (the clock, the allocator, [rand],
      the uuid generator, the JobsManager, the error log).  These live in a
      [World] that every effectful function threads through the monad [M].
    - A function of the Grassroots core library that the file calls but
      does not define is given a definition whose comment starts with
      "Modelled from the spec:". *)

From Stdlib Require Import ZArith String Ascii List Lia DecimalString DecimalN.
From stdpp Require Import gmap strings list fin_maps pretty.

Set Warnings "-register-all".
Local Open Scope Z_scope.

(** ** Machine integers *)

(** The value of a signed [bits]-bit integer holding [z]. *)
Definition wrap (bits : Z) (z : Z) : Z :=
  (z + 2 ^ (bits - 1)) mod 2 ^ bits - 2 ^ (bits - 1).

Definition INT32_MIN : Z := - 2 ^ 31.
Definition INT32_MAX : Z := 2 ^ 31 - 1.
Definition int32_wrap : Z -> Z := wrap 32.

(** [time_t] is a signed 64-bit count of seconds. *)
Definition TIME_MIN : Z := - 2 ^ 63.
Definition TIME_MAX : Z := 2 ^ 63 - 1.
Definition time_t_wrap : Z -> Z := wrap 64.

(** A value cast to [size_t], as the [SIZET_FMT] conversions print it. *)
Definition size_t_cast (z : Z) : Z := z mod 2 ^ 64.

(** ** JSON values (the [json_t] of jansson) *)

Inductive json : Type :=
  | JNull
  | JBool (b : bool)
  | JInt (z : Z)
  | JStr (s : string)
  | JArr (l : list json)
  | JObj (m : gmap string json).

(** ** The data model *)

(** A [uuid_t] is sixteen bytes; the embedding reads them as one number. *)
Definition uuid_t : Type := N.

(** Modelled from the spec: the [OperationStatus] enumeration is declared by
    the core library; these are the states that section 4.1 names. *)
Inductive OperationStatus : Type :=
  | OS_ERROR
  | OS_IDLE
  | OS_PENDING
  | OS_STARTED
  | OS_SUCCEEDED.

#[global] Instance OperationStatus_eq_dec : EqDecision OperationStatus.
Proof. solve_decision. Defined.

(** Modelled from the spec: the base [ServiceJob] of the core library, with
    the fields that section 3 lists (identifier, name, description, type
    tag, status, result payload).  The owning-service pointer carries no
    data of its own and is left out. *)
Record ServiceJob : Type := mkServiceJob {
  sj_id : uuid_t;
  sj_name : string;
  sj_description : string;
  sj_type : string;
  sj_status : OperationStatus;
  sj_result : json
}.

Record TimeInterval : Type := mkTimeInterval {
  ti_start : Z;
  ti_end : Z;
  ti_duration : Z
}.

(** [tsj_process_id] is never read or written by any function of the file
    and is not represented. *)
Record TimedServiceJob : Type := mkTimedServiceJob {
  tsj_job : ServiceJob;
  tsj_interval_p : TimeInterval;
  tsj_added_flag : bool
}.

Record LongRunningServiceData : Type := mkLongRunningServiceData {
  lsd_default_number_of_jobs : Z
}.

(** Modelled from the spec: a ServiceJobSet is an ordered collection of jobs. *)
Definition ServiceJobSet : Type := list TimedServiceJob.

(** Modelled from the spec: of the core library's [Service] only the two
    members that this file touches. *)
Record Service : Type := mkService {
  se_jobs_p : option ServiceJobSet;
  se_data_p : LongRunningServiceData
}.

Definition LRS_SERVICE_JOB_TYPE_S : string := "long running service job".
Definition LRS_START_S : string := "start".
Definition LRS_END_S : string := "end".
Definition LRS_ADDED_FLAG_S : string := "added_to_job_manager".

(** Modelled from the spec: a parameter set, as far as the two parameters of
    section 6 go.  A named parameter is either missing, or present with a
    current value that may itself be unset (a null pointer). *)
Inductive ParameterValue : Type :=
  | PV_UnsignedInt (value_p : option N)
  | PV_SignedInt (value_p : option Z).

Definition LRS_MIN_DURATION : string := "Minimum duration of each job".
Definition LRS_NUMBER_OF_JOBS : string := "Number of Jobs".

(** ** The world outside the service *)

Record World : Type := mkWorld {
  (** the clock: [w_clock k] is what the k-th call of [time] returns *)
  w_clock : nat -> Z;
  w_ticks : nat;
  (** fallible calls: [w_fault k] says whether the k-th of them fails;
      [w_junk k] is the indeterminate content of the block it hands out
      when that call is a successful [AllocMemory] *)
  w_fault : nat -> bool;
  w_junk : nat -> Z;
  w_calls : nat;
  (** [rand] and the uuid generator *)
  w_rand : nat -> N;
  w_rands : nat;
  w_uuid : nat -> uuid_t;
  w_uuids : nat;
  (** the JobsManager, the error log (oldest message first) and the number
      of heap blocks that are currently allocated *)
  w_jobs : gmap N TimedServiceJob;
  w_log : list string;
  w_live : Z
}.

Definition set_ticks (n : nat) (w : World) : World :=
  mkWorld (w_clock w) n (w_fault w) (w_junk w) (w_calls w) (w_rand w)
          (w_rands w) (w_uuid w) (w_uuids w) (w_jobs w) (w_log w) (w_live w).
Definition set_calls (n : nat) (w : World) : World :=
  mkWorld (w_clock w) (w_ticks w) (w_fault w) (w_junk w) n (w_rand w)
          (w_rands w) (w_uuid w) (w_uuids w) (w_jobs w) (w_log w) (w_live w).
Definition set_rands (n : nat) (w : World) : World :=
  mkWorld (w_clock w) (w_ticks w) (w_fault w) (w_junk w) (w_calls w) (w_rand w)
          n (w_uuid w) (w_uuids w) (w_jobs w) (w_log w) (w_live w).
Definition set_uuids (n : nat) (w : World) : World :=
  mkWorld (w_clock w) (w_ticks w) (w_fault w) (w_junk w) (w_calls w) (w_rand w)
          (w_rands w) (w_uuid w) n (w_jobs w) (w_log w) (w_live w).
Definition set_jobs (m : gmap N TimedServiceJob) (w : World) : World :=
  mkWorld (w_clock w) (w_ticks w) (w_fault w) (w_junk w) (w_calls w) (w_rand w)
          (w_rands w) (w_uuid w) (w_uuids w) m (w_log w) (w_live w).
Definition set_log (l : list string) (w : World) : World :=
  mkWorld (w_clock w) (w_ticks w) (w_fault w) (w_junk w) (w_calls w) (w_rand w)
          (w_rands w) (w_uuid w) (w_uuids w) (w_jobs w) l (w_live w).
Definition set_live (n : Z) (w : World) : World :=
  mkWorld (w_clock w) (w_ticks w) (w_fault w) (w_junk w) (w_calls w) (w_rand w)
          (w_rands w) (w_uuid w) (w_uuids w) (w_jobs w) (w_log w) n.

(** The reading that the next call of [time] will return. *)
Definition now (w : World) : Z := w_clock w (w_ticks w).

(** ** The monad of effectful functions *)

Definition M (A : Type) : Type := World -> A * World.

Definition ret {A : Type} (a : A) : M A := fun w => (a, w).

Definition bind {A B : Type} (m : M A) (f : A -> M B) : M B :=
  fun w => let (a, w') := m w in f a w'.

Notation "x <- m ;; k" := (bind m (fun x => k))
  (at level 100, m at next level, right associativity).
Notation "m ;; k" := (bind m (fun _ => k))
  (at level 100, right associativity).

(** *** Primitive effects *)

(** [time (NULL)] *)
Definition time : M Z :=
  fun w => (now w, set_ticks (S (w_ticks w)) w).

(** One fallible call; the answer is [true] when it succeeds. *)
Definition attempt : M bool :=
  fun w => (negb (w_fault w (w_calls w)), set_calls (S (w_calls w)) w).

(** [AllocMemory]: [None] is the null pointer, [Some z] a fresh block whose
    bytes are indeterminate and read as [z]. *)
Definition AllocMemory : M (option Z) :=
  fun w =>
    let k := w_calls w in
    if w_fault w k then (None, set_calls (S k) w)
    else (Some (w_junk w k), set_live (w_live w + 1) (set_calls (S k) w)).

(** [FreeMemory] *)
Definition FreeMemory : M unit :=
  fun w => (tt, set_live (w_live w - 1) w).

(** [rand ()] *)
Definition rand : M Z :=
  fun w => (Z.of_N (w_rand w (w_rands w)), set_rands (S (w_rands w)) w).

Definition uuid_generate : M uuid_t :=
  fun w => (w_uuid w (w_uuids w), set_uuids (S (w_uuids w)) w).

(** [PrintErrors (STM_LEVEL_SEVERE, __FILE__, __LINE__, ...)], reduced to
    the formatted message. *)
Definition PrintErrors (message : string) : M unit :=
  fun w => (tt, set_log (w_log w ++ [message]) w).

(** [PrintJSONToErrors] and [PrintJSONToLog] print a message followed by a
    JSON value; the embedding keeps the message. *)
Definition PrintJSONToErrors (json_p : json) (message : string) : M unit :=
  PrintErrors message.

Definition PrintJSONToLog (json_p : json) (message : string) : M unit :=
  PrintErrors message.

(** The double quote character, for the messages that quote an identifier. *)
Definition dquote : string := String "034"%char EmptyString.

(** ** The core library, as far as this file calls it *)

(** Modelled from the spec: [SetServiceJobStatus] stores the status in the
    job; [GetServiceJobStatus] reads it back. *)
Definition SetServiceJobStatus (job_p : ServiceJob) (status : OperationStatus)
  : ServiceJob :=
  mkServiceJob (sj_id job_p) (sj_name job_p) (sj_description job_p)
               (sj_type job_p) status (sj_result job_p).

Definition GetServiceJobStatus (job_p : ServiceJob) : OperationStatus :=
  sj_status job_p.

(** Assignments through a [TimedServiceJob] pointer. *)
Definition set_tsj_job (base : ServiceJob) (job_p : TimedServiceJob)
  : TimedServiceJob :=
  mkTimedServiceJob base (tsj_interval_p job_p) (tsj_added_flag job_p).
Definition set_tsj_interval (ti : TimeInterval) (job_p : TimedServiceJob)
  : TimedServiceJob :=
  mkTimedServiceJob (tsj_job job_p) ti (tsj_added_flag job_p).
Definition set_tsj_added_flag (b : bool) (job_p : TimedServiceJob)
  : TimedServiceJob :=
  mkTimedServiceJob (tsj_job job_p) (tsj_interval_p job_p) b.

(** Modelled from the spec: the uuid formatting utilities.  The text of an
    identifier is its decimal numeral; parsing is the inverse. *)
Definition ConvertUUIDToString (id : uuid_t) : string :=
  NilZero.string_of_uint (N.to_uint id).

Definition ConvertStringToUUID (s : string) : option uuid_t :=
  match NilZero.uint_of_string s with
  | Some d => Some (N.of_uint d)
  | None => None
  end.

(** Modelled from the spec: [InitServiceJob] gives the job a fresh
    identifier and the given name, description and type tag; a new job is
    idle and has no result. *)
Definition InitServiceJob (job_name_s job_description_s job_type_s : string)
  : M ServiceJob :=
  id <- uuid_generate ;;
  ret (mkServiceJob id job_name_s job_description_s job_type_s OS_IDLE JNull).

(** Modelled from the spec: [FreeBaseServiceJob] destroys the base job and
    gives the block of the job back. *)
Definition FreeBaseServiceJob : M unit := FreeMemory.

(** Modelled from the spec: the numbers under which the core library stores
    a status.  Only that they tell the states apart is used. *)
Definition OperationStatus_code (status : OperationStatus) : Z :=
  match status with
  | OS_ERROR => -1
  | OS_IDLE => 0
  | OS_PENDING => 1
  | OS_STARTED => 2
  | OS_SUCCEEDED => 3
  end.

Definition OperationStatus_of_code (z : Z) : option OperationStatus :=
  if z =? -1 then Some OS_ERROR
  else if z =? 0 then Some OS_IDLE
  else if z =? 1 then Some OS_PENDING
  else if z =? 2 then Some OS_STARTED
  else if z =? 3 then Some OS_SUCCEEDED
  else None.

(** Modelled from the spec: the accessors of the core library's JSON
    utilities.  A member is found when it is present with the right type. *)
Definition GetJSONLong (json_p : json) (key_s : string) : option Z :=
  match json_p with
  | JObj m => match m !! key_s with Some (JInt z) => Some z | _ => None end
  | _ => None
  end.

Definition GetJSONBoolean (json_p : json) (key_s : string) : option bool :=
  match json_p with
  | JObj m => match m !! key_s with Some (JBool b) => Some b | _ => None end
  | _ => None
  end.

Definition GetJSONString (json_p : json) (key_s : string) : option string :=
  match json_p with
  | JObj m => match m !! key_s with Some (JStr s) => Some s | _ => None end
  | _ => None
  end.

Definition GetJSONMember (json_p : json) (key_s : string) : option json :=
  match json_p with
  | JObj m => m !! key_s
  | _ => None
  end.

(** jansson's [json_object_set_new]: the object with the member set, or
    [None] when it fails (the target is no object, or memory ran out). *)
Definition json_object_set_new (json_p : json) (key_s : string) (value_p : json)
  : M (option json) :=
  ok <- attempt ;;
  ret (match json_p with
       | JObj m => if ok then Some (JObj (<[key_s := value_p]> m)) else None
       | _ => None
       end).

(** Modelled from the spec: the persisted form of the base job, with the
    members [id], [name], [description], [type], [status] and [result] of
    section 6. *)
Definition GetServiceJobAsJSON (job_p : ServiceJob) (omit_results_flag : bool)
  : M (option json) :=
  ok <- attempt ;;
  if ok then
    let m : gmap string json :=
      <["id" := JStr (ConvertUUIDToString (sj_id job_p))]>
      (<["name" := JStr (sj_name job_p)]>
      (<["description" := JStr (sj_description job_p)]>
      (<["type" := JStr (sj_type job_p)]>
      (<["status" := JInt (OperationStatus_code (sj_status job_p))]> ∅)))) in
    ret (Some (JObj (if omit_results_flag then m
                     else <["result" := sj_result job_p]> m)))
  else ret None.

(** Modelled from the spec: the base job read back from its persisted form.
    It fails when a member other than the result is missing or ill-typed; a
    missing result is the null payload. *)
Definition InitServiceJobFromJSON (json_p : json) : option ServiceJob :=
  match GetJSONString json_p "id" with
  | Some id_s =>
    match ConvertStringToUUID id_s with
    | Some id =>
      match GetJSONString json_p "name", GetJSONString json_p "description",
            GetJSONString json_p "type", GetJSONLong json_p "status" with
      | Some name_s, Some description_s, Some type_s, Some code =>
        match OperationStatus_of_code code with
        | Some status =>
          Some (mkServiceJob id name_s description_s type_s status
                  (match GetJSONMember json_p "result" with
                   | Some result_p => result_p
                   | None => JNull
                   end))
        | None => None
        end
      | _, _, _, _ => None
      end
    | None => None
    end
  | None => None
  end.

(** Modelled from the spec: the Job Registry interface of section 6,
    [register], [lookup] and [remove].  Registration can fail. *)
Definition GetServiceJobFromJobsManager (job_id : uuid_t)
  : M (option TimedServiceJob) :=
  fun w => (w_jobs w !! job_id, w).

Definition AddServiceJobToJobsManager (job_id : uuid_t) (job_p : TimedServiceJob)
  : M bool :=
  ok <- attempt ;;
  if ok then (fun w => (true, set_jobs (<[job_id := job_p]> (w_jobs w)) w))
  else ret false.

Definition RemoveServiceJobFromJobsManager (job_id : uuid_t) (free_flag : bool)
  : M bool :=
  fun w => (bool_decide (is_Some (w_jobs w !! job_id)),
            set_jobs (delete job_id (w_jobs w)) w).

(** Modelled from the spec: [AllocateServiceJobSet] makes an empty set (one
    heap block) and [AddServiceJobToService] puts a job at its end; either
    can fail. *)
Definition AllocateServiceJobSet : M (option ServiceJobSet) :=
  set_p <- AllocMemory ;;
  ret (match set_p with Some _ => Some [] | None => None end).

Definition AddServiceJobToService (jobs_p : ServiceJobSet) (job_p : TimedServiceJob)
  : M (option ServiceJobSet) :=
  ok <- attempt ;;
  ret (if ok then Some (jobs_p ++ [job_p]) else None).

(** Modelled from the spec: the generic envelope of an inline resource
    around a payload, as [GetDataResourceAsJSONByParts] builds it. *)
Definition PROTOCOL_INLINE_S : string := "inline".

Definition GetDataResourceAsJSONByParts
  (protocol_s : string) (path_s : option string) (title_s : string) (data_p : json)
  : M (option json) :=
  ok <- attempt ;;
  ret (if ok then
         Some (JObj (<["protocol" := JStr protocol_s]>
                    (<["title" := JStr title_s]>
                    (<["data" := data_p]>
                       (match path_s with
                        | Some s => {["value" := JStr s]}
                        | None => ∅
                        end)))))
       else None).

(** Modelled from the spec: the parameter accessors.  The outer option is
    the boolean result, the inner one the value pointer that is filled in. *)
Definition GetCurrentUnsignedIntParameterValueFromParameterSet
  (params_p : gmap string ParameterValue) (name_s : string) : option (option N) :=
  match params_p !! name_s with
  | Some (PV_UnsignedInt value_p) => Some value_p
  | _ => None
  end.

Definition GetCurrentSignedIntParameterValueFromParameterSet
  (params_p : gmap string ParameterValue) (name_s : string) : option (option Z) :=
  match params_p !! name_s with
  | Some (PV_SignedInt value_p) => Some value_p
  | _ => None
  end.

(** ** The functions of [long_running_service.c] *)

Definition AllocateLongRunningServiceData : M (option LongRunningServiceData) :=
  data_p <- AllocMemory ;;
  ret (match data_p with
       | Some _ => Some (mkLongRunningServiceData 3)
       | None => None
       end).

Definition FreeLongRunningServiceData : M unit := FreeMemory.

Definition StartTimedServiceJob (job_p : TimedServiceJob) : M TimedServiceJob :=
  let ti_p := tsj_interval_p job_p in
  t <- time ;;
  let ti_p' := mkTimeInterval t (time_t_wrap (t + ti_duration ti_p))
                              (ti_duration ti_p) in
  ret (set_tsj_job (SetServiceJobStatus (tsj_job job_p) OS_STARTED)
         (set_tsj_interval ti_p' job_p)).

(** The status and the job with the status stored in it. *)
Definition GetTimedServiceJobStatus (job_p : TimedServiceJob)
  : M (OperationStatus * TimedServiceJob) :=
  let ti_p := tsj_interval_p job_p in
  status <-
    (if negb (ti_start ti_p =? ti_end ti_p) then
       t <- time ;;
       ret (if t >=? ti_start ti_p then
              if t <=? ti_end ti_p then OS_STARTED else OS_SUCCEEDED
            else OS_ERROR)
     else ret OS_IDLE) ;;
  ret (status, set_tsj_job (SetServiceJobStatus (tsj_job job_p) status) job_p).

(** The result of [InitServiceJob] is not inspected by the code. *)
Definition AllocateTimedServiceJob
  (job_name_s job_description_s : string) (duration : Z)
  : M (option TimedServiceJob) :=
  interval_p <- AllocMemory ;;
  match interval_p with
  | Some _ =>
    job_p <- AllocMemory ;;
    match job_p with
    | Some _ =>
      let interval := mkTimeInterval 0 0 duration in
      base <- InitServiceJob job_name_s job_description_s LRS_SERVICE_JOB_TYPE_S ;;
      ret (Some (mkTimedServiceJob base interval false))
    | None =>
      FreeMemory ;;
      PrintErrors "Failed to allocate TimedServiceJob" ;;
      ret None
    end
  | None =>
    PrintErrors "Failed to allocate TimeInterval" ;;
    ret None
  end.

(** The argument is the interval pointer of the job, [None] when null. *)
Definition FreeTimedServiceJob (tsj_interval_p : option TimeInterval) : M unit :=
  match tsj_interval_p with
  | Some _ => FreeMemory
  | None => ret tt
  end ;;
  FreeBaseServiceJob.

(** Modelled from the spec: [FreeServiceJobSet] destroys every job of the
    set with the job's own free function, then the set. *)
Fixpoint FreeServiceJobs (jobs : list TimedServiceJob) : M unit :=
  match jobs with
  | [] => ret tt
  | job_p :: rest =>
    FreeTimedServiceJob (Some (tsj_interval_p job_p)) ;; FreeServiceJobs rest
  end.

Definition FreeServiceJobSet (jobs_p : ServiceJobSet) : M unit :=
  FreeServiceJobs jobs_p ;; FreeMemory.

(** The loop of [GetServiceJobSet].  [i] counts up to [num_jobs]; the
    recursion is on the iterations that are left, [num_jobs - i].  The
    result is [success_flag] and the set. *)
Fixpoint GetServiceJobSet_loop
  (left : nat) (i : nat) (min_duration : Z) (jobs_p : ServiceJobSet)
  : M (bool * ServiceJobSet) :=
  match left with
  | O => ret (true, jobs_p)
  | S left' =>
    r <- rand ;;
    let duration := int32_wrap (min_duration + Z.rem r 60) in
    let job_name_s := "job " +:+ pretty (int32_wrap (Z.of_nat i)) in
    let job_description_s := "duration " +:+ pretty (size_t_cast duration) in
    job_p <- AllocateTimedServiceJob job_name_s job_description_s duration ;;
    match job_p with
    | Some job =>
      added <- AddServiceJobToService jobs_p job ;;
      match added with
      | Some jobs_p' =>
        GetServiceJobSet_loop left' (S i) min_duration jobs_p'
      | None =>
        PrintErrors "Failed to add TimedServiceJob to ServiceJobSet" ;;
        FreeTimedServiceJob (Some (tsj_interval_p job)) ;;
        ret (false, jobs_p)
      end
    | None =>
      PrintErrors "Failed to allocate TimedServiceJob" ;;
      ret (false, jobs_p)
    end
  end.

Definition GetServiceJobSet (num_jobs : N) (min_duration : Z)
  : M (option ServiceJobSet) :=
  jobs_p <- AllocateServiceJobSet ;;
  match jobs_p with
  | Some jobs =>
    r <- GetServiceJobSet_loop (N.to_nat num_jobs) 0 min_duration jobs ;;
    if fst r then ret (Some (snd r))
    else FreeServiceJobSet (snd r) ;; ret None
  | None => ret None
  end.

(** The loop of [RunLongRunningService] over the job set.  Its counter [i]
    is never read and is not represented. *)
Fixpoint RunLongRunningService_loop (jobs : list TimedServiceJob)
  : M (list TimedServiceJob) :=
  match jobs with
  | [] => ret []
  | job_p :: rest =>
    job1 <- StartTimedServiceJob job_p ;;
    r <- GetTimedServiceJobStatus job1 ;;
    let job2 := set_tsj_job (SetServiceJobStatus (tsj_job (snd r)) (fst r)) (snd r) in
    let job3 := set_tsj_added_flag true job2 in
    ok <- AddServiceJobToJobsManager (sj_id (tsj_job job3)) job3 ;;
    job4 <-
      (if negb ok then
         PrintErrors ("Failed to add job " +:+ dquote
                        +:+ ConvertUUIDToString (sj_id (tsj_job job3))
                        +:+ dquote +:+ " to JobsManager") ;;
         ret (set_tsj_added_flag false job3)
       else ret job3) ;;
    rest' <- RunLongRunningService_loop rest ;;
    ret (job4 :: rest')
  end.

(** The job set that is returned and the service with its [se_jobs_p]. *)
Definition RunLongRunningService
  (service_p : Service) (param_set_p : gmap string ParameterValue)
  : M (option ServiceJobSet * Service) :=
  match GetCurrentUnsignedIntParameterValueFromParameterSet
          param_set_p LRS_NUMBER_OF_JOBS with
  | Some (Some num_tasks) =>
    if (0 <? num_tasks)%N then
      let min_duration :=
        match GetCurrentSignedIntParameterValueFromParameterSet
                param_set_p LRS_MIN_DURATION with
        | Some (Some d) => d
        | _ => 1
        end in
      jobs_p <- GetServiceJobSet num_tasks min_duration ;;
      match jobs_p with
      | Some jobs =>
        jobs' <- RunLongRunningService_loop jobs ;;
        ret (Some jobs', mkService (Some jobs') (se_data_p service_p))
      | None => ret (None, mkService None (se_data_p service_p))
      end
    else ret (se_jobs_p service_p, service_p)
  | _ => ret (se_jobs_p service_p, service_p)
  end.

(** The loop of [CloseLongRunningService]: [close_flag] and the jobs with
    the statuses that polling stored in them.  [RunLongRunningService]
    hands the JobsManager the pointers of these jobs, so in the program a
    status that is stored here is also what the JobsManager hands out
    afterwards.  The embedding keeps the jobs of the JobsManager as values
    of their own and does not follow this sharing: [w_jobs] after a close
    says nothing about the program, and no statement below relies on it. *)
Fixpoint CloseLongRunningService_loop (jobs : list TimedServiceJob)
  : M (bool * list TimedServiceJob) :=
  match jobs with
  | [] => ret (true, [])
  | job_p :: rest =>
    r <- GetTimedServiceJobStatus job_p ;;
    if bool_decide (fst r = OS_PENDING) || bool_decide (fst r = OS_STARTED) then
      ret (false, snd r :: rest)
    else
      r' <- CloseLongRunningService_loop rest ;;
      ret (fst r', snd r :: snd r')
  end.

Definition CloseLongRunningService (service_p : Service) : M (bool * Service) :=
  r <-
    match se_jobs_p service_p with
    | Some jobs =>
      r <- CloseLongRunningService_loop jobs ;;
      ret (fst r, mkService (Some (snd r)) (se_data_p service_p))
    | None => ret (true, service_p)
    end ;;
  (if fst r then FreeLongRunningServiceData else ret tt) ;;
  ret r.

(** jansson: [json_pack_ex] with the format [{s:i,s:i}], [json_array] and
    [json_array_append_new]; each can fail.  The conversion [i] takes its
    argument as an [int]: of a [time_t] that is handed to it, the low 32
    bits arrive. *)
Definition json_pack_ex_si_si (key1_s : string) (value1 : Z)
                              (key2_s : string) (value2 : Z) : M (option json) :=
  ok <- attempt ;;
  ret (if ok then Some (JObj (<[key2_s := JInt (int32_wrap value2)]>
                                {[key1_s := JInt (int32_wrap value1)]}))
       else None).

Definition json_array : M (option json) :=
  ok <- attempt ;;
  ret (if ok then Some (JArr []) else None).

Definition json_array_append_new (array_p : json) (value_p : json)
  : M (option json) :=
  ok <- attempt ;;
  ret (match array_p with
       | JArr l => if ok then Some (JArr (l ++ [value_p])) else None
       | _ => None
       end).

(** The reference counts of jansson are not represented; [json_decref] has
    no counterpart. *)
Definition GetLongRunningResultsAsJSON (job_id : uuid_t) : M (option json) :=
  job_p <- GetServiceJobFromJobsManager job_id ;;
  match job_p with
  | Some job =>
    result_p <- json_pack_ex_si_si "start" (ti_start (tsj_interval_p job))
                                   "end" (ti_end (tsj_interval_p job)) ;;
    match result_p with
    | Some result =>
      resource_json_p <-
        GetDataResourceAsJSONByParts PROTOCOL_INLINE_S None "Long Runner" result ;;
      match resource_json_p with
      | Some _ =>
        results_array_p <- json_array ;;
        match results_array_p with
        | Some results_array => json_array_append_new results_array result
        | None => ret None
        end
      | None => ret None
      end
    | None => ret None
    end
  | None =>
    PrintErrors ("Failed to get job data for " +:+ dquote
                   +:+ ConvertUUIDToString job_id +:+ dquote) ;;
    ret None
  end.

Definition GetTimedServiceJobAsJSON (job_p : TimedServiceJob) : M (option json) :=
  json_p <- GetServiceJobAsJSON (tsj_job job_p) false ;;
  match json_p with
  | Some base_json =>
    with_start <- json_object_set_new base_json LRS_START_S
                    (JInt (ti_start (tsj_interval_p job_p))) ;;
    match with_start with
    | Some start_json =>
      with_end <- json_object_set_new start_json LRS_END_S
                    (JInt (ti_end (tsj_interval_p job_p))) ;;
      match with_end with
      | Some end_json => ret (Some end_json)
      | None =>
        PrintJSONToErrors start_json
          ("Failed to add " +:+ LRS_END_S +:+ " "
             +:+ pretty (size_t_cast (ti_end (tsj_interval_p job_p)))
             +:+ " to json") ;;
        ret None
      end
    | None =>
      PrintJSONToErrors base_json
        ("Failed to add " +:+ LRS_END_S +:+ " "
           +:+ pretty (size_t_cast (ti_end (tsj_interval_p job_p)))
           +:+ " to json") ;;
      ret None
    end
  | None =>
    PrintErrors "Failed to create JSON for TimedServiceJob" ;;
    ret None
  end.

(** A [TimeInterval] straight from [AllocMemory]: nothing is initialised. *)
Definition fresh_TimeInterval (junk : Z) : TimeInterval :=
  mkTimeInterval junk junk junk.

Definition GetTimedServiceJobFromJSON (json_p : json) : M (option TimedServiceJob) :=
  job_p <- AllocMemory ;;
  match job_p with
  | Some _ =>
    interval_p <- AllocMemory ;;
    let tsj_interval := option_map fresh_TimeInterval interval_p in
    built <-
      match tsj_interval with
      | Some ti0 =>
        match InitServiceJobFromJSON json_p with
        | Some base =>
          match GetJSONLong json_p LRS_START_S with
          | Some start =>
            let ti1 := mkTimeInterval start (ti_end ti0) (ti_duration ti0) in
            match GetJSONLong json_p LRS_END_S with
            | Some end_ =>
              let ti2 := mkTimeInterval (ti_start ti1) end_ (ti_duration ti1) in
              let old_status := GetServiceJobStatus base in
              let added_flag :=
                match GetJSONBoolean json_p LRS_ADDED_FLAG_S with
                | Some b => b
                | None => false
                end in
              let job := mkTimedServiceJob base ti2 added_flag in
              job' <-
                (if bool_decide (old_status = OS_STARTED) then
                   r <- GetTimedServiceJobStatus job ;;
                   (if bool_decide (fst r <> old_status) then
                      RemoveServiceJobFromJobsManager
                        (sj_id (tsj_job (snd r))) false ;;
                      ret tt
                    else ret tt) ;;
                   ret (snd r)
                 else ret job) ;;
              ret (Some job')
            | None =>
              PrintErrors ("Failed to get " +:+ LRS_END_S +:+ " from JSON") ;;
              ret None
            end
          | None =>
            PrintErrors ("Failed to get " +:+ LRS_START_S +:+ " from JSON") ;;
            ret None
          end
        | None =>
          PrintErrors "Failed to init ServiceJob from JSON" ;;
          PrintJSONToLog json_p "Init ServiceJob failure: " ;;
          ret None
        end
      | None =>
        PrintErrors "Failed to allocate TimeInterval" ;;
        ret None
      end ;;
    match built with
    | Some job => ret (Some job)
    | None => FreeTimedServiceJob tsj_interval ;; ret None
    end
  | None =>
    PrintErrors "Failed to allocate TimedServiceJob" ;;
    ret None
  end.

Definition BuildTimedServiceJob (service_job_json_p : json)
  : M (option TimedServiceJob) :=
  GetTimedServiceJobFromJSON service_job_json_p.

Definition BuildTimedServiceJobJSON (service_job_p : TimedServiceJob)
                                    (omit_results_flag : bool) : M (option json) :=
  GetTimedServiceJobAsJSON service_job_p.

(** *** The remaining entry points of the service *)

(** Modelled from the spec: the parameter types of the core library, as far
    as the two parameters of section 6 need them. *)
Inductive ParameterType : Type :=
  | PT_SIGNED_INT
  | PT_UNSIGNED_INT.

(** The two [NamedParameterType] constants: [LRS_MIN_DURATION] and
    [LRS_NUMBER_OF_JOBS] above are their names, these are their types. *)
Definition LRS_MIN_DURATION_type : ParameterType := PT_SIGNED_INT.
Definition LRS_NUMBER_OF_JOBS_type : ParameterType := PT_UNSIGNED_INT.

(** [strcmp (a, b) == 0] *)
Definition strcmp_eq (a b : string) : bool := bool_decide (a = b).

(** The type that is stored through [pt_p], or [None] when the function
    answers [false]. *)
Definition GetLongRunningServiceParameterTypesForNamedParameters
  (param_name_s : string) : option ParameterType :=
  if strcmp_eq param_name_s LRS_NUMBER_OF_JOBS then Some LRS_NUMBER_OF_JOBS_type
  else if strcmp_eq param_name_s LRS_MIN_DURATION then Some LRS_MIN_DURATION_type
  else None.

(** Modelled from the spec: a parameter set is one heap block; a parameter
    that is created starts with its default as its current value, and
    creating it can fail. *)
Definition AllocateParameterSet : M (option (gmap string ParameterValue)) :=
  set_p <- AllocMemory ;;
  ret (match set_p with Some _ => Some ∅ | None => None end).

Definition FreeParameterSet : M unit := FreeMemory.

Definition EasyCreateAndAddUnsignedIntParameterToParameterSet
  (params_p : gmap string ParameterValue) (name_s : string) (default_p : option N)
  : M (option (gmap string ParameterValue)) :=
  ok <- attempt ;;
  ret (if ok then Some (<[name_s := PV_UnsignedInt default_p]> params_p)
       else None).

Definition EasyCreateAndAddSignedIntParameterToParameterSet
  (params_p : gmap string ParameterValue) (name_s : string) (default_p : option Z)
  : M (option (gmap string ParameterValue)) :=
  ok <- attempt ;;
  ret (if ok then Some (<[name_s := PV_SignedInt default_p]> params_p)
       else None).

(** [pa_required_flag] is not represented. *)
Definition GetLongRunningServiceParameters (service_p : Service)
  : M (option (gmap string ParameterValue)) :=
  param_set_p <- AllocateParameterSet ;;
  match param_set_p with
  | Some params0 =>
    let data_p := se_data_p service_p in
    with_jobs <- EasyCreateAndAddUnsignedIntParameterToParameterSet
                   params0 LRS_NUMBER_OF_JOBS
                   (Some (Z.to_N (lsd_default_number_of_jobs data_p))) ;;
    built <-
      match with_jobs with
      | Some params1 =>
        EasyCreateAndAddSignedIntParameterToParameterSet
          params1 LRS_MIN_DURATION None
      | None => ret None
      end ;;
    match built with
    | Some params2 => ret (Some params2)
    | None => FreeParameterSet ;; ret None
    end
  | None => ret None
  end.

Definition ReleaseLongRunningServiceParameters : M unit := FreeParameterSet.

(** The JobsManager hands out the registered job itself, so the status that
    [GetTimedServiceJobStatus] stores goes into the registered job. *)
Definition GetLongRunningServiceStatus (job_id : uuid_t) : M OperationStatus :=
  job_p <- GetServiceJobFromJobsManager job_id ;;
  match job_p with
  | Some job =>
    r <- GetTimedServiceJobStatus job ;;
    (fun w => (tt, set_jobs (<[job_id := snd r]> (w_jobs w)) w)) ;;
    ret (fst r)
  | None =>
    PrintErrors ("Failed to get job data for " +:+ dquote
                   +:+ ConvertUUIDToString job_id +:+ dquote) ;;
    ret OS_ERROR
  end.

(** jansson's [json_dumps] is a parameter: the text of a value, or [None]
    when it fails.  The result is the buffer and what is stored through
    [value_length_p], an [unsigned int]. *)
Definition SerialiseTimedServiceJob
  (json_dumps : json -> option string) (base_job_p : TimedServiceJob)
  : M (option (string * Z)) :=
  job_json_p <- GetTimedServiceJobAsJSON base_job_p ;;
  match job_json_p with
  | Some job_json =>
    match json_dumps job_json with
    | Some job_s =>
      ret (Some (job_s, (Z.of_nat (String.length job_s) + 1) mod 2 ^ 32))
    | None =>
      PrintErrors ("json_dumps failed for " +:+ dquote
                     +:+ ConvertUUIDToString (sj_id (tsj_job base_job_p))
                     +:+ dquote) ;;
      ret None
    end
  | None =>
    PrintErrors ("GetTimedServiceJobAsJSON failed for " +:+ dquote
                   +:+ ConvertUUIDToString (sj_id (tsj_job base_job_p))
                   +:+ dquote) ;;
    ret None
  end.

(** * Properties *)

(** ** Reading the outcome of a run *)

(** The status that polling [job_p] in the world [w] reports. *)
Definition polled_status (job_p : TimedServiceJob) (w : World) : OperationStatus :=
  fst (fst (GetTimedServiceJobStatus job_p w)).

(** The job that [StartTimedServiceJob] leaves behind. *)
Definition started_job (job_p : TimedServiceJob) (w : World) : TimedServiceJob :=
  fst (StartTimedServiceJob job_p w).

(** No fallible call fails among the next [n] ones. *)
Definition no_faults (w : World) (n : nat) : Prop :=
  forall k : nat, (k < n)%nat -> w_fault w (w_calls w + k) = false.

(** What a job of duration [d] reports over its life: idle until it is
    started; once started at [t0], provided [t0 + d] is a [time_t], started
    at every query time in [[t0, t0 + d]] and succeeded after it. *)
Definition started_job_lifecycle (d : Z) : Prop :=
  forall (name_s description_s : string) (w0 w1 : World) (job : TimedServiceJob),
    AllocateTimedServiceJob name_s description_s d w0 = (Some job, w1) ->
    (forall wq : World, polled_status job wq = OS_IDLE) /\
    (forall w : World,
        TIME_MIN <= now w -> now w + d <= TIME_MAX ->
        ti_start (tsj_interval_p (started_job job w)) = now w /\
        ti_end (tsj_interval_p (started_job job w)) = now w + d /\
        forall wq : World,
          (now w <= now wq <= now w + d ->
           polled_status (started_job job w) wq = OS_STARTED) /\
          (now w + d < now wq ->
           polled_status (started_job job w) wq = OS_SUCCEEDED)).

(** The job that the k-th iteration of the batch loop creates when the
    loop is entered in the world [w] with the name counter at [i]. *)
Definition batch_duration (w : World) (min_duration : Z) (k : nat) : Z :=
  int32_wrap (min_duration + Z.rem (Z.of_N (w_rand w (w_rands w + k))) 60).

Definition batch_job (w : World) (i : nat) (min_duration : Z) (k : nat)
  : TimedServiceJob :=
  mkTimedServiceJob
    (mkServiceJob (w_uuid w (w_uuids w + k))
       ("job " +:+ pretty (int32_wrap (Z.of_nat (i + k))))
       ("duration " +:+ pretty (size_t_cast (batch_duration w min_duration k)))
       LRS_SERVICE_JOB_TYPE_S OS_IDLE JNull)
    (mkTimeInterval 0 0 (batch_duration w min_duration k)) false.

(** The world after [n] iterations of the batch loop have gone well. *)
Definition after_batch (w : World) (n : nat) : World :=
  set_uuids (w_uuids w + n)
    (set_rands (w_rands w + n)
       (set_live (w_live w + 2 * Z.of_nat n)
          (set_calls (w_calls w + 3 * n) w))).

(** The message that the runner logs when a job cannot be registered. *)
Definition registration_message (id : uuid_t) : string :=
  "Failed to add job " +:+ dquote +:+ ConvertUUIDToString id +:+ dquote
    +:+ " to JobsManager".

(** The JobsManager [m] holds a job under [id], and that job has its flag
    set. *)
Definition registered_flagged (m : gmap N TimedServiceJob) (id : uuid_t) : Prop :=
  exists job_p : TimedServiceJob,
    m !! id = Some job_p /\ tsj_added_flag job_p = true.

(** What the runner has made of [job] when it comes back as [job'] in the
    world [w'], the run having begun in [w], with [failed] telling whether
    the registration of the job failed: the job keeps its identity and its
    duration, it has been stamped with a reading of the clock as its start
    and with start plus duration as its end, its flag says whether it was
    registered, a failure has been logged, and a registered job is in the
    JobsManager with its flag set, as it was when registration was tried. *)
Definition run_job_outcome (failed : bool) (job job' : TimedServiceJob)
                           (w w' : World) : Prop :=
  sj_id (tsj_job job') = sj_id (tsj_job job) /\
  sj_name (tsj_job job') = sj_name (tsj_job job) /\
  sj_description (tsj_job job') = sj_description (tsj_job job) /\
  sj_type (tsj_job job') = sj_type (tsj_job job) /\
  ti_duration (tsj_interval_p job') = ti_duration (tsj_interval_p job) /\
  (exists n : nat, (w_ticks w <= n)%nat /\
                   ti_start (tsj_interval_p job') = w_clock w n) /\
  ti_end (tsj_interval_p job') =
    time_t_wrap (ti_start (tsj_interval_p job') + ti_duration (tsj_interval_p job')) /\
  tsj_added_flag job' = negb failed /\
  (failed = true -> registration_message (sj_id (tsj_job job)) ∈ w_log w') /\
  (failed = false -> registered_flagged (w_jobs w') (sj_id (tsj_job job))).

(** The document that [GetTimedServiceJobAsJSON] writes for [job_p] when
    none of its calls fails. *)
Definition persisted_document (job_p : TimedServiceJob) : json :=
  JObj (<[LRS_END_S := JInt (ti_end (tsj_interval_p job_p))]>
       (<[LRS_START_S := JInt (ti_start (tsj_interval_p job_p))]>
       (<["result" := sj_result (tsj_job job_p)]>
       (<["id" := JStr (ConvertUUIDToString (sj_id (tsj_job job_p)))]>
       (<["name" := JStr (sj_name (tsj_job job_p))]>
       (<["description" := JStr (sj_description (tsj_job job_p))]>
       (<["type" := JStr (sj_type (tsj_job job_p))]>
       (<["status" := JInt (OperationStatus_code (sj_status (tsj_job job_p)))]>
          ∅)))))))).

(** The flag that rehydration gives a job read from [json_p]. *)
Definition persisted_flag (json_p : json) : bool :=
  match GetJSONBoolean json_p LRS_ADDED_FLAG_S with
  | Some b => b
  | None => false
  end.

(** ** The runner, step by step *)

(** The job that the runner makes of [job] when it reaches it in the world
    [w]: stamped with the reading of the clock, with the status that the
    poll right after gives, and with its flag telling whether the
    registration went through. *)
Definition stamped_interval (job : TimedServiceJob) (w : World) : TimeInterval :=
  mkTimeInterval (now w)
    (time_t_wrap (now w + ti_duration (tsj_interval_p job)))
    (ti_duration (tsj_interval_p job)).

Definition run_job (job : TimedServiceJob) (w : World) : TimedServiceJob :=
  mkTimedServiceJob
    (SetServiceJobStatus (tsj_job job)
       (polled_status (started_job job w) (set_ticks (S (w_ticks w)) w)))
    (stamped_interval job w)
    (negb (w_fault w (w_calls w))).

(** The world in which the runner goes on to the next job. *)
Definition run_world (job : TimedServiceJob) (w : World) : World :=
  let wb :=
    if now w =? time_t_wrap (now w + ti_duration (tsj_interval_p job))
    then set_ticks (S (w_ticks w)) w
    else set_ticks (S (S (w_ticks w))) w in
  if w_fault w (w_calls w)
  then set_log (w_log w ++ [registration_message (sj_id (tsj_job job))])
               (set_calls (S (w_calls w)) wb)
  else set_jobs (<[sj_id (tsj_job job) := run_job job w]> (w_jobs w))
                (set_calls (S (w_calls w)) wb).

(** The identifiers of a list of jobs, in order. *)
Definition job_ids (jobs : list TimedServiceJob) : list uuid_t :=
  map (fun job => sj_id (tsj_job job)) jobs.

(** Two jobs differ at most in the status that is stored in them. *)
Definition same_but_status (job job' : TimedServiceJob) : Prop :=
  tsj_job job' = SetServiceJobStatus (tsj_job job) (sj_status (tsj_job job')) /\
  tsj_interval_p job' = tsj_interval_p job /\
  tsj_added_flag job' = tsj_added_flag job.

(** ** Worlds and jobs for the examples *)

(** A world in which nothing fails: the clock reads [t] and stands still,
    fresh memory reads as [junk], [rand] returns 5, 66, 127, ... and the
    k-th identifier is [10 + k]. *)
Definition calm_world (t junk : Z) : World :=
  mkWorld (fun _ => t) 0 (fun _ => false) (fun _ => junk) 0
          (fun k => N.of_nat (61 * k + 5)) 0 (fun k => N.of_nat (10 + k)) 0
          ∅ [] 0.

(** A job as [AllocateTimedServiceJob] creates it. *)
Definition new_job (id : uuid_t) (d : Z) : TimedServiceJob :=
  mkTimedServiceJob
    (mkServiceJob id "job 0" "duration" LRS_SERVICE_JOB_TYPE_S OS_IDLE JNull)
    (mkTimeInterval 0 0 d) false.

(** A job that was started at 1000 for 30 seconds and registered. *)
Definition stored_job : TimedServiceJob :=
  mkTimedServiceJob
    (mkServiceJob 10%N "job 0" "duration 30" LRS_SERVICE_JOB_TYPE_S
                  OS_STARTED JNull)
    (mkTimeInterval 1000 1030 30) true.

(** The calm world at time [t] with [stored_job] in the JobsManager. *)
Definition registry_world (t : Z) : World :=
  set_jobs {[ 10%N := stored_job ]} (calm_world t 0).

(** The payload of the result query for [stored_job]. *)
Definition stored_payload : json :=
  JObj (<["end" := JInt 1030]> {["start" := JInt 1000]}).

(** A service that owns [stored_job]. *)
Definition stored_service : Service :=
  mkService (Some [stored_job]) (mkLongRunningServiceData 3).

(** A request for two jobs of at least ten seconds. *)
Definition two_jobs_request : gmap string ParameterValue :=
  <[LRS_NUMBER_OF_JOBS := PV_UnsignedInt (Some 2%N)]>
    {[ LRS_MIN_DURATION := PV_SignedInt (Some 10) ]}.

(** The calm world at time 1000, except that the call number 8 fails: for
    a request of two jobs that is the registration of the second job. *)
Definition second_registration_fails : World :=
  mkWorld (fun _ => 1000) 0 (fun k => Nat.eqb k 8) (fun _ => 0) 0
          (fun k => N.of_nat (61 * k + 5)) 0 (fun k => N.of_nat (10 + k)) 0
          ∅ [] 0.

Ltac unfold_effects :=
  unfold bind, ret, time, attempt, AllocMemory, FreeMemory, rand, uuid_generate,
         PrintJSONToErrors, PrintJSONToLog, PrintErrors, FreeBaseServiceJob,
         FreeLongRunningServiceData in *.

(** Two worlds are equal when they agree field by field. *)
Lemma World_ext (w w' : World) :
  w_clock w = w_clock w' -> w_ticks w = w_ticks w' -> w_fault w = w_fault w' ->
  w_junk w = w_junk w' -> w_calls w = w_calls w' -> w_rand w = w_rand w' ->
  w_rands w = w_rands w' -> w_uuid w = w_uuid w' -> w_uuids w = w_uuids w' ->
  w_jobs w = w_jobs w' -> w_log w = w_log w' -> w_live w = w_live w' -> w = w'.
Proof. destruct w, w'; cbn; intros; subst; reflexivity. Qed.

Ltac world_eq :=
  apply World_ext; cbn; try reflexivity; try lia.

(** Running a sequence of two computations. *)
Lemma bind_run {A B : Type} (m : M A) (f : A -> M B) (w : World) :
  bind m f w = f (fst (m w)) (snd (m w)).
Proof. unfold bind. destruct (m w). reflexivity. Qed.

(** ** Machine integers *)

Lemma time_t_wrap_id (z : Z) :
  TIME_MIN <= z <= TIME_MAX -> time_t_wrap z = z.
Proof.
  unfold TIME_MIN, TIME_MAX, time_t_wrap, wrap. intros H.
  rewrite Z.mod_small; lia.
Qed.

Lemma int32_wrap_id (z : Z) :
  INT32_MIN <= z <= INT32_MAX -> int32_wrap z = z.
Proof.
  unfold INT32_MIN, INT32_MAX, int32_wrap, wrap. intros H.
  rewrite Z.mod_small; lia.
Qed.

Lemma rand_rem_60 (r : N) : 0 <= Z.rem (Z.of_N r) 60 <= 59.
Proof.
  pose proof (Z.rem_bound_pos (Z.of_N r) 60). lia.
Qed.

(** ** The status rule *)

Lemma polled_status_idle (job_p : TimedServiceJob) (w : World) :
  ti_start (tsj_interval_p job_p) = ti_end (tsj_interval_p job_p) ->
  polled_status job_p w = OS_IDLE.
Proof.
  intros H. unfold polled_status, GetTimedServiceJobStatus. unfold_effects.
  rewrite H, Z.eqb_refl. reflexivity.
Qed.

Lemma polled_status_running (job_p : TimedServiceJob) (w : World) :
  ti_start (tsj_interval_p job_p) <> ti_end (tsj_interval_p job_p) ->
  polled_status job_p w =
    if now w >=? ti_start (tsj_interval_p job_p) then
      if now w <=? ti_end (tsj_interval_p job_p) then OS_STARTED else OS_SUCCEEDED
    else OS_ERROR.
Proof.
  intros H. unfold polled_status, GetTimedServiceJobStatus. unfold_effects.
  apply Z.eqb_neq in H. rewrite H. reflexivity.
Qed.

Lemma polled_status_started (job_p : TimedServiceJob) (w : World) :
  ti_start (tsj_interval_p job_p) <> ti_end (tsj_interval_p job_p) ->
  ti_start (tsj_interval_p job_p) <= now w <= ti_end (tsj_interval_p job_p) ->
  polled_status job_p w = OS_STARTED.
Proof.
  intros Hne [H1 H2]. rewrite polled_status_running by assumption.
  rewrite (proj2 (Z.geb_le _ _) H1), (proj2 (Z.leb_le _ _) H2). reflexivity.
Qed.

Lemma polled_status_succeeded (job_p : TimedServiceJob) (w : World) :
  ti_start (tsj_interval_p job_p) <> ti_end (tsj_interval_p job_p) ->
  ti_start (tsj_interval_p job_p) <= now w ->
  ti_end (tsj_interval_p job_p) < now w ->
  polled_status job_p w = OS_SUCCEEDED.
Proof.
  intros Hne H1 H2. rewrite polled_status_running by assumption.
  rewrite (proj2 (Z.geb_le _ _) H1), (proj2 (Z.leb_gt _ _) H2). reflexivity.
Qed.

Lemma polled_status_error (job_p : TimedServiceJob) (w : World) :
  ti_start (tsj_interval_p job_p) <> ti_end (tsj_interval_p job_p) ->
  now w < ti_start (tsj_interval_p job_p) ->
  polled_status job_p w = OS_ERROR.
Proof.
  intros Hne H1. rewrite polled_status_running by assumption.
  destruct (now w >=? ti_start (tsj_interval_p job_p)) eqn:E; [|reflexivity].
  apply Z.geb_le in E. lia.
Qed.

(** Polling changes the job in its status only, and the world by at most
    one reading of the clock. *)
Lemma GetTimedServiceJobStatus_effect (job_p : TimedServiceJob) (w : World) :
  GetTimedServiceJobStatus job_p w =
    (polled_status job_p w,
     set_tsj_job (SetServiceJobStatus (tsj_job job_p) (polled_status job_p w)) job_p,
     if ti_start (tsj_interval_p job_p) =? ti_end (tsj_interval_p job_p)
     then w else set_ticks (S (w_ticks w)) w).
Proof.
  unfold polled_status, GetTimedServiceJobStatus. unfold_effects.
  destruct (ti_start (tsj_interval_p job_p) =? ti_end (tsj_interval_p job_p));
    reflexivity.
Qed.

(** ** Starting a job *)

Lemma StartTimedServiceJob_effect (job_p : TimedServiceJob) (w : World) :
  StartTimedServiceJob job_p w =
    (mkTimedServiceJob
       (SetServiceJobStatus (tsj_job job_p) OS_STARTED)
       (mkTimeInterval (now w)
          (time_t_wrap (now w + ti_duration (tsj_interval_p job_p)))
          (ti_duration (tsj_interval_p job_p)))
       (tsj_added_flag job_p),
     set_ticks (S (w_ticks w)) w).
Proof. reflexivity. Qed.

(** ** Allocation *)

Lemma AllocateTimedServiceJob_some
  (name_s description_s : string) (d : Z) (w w' : World) (job : TimedServiceJob) :
  AllocateTimedServiceJob name_s description_s d w = (Some job, w') ->
  job = mkTimedServiceJob
          (mkServiceJob (w_uuid w (w_uuids w)) name_s description_s
                        LRS_SERVICE_JOB_TYPE_S OS_IDLE JNull)
          (mkTimeInterval 0 0 d) false /\
  w_fault w (w_calls w) = false /\ w_fault w (S (w_calls w)) = false /\
  w' = set_uuids (S (w_uuids w))
         (set_live (w_live w + 2) (set_calls (S (S (w_calls w))) w)).
Proof.
  unfold AllocateTimedServiceJob, InitServiceJob. unfold_effects.
  destruct (w_fault w (w_calls w)) eqn:E1; simpl; [discriminate|].
  destruct (w_fault w (S (w_calls w))) eqn:E2; simpl; [discriminate|].
  intros H. inversion H; subst. repeat split.
  world_eq.
Qed.

Lemma AllocateTimedServiceJob_ok
  (name_s description_s : string) (d : Z) (w : World) :
  no_faults w 2 ->
  AllocateTimedServiceJob name_s description_s d w =
    (Some (mkTimedServiceJob
             (mkServiceJob (w_uuid w (w_uuids w)) name_s description_s
                           LRS_SERVICE_JOB_TYPE_S OS_IDLE JNull)
             (mkTimeInterval 0 0 d) false),
     set_uuids (S (w_uuids w))
       (set_live (w_live w + 2) (set_calls (S (S (w_calls w))) w))).
Proof.
  intros Hok.
  pose proof (Hok 0%nat ltac:(lia)) as H0. pose proof (Hok 1%nat ltac:(lia)) as H1.
  rewrite Nat.add_0_r in H0. rewrite Nat.add_1_r in H1.
  unfold AllocateTimedServiceJob, InitServiceJob. unfold_effects.
  rewrite H0. simpl. rewrite H1. simpl.
  f_equal. world_eq.
Qed.

(** ** The life of a timed job *)

(** C3: [GetTimedServiceJobStatus] is idle when start and end coincide;
    otherwise, with [now] the reading of the clock, it is an error when
    [now < start], started when [start <= now <= end] and succeeded when
    [now > end].  The job comes back with that status stored in it and is
    otherwise unchanged; the world is unchanged but for the one reading of
    the clock that the second case takes. *)
Theorem GetTimedServiceJobStatus_case_split (job_p : TimedServiceJob) (w : World) :
  let ti := tsj_interval_p job_p in
  let r := GetTimedServiceJobStatus job_p w in
  let status := fst (fst r) in
  (ti_start ti = ti_end ti -> status = OS_IDLE /\ snd r = w) /\
  (ti_start ti <> ti_end ti ->
     snd r = set_ticks (S (w_ticks w)) w /\
     (now w < ti_start ti -> status = OS_ERROR) /\
     (ti_start ti <= now w -> now w <= ti_end ti -> status = OS_STARTED) /\
     (ti_start ti <= now w -> ti_end ti < now w -> status = OS_SUCCEEDED)) /\
  snd (fst r) = set_tsj_job (SetServiceJobStatus (tsj_job job_p) status) job_p /\
  sj_status (tsj_job (snd (fst r))) = status /\
  tsj_interval_p (snd (fst r)) = ti /\
  tsj_added_flag (snd (fst r)) = tsj_added_flag job_p.
Proof.
  intros ti r status. subst r status ti.
  rewrite GetTimedServiceJobStatus_effect. simpl.
  split; [|split; [|repeat split]].
  - intros H. split; [apply polled_status_idle; exact H|].
    rewrite H, Z.eqb_refl. reflexivity.
  - intros H. split; [|split; [|split]].
    + apply Z.eqb_neq in H. rewrite H. reflexivity.
    + intros H1. apply polled_status_error; assumption.
    + intros H1 H2. apply polled_status_started; [assumption | lia].
    + intros H1 H2. apply polled_status_succeeded; assumption.
Qed.

(** C1, amended: for every duration [d >= 1], a job is idle at every query
    before it is started, and once started at [t0] it is started at every
    query time in [[t0, t0 + d]] and succeeded at every later one. *)
Theorem started_job_lifecycle_positive (d : Z) :
  0 < d -> started_job_lifecycle d.
Proof.
  intros Hd name_s description_s w0 w1 job Halloc.
  apply AllocateTimedServiceJob_some in Halloc as (-> & _).
  split.
  - intros wq. apply polled_status_idle. reflexivity.
  - intros w Hlo Hhi. unfold started_job. rewrite StartTimedServiceJob_effect.
    simpl. rewrite time_t_wrap_id by lia.
    split; [reflexivity | split; [reflexivity |]].
    intros wq. split; intros Hq.
    + apply polled_status_started; simpl; lia.
    + apply polled_status_succeeded; simpl; lia.
Qed.

(** C10: a job can be allocated with a negative duration [d].  Once it is
    started its end lies strictly before its start, every poll at a query
    time from the start on reports it succeeded, and no poll at any time
    reports it started. *)
Theorem negative_duration_never_started
  (d : Z) (name_s description_s : string) (w0 : World) :
  d < 0 -> no_faults w0 2 ->
  exists (job : TimedServiceJob) (w1 : World),
    AllocateTimedServiceJob name_s description_s d w0 = (Some job, w1) /\
    ti_duration (tsj_interval_p job) = d /\
    forall w : World,
      TIME_MIN <= now w + d -> now w <= TIME_MAX ->
      ti_end (tsj_interval_p (started_job job w))
        < ti_start (tsj_interval_p (started_job job w)) /\
      forall wq : World,
        (ti_start (tsj_interval_p (started_job job w)) <= now wq ->
         polled_status (started_job job w) wq = OS_SUCCEEDED) /\
        polled_status (started_job job w) wq <> OS_STARTED.
Proof.
  intros Hd Hok. eexists _, _. split; [apply AllocateTimedServiceJob_ok, Hok|].
  split; [reflexivity|].
  intros w Hlo Hhi. unfold started_job. rewrite StartTimedServiceJob_effect.
  simpl. rewrite time_t_wrap_id by lia. split; [lia|].
  intros wq. split.
  - intros Hq. apply polled_status_succeeded; simpl; lia.
  - rewrite polled_status_running by (simpl; lia). simpl.
    destruct (now wq >=? now w) eqn:E1; [|discriminate].
    destruct (now wq <=? now w + d) eqn:E2; [|discriminate].
    apply Z.geb_le in E1. apply Z.leb_le in E2. lia.
Qed.

(** ** Closing the service *)

(** Polling reads nothing of the world but the clock. *)
Lemma polled_status_now (job_p : TimedServiceJob) (w w' : World) :
  now w = now w' -> polled_status job_p w = polled_status job_p w'.
Proof.
  intros H. unfold polled_status, GetTimedServiceJobStatus. unfold_effects.
  destruct (ti_start (tsj_interval_p job_p) =? ti_end (tsj_interval_p job_p));
    simpl; [reflexivity | rewrite H; reflexivity].
Qed.

Lemma polled_status_not_pending (job_p : TimedServiceJob) (w : World) :
  polled_status job_p w <> OS_PENDING.
Proof.
  unfold polled_status, GetTimedServiceJobStatus. unfold_effects.
  destruct (ti_start (tsj_interval_p job_p) =? ti_end (tsj_interval_p job_p));
    simpl; [discriminate|].
  destruct (now w >=? _); [destruct (now w <=? _)|]; discriminate.
Qed.

(** The loop stops at the first job that is pending or started, and moves
    nothing in the world but the clock. *)
Lemma CloseLongRunningService_loop_spec (t : Z) (jobs : list TimedServiceJob) :
  forall (w w' : World) (flag : bool) (jobs' : list TimedServiceJob),
    (forall k : nat, w_clock w k = t) ->
    CloseLongRunningService_loop jobs w = (flag, jobs', w') ->
    (flag = false <->
     exists job, job ∈ jobs /\
       (polled_status job w = OS_STARTED \/ polled_status job w = OS_PENDING)) /\
    exists n : nat, w' = set_ticks n w.
Proof.
  induction jobs as [|job rest IH]; intros w w' flag jobs' Hclock Hrun.
  - inversion Hrun; subst. split.
    + split; [discriminate|]. intros (job & Hin & _). inversion Hin.
    + exists (w_ticks w'). destruct w'; reflexivity.
  - cbn [CloseLongRunningService_loop] in Hrun.
    rewrite bind_run, GetTimedServiceJobStatus_effect in Hrun.
    cbn [fst snd] in Hrun.
    set (w1 := if ti_start (tsj_interval_p job) =? ti_end (tsj_interval_p job)
               then w else set_ticks (S (w_ticks w)) w) in *.
    assert (Hw1 : w1 = set_ticks (w_ticks w1) w).
    { subst w1. destruct (_ =? _); [destruct w|]; reflexivity. }
    assert (Hc1 : forall k : nat, w_clock w1 k = t).
    { intros k. rewrite Hw1. apply Hclock. }
    assert (Hnow : forall j, polled_status j w1 = polled_status j w).
    { intros j. apply polled_status_now. unfold now. rewrite Hc1, Hclock.
      reflexivity. }
    destruct (bool_decide (polled_status job w = OS_PENDING)
              || bool_decide (polled_status job w = OS_STARTED)) eqn:E.
    + inversion Hrun; subst flag jobs' w'.
      split; [|exists (w_ticks w1); exact Hw1].
      split; [|reflexivity]. intros _. exists job. split; [left|].
      apply orb_true_iff in E as [E|E]; apply bool_decide_eq_true in E; auto.
    + apply orb_false_iff in E as [E1 E2].
      apply bool_decide_eq_false in E1, E2.
      rewrite bind_run in Hrun.
      destruct (CloseLongRunningService_loop rest w1) as [[flag1 rest'] w2] eqn:Hrest.
      inversion Hrun; subst flag jobs' w'.
      destruct (IH _ _ _ _ Hc1 Hrest) as [IHiff (n & ->)]. split.
      * rewrite IHiff. split.
        -- intros (j & Hin & Hj). exists j. rewrite !Hnow in Hj.
           split; [right; exact Hin | exact Hj].
        -- intros (j & Hin & Hj). inversion Hin; subst.
           ++ destruct Hj; contradiction.
           ++ exists j. rewrite !Hnow. split; assumption.
      * exists n. rewrite Hw1. reflexivity.
Qed.

(** C9: with the clock at [t] for the length of the request,
    [CloseLongRunningService] answers "not closed" exactly when some job of
    the service polls as started or pending, and then gives no memory
    back; it answers "closed" exactly when every job polls as idle,
    succeeded or in error, and then gives back one block, the service
    data. *)
Theorem CloseLongRunningService_refuses_running_jobs
  (service_p : Service) (w : World) (t : Z) :
  (forall k : nat, w_clock w k = t) ->
  let r := CloseLongRunningService service_p w in
  let close_flag := fst (fst r) in
  let jobs := match se_jobs_p service_p with Some jobs => jobs | None => [] end in
  (close_flag = false <->
   exists job, job ∈ jobs /\
     (polled_status job w = OS_STARTED \/ polled_status job w = OS_PENDING)) /\
  (close_flag = true <->
   forall job, job ∈ jobs ->
     polled_status job w = OS_IDLE \/ polled_status job w = OS_SUCCEEDED \/
     polled_status job w = OS_ERROR) /\
  (close_flag = false -> w_live (snd r) = w_live w) /\
  (close_flag = true -> w_live (snd r) = w_live w - 1).
Proof.
  intros Hclock r close_flag jobs.
  assert (Hloop :
    (close_flag = false <->
     exists job, job ∈ jobs /\
       (polled_status job w = OS_STARTED \/ polled_status job w = OS_PENDING)) /\
    w_live (snd r) = if close_flag then w_live w - 1 else w_live w).
  { subst r close_flag jobs. unfold CloseLongRunningService.
    destruct (se_jobs_p service_p) as [js|].
    - destruct (CloseLongRunningService_loop js w) as [[flag js'] w1] eqn:Hrun.
      destruct (CloseLongRunningService_loop_spec t js _ _ _ _ Hclock Hrun)
        as [Hiff (n & ->)].
      unfold_effects. rewrite Hrun.
      destruct flag; cbn [fst snd]; (split; [exact Hiff | reflexivity]).
    - unfold_effects. cbn [fst snd]. split; [|reflexivity].
      split; [discriminate|]. intros (job & Hin & _). inversion Hin. }
  destruct Hloop as [Hiff Hlive]. split; [exact Hiff|]. split; [|split].
  - split.
    + intros Htrue job Hin.
      destruct (polled_status job w) eqn:E; auto.
      * exfalso. apply (polled_status_not_pending job w E).
      * assert (close_flag = false) by (apply Hiff; eauto). congruence.
    + intros Hall. destruct close_flag; [reflexivity|].
      destruct (proj1 Hiff eq_refl) as (job & Hin & Hj).
      destruct (Hall job Hin) as [H|[H|H]]; destruct Hj; congruence.
  - intros E. rewrite Hlive, E. reflexivity.
  - intros E. rewrite Hlive, E. reflexivity.
Qed.

(** ** Building a batch *)

Lemma FreeServiceJobs_effect (jobs : list TimedServiceJob) :
  forall w : World,
    FreeServiceJobs jobs w =
      (tt, set_live (w_live w - 2 * Z.of_nat (length jobs)) w).
Proof.
  induction jobs as [|job rest IH]; intros w.
  - cbn. f_equal. destruct w; world_eq.
  - cbn [FreeServiceJobs]. rewrite bind_run. unfold FreeTimedServiceJob.
    unfold_effects. cbn [fst snd]. rewrite IH. f_equal. cbn [length].
    world_eq.
Qed.

Lemma after_batch_0 (w : World) : after_batch w 0 = w.
Proof. unfold after_batch. world_eq. Qed.

(** One good iteration followed by [n] more is [S n] good iterations. *)
Lemma after_batch_S (w : World) (n : nat) :
  after_batch (after_batch w 1) n = after_batch w (S n).
Proof. unfold after_batch. world_eq. Qed.

Lemma batch_job_S (w : World) (i : nat) (d : Z) (k : nat) :
  batch_job (after_batch w 1) (S i) d k = batch_job w i d (S k).
Proof.
  unfold batch_job, batch_duration, after_batch. simpl.
  replace (w_uuids w + 1 + k)%nat with (w_uuids w + S k)%nat by lia.
  replace (w_rands w + 1 + k)%nat with (w_rands w + S k)%nat by lia.
  replace (i + S k)%nat with (S (i + k)) by lia.
  reflexivity.
Qed.

(** What one iteration of the batch loop does. *)
Lemma GetServiceJobSet_loop_step
  (left : nat) (i : nat) (d : Z) (jobs : ServiceJobSet) (w : World) :
  (w_fault w (w_calls w) = false /\ w_fault w (S (w_calls w)) = false /\
   w_fault w (S (S (w_calls w))) = false /\
   GetServiceJobSet_loop (S left) i d jobs w =
     GetServiceJobSet_loop left (S i) d (jobs ++ [batch_job w i d 0])
                           (after_batch w 1)) \/
  (exists (k : nat) (w' : World),
     (k < 3)%nat /\ w_fault w (w_calls w + k) = true /\
     GetServiceJobSet_loop (S left) i d jobs w = (false, jobs, w') /\
     w_calls w' = (w_calls w + S k)%nat /\ w_live w' = w_live w).
Proof.
  cbn [GetServiceJobSet_loop].
  unfold AllocateTimedServiceJob, InitServiceJob, AddServiceJobToService,
         FreeTimedServiceJob.
  unfold_effects. cbn.
  destruct (w_fault w (w_calls w)) eqn:F1; cbn.
  { right. exists 0%nat. eexists. rewrite Nat.add_0_r.
    split; [lia|]. split; [exact F1|]. split; [reflexivity|]. cbn. split; [lia|reflexivity]. }
  destruct (w_fault w (S (w_calls w))) eqn:F2; cbn.
  { right. exists 1%nat. eexists. rewrite Nat.add_1_r.
    split; [lia|]. split; [exact F2|]. split; [reflexivity|]. cbn. split; [lia|lia]. }
  destruct (w_fault w (S (S (w_calls w)))) eqn:F3; cbn.
  { right. exists 2%nat. eexists.
    replace (w_calls w + 2)%nat with (S (S (w_calls w))) by lia.
    split; [lia|]. split; [exact F3|]. split; [reflexivity|]. cbn. split; [lia|lia]. }
  left. repeat split.
  unfold batch_job, batch_duration, after_batch. rewrite !Nat.add_0_r.
  f_equal. world_eq.
Qed.

Lemma batch_jobs_S (w : World) (i : nat) (d : Z) (n : nat) :
  batch_job w i d 0 :: map (batch_job (after_batch w 1) (S i) d) (seq 0 n) =
  map (batch_job w i d) (seq 0 (S n)).
Proof.
  cbn [seq map]. f_equal. rewrite <- seq_shift, map_map.
  apply map_ext. intros k. apply batch_job_S.
Qed.

(** The loop either runs all its iterations without a failing call, or
    stops at the first failing call with the jobs made before it. *)
Lemma GetServiceJobSet_loop_spec (left : nat) :
  forall (i : nat) (d : Z) (jobs jobs' : ServiceJobSet) (w w' : World)
         (flag : bool),
    GetServiceJobSet_loop left i d jobs w = (flag, jobs', w') ->
    if flag then
      (forall k : nat, (k < 3 * left)%nat -> w_fault w (w_calls w + k) = false) /\
      jobs' = jobs ++ map (batch_job w i d) (seq 0 left) /\
      w' = after_batch w left
    else
      exists m k : nat,
        (m < left)%nat /\ (w_calls w + k < w_calls w')%nat /\
        w_fault w (w_calls w + k) = true /\
        jobs' = jobs ++ map (batch_job w i d) (seq 0 m) /\
        w_live w' = w_live w + 2 * Z.of_nat m.
Proof.
  induction left as [|left IH]; intros i d jobs jobs' w w' flag Hrun.
  - inversion Hrun; subst. split; [intros k Hk; lia|].
    split; [cbn; rewrite app_nil_r; reflexivity | symmetry; apply after_batch_0].
  - destruct (GetServiceJobSet_loop_step left i d jobs w)
      as [(F1 & F2 & F3 & Hstep) | (k & w1 & Hk & Hf & Hstep & Hcalls & Hlive)].
    + rewrite Hstep in Hrun. apply IH in Hrun. destruct flag.
      * destruct Hrun as (Hok & -> & ->). split; [|split].
        -- intros k Hk. destruct k as [|[|[|k]]].
           ++ rewrite Nat.add_0_r. exact F1.
           ++ rewrite Nat.add_1_r. exact F2.
           ++ replace (w_calls w + 2)%nat with (S (S (w_calls w))) by lia.
              exact F3.
           ++ specialize (Hok k ltac:(lia)). cbn in Hok.
              replace (w_calls w + S (S (S k)))%nat
                with (w_calls w + 3 + k)%nat by lia.
              exact Hok.
        -- rewrite <- app_assoc. cbn [app]. rewrite batch_jobs_S. reflexivity.
        -- apply after_batch_S.
      * destruct Hrun as (m & k & Hm & Hk & Hf & -> & Hlive).
        exists (S m), (3 + k)%nat. cbn in Hk, Hf, Hlive.
        replace (w_calls w + (3 + k))%nat with (w_calls w + 3 + k)%nat by lia.
        split; [lia|]. split; [exact Hk|]. split; [exact Hf|]. split.
        -- rewrite <- app_assoc. cbn [app]. rewrite batch_jobs_S. reflexivity.
        -- lia.
    + rewrite Hstep in Hrun. inversion Hrun; subst flag jobs' w'.
      exists 0%nat, k. split; [lia|]. split; [lia|]. split; [exact Hf|].
      split; [cbn; rewrite app_nil_r; reflexivity | lia].
Qed.

(** The duration that an iteration draws lies within 59 seconds of the
    minimum, as long as the sum is an [int]. *)
Lemma batch_duration_range (w : World) (d : Z) (k : nat) :
  INT32_MIN <= d -> d + 59 <= INT32_MAX ->
  d <= batch_duration w d k <= d + 59.
Proof.
  intros Hlo Hhi. unfold batch_duration.
  pose proof (rand_rem_60 (w_rand w (w_rands w + k))).
  rewrite int32_wrap_id; lia.
Qed.

Lemma lookup_batch_jobs (w : World) (i0 : nat) (d : Z) (n i : nat)
                        (job : TimedServiceJob) :
  map (batch_job w i0 d) (seq 0 n) !! i = Some job ->
  (i < n)%nat /\ job = batch_job w i0 d i.
Proof.
  change (map (batch_job w i0 d) (seq 0 n)) with (batch_job w i0 d <$> seq 0 n).
  rewrite list_lookup_fmap. intros H.
  destruct (seq 0 n !! i) as [k|] eqn:E; [|discriminate].
  apply lookup_seq in E as [-> Hi]. inversion H. split; [exact Hi | reflexivity].
Qed.

Lemma AllocateServiceJobSet_run (w : World) :
  AllocateServiceJobSet w =
    if w_fault w (w_calls w) then (None, set_calls (S (w_calls w)) w)
    else (Some [], set_live (w_live w + 1) (set_calls (S (w_calls w)) w)).
Proof.
  unfold AllocateServiceJobSet. unfold_effects.
  destruct (w_fault w (w_calls w)); reflexivity.
Qed.

(** C6, amended: as long as the minimum duration [d] leaves room for 59 more
    seconds in an [int], [GetServiceJobSet] either returns a set, and then
    no call failed, the set has exactly [num_jobs] jobs, and the job at each
    index [i] is not started, has a duration within [[d, d + 59]] and the
    name made of "job " and [i]; or it returns no set, and then some
    allocation or insertion failed and every block that had been allocated
    on the way has been given back. *)
Theorem GetServiceJobSet_all_or_nothing (num_jobs : N) (d : Z) (w : World) :
  INT32_MIN <= d -> d + 59 <= INT32_MAX ->
  let r := GetServiceJobSet num_jobs d w in
  match fst r with
  | Some jobs =>
    (forall k : nat,
        (w_calls w <= k < w_calls (snd r))%nat -> w_fault w k = false) /\
    length jobs = N.to_nat num_jobs /\
    forall (i : nat) (job : TimedServiceJob),
      jobs !! i = Some job ->
      d <= ti_duration (tsj_interval_p job) <= d + 59 /\
      sj_name (tsj_job job) = "job " +:+ pretty (int32_wrap (Z.of_nat i)) /\
      ti_start (tsj_interval_p job) = 0 /\ ti_end (tsj_interval_p job) = 0 /\
      tsj_added_flag job = false
  | None =>
    (exists k : nat,
        (w_calls w <= k < w_calls (snd r))%nat /\ w_fault w k = true) /\
    w_live (snd r) = w_live w
  end.
Proof.
  intros Hlo Hhi r. subst r. unfold GetServiceJobSet.
  rewrite bind_run, AllocateServiceJobSet_run.
  destruct (w_fault w (w_calls w)) eqn:F0; cbn [fst snd].
  { unfold ret. cbn. split; [|reflexivity]. exists (w_calls w). split; [lia | exact F0]. }
  set (w1 := set_live (w_live w + 1) (set_calls (S (w_calls w)) w)).
  rewrite bind_run.
  destruct (GetServiceJobSet_loop (N.to_nat num_jobs) 0 d [] w1)
    as [[flag jobs'] w2] eqn:Hrun.
  apply GetServiceJobSet_loop_spec in Hrun. destruct flag; cbn [fst snd].
  - destruct Hrun as (Hok & -> & ->). unfold ret. cbn [app fst snd]. split; [|split].
    + intros k [Hk1 Hk2]. unfold after_batch in Hk2. cbn in Hk2.
      destruct (decide (k = w_calls w)) as [->|Hne]; [exact F0|].
      specialize (Hok (k - S (w_calls w))%nat ltac:(lia)). cbn in Hok.
      replace (S (w_calls w + (k - S (w_calls w))))%nat with k in Hok by lia.
      exact Hok.
    + rewrite length_map, length_seq. reflexivity.
    + intros i job Hjob. apply lookup_batch_jobs in Hjob as [Hi ->].
      cbn [batch_job tsj_interval_p ti_duration ti_start ti_end tsj_job sj_name tsj_added_flag].
      split; [apply batch_duration_range; assumption|].
      repeat split.
  - destruct Hrun as (m & k & Hm & Hk & Hf & -> & Hlive). cbn [app].
    unfold FreeServiceJobSet. rewrite !bind_run, FreeServiceJobs_effect.
    unfold_effects. cbn [fst snd]. split.
    + exists (S (w_calls w) + k)%nat. cbn in Hk, Hf |- *.
      split; [lia | exact Hf].
    + cbn. rewrite Hlive, length_map, length_seq. cbn. lia.
Qed.

(** A batch that is delivered is the outcome of a loop that went well. *)
Lemma GetServiceJobSet_some
  (num_jobs : N) (d : Z) (w w1 : World) (jobs : ServiceJobSet) :
  GetServiceJobSet num_jobs d w = (Some jobs, w1) ->
  w1 = after_batch (set_live (w_live w + 1) (set_calls (S (w_calls w)) w))
                   (N.to_nat num_jobs) /\
  jobs = map (batch_job (set_live (w_live w + 1) (set_calls (S (w_calls w)) w))
                        0 d)
             (seq 0 (N.to_nat num_jobs)).
Proof.
  unfold GetServiceJobSet. rewrite bind_run, AllocateServiceJobSet_run.
  destruct (w_fault w (w_calls w)); cbn [fst snd]; [discriminate|].
  rewrite bind_run.
  destruct (GetServiceJobSet_loop _ _ _ _ _) as [[flag js] w2] eqn:Hloop.
  apply GetServiceJobSet_loop_spec in Hloop. cbn [fst snd].
  destruct flag.
  - destruct Hloop as (_ & -> & ->). intros H. inversion H. split; reflexivity.
  - rewrite bind_run. discriminate.
Qed.

(** ** Running the batch *)

Lemma AddServiceJobToJobsManager_run
  (job_id : uuid_t) (job_p : TimedServiceJob) (w : World) :
  AddServiceJobToJobsManager job_id job_p w =
    if w_fault w (w_calls w) then (false, set_calls (S (w_calls w)) w)
    else (true, set_jobs (<[job_id := job_p]> (w_jobs w))
                  (set_calls (S (w_calls w)) w)).
Proof.
  unfold AddServiceJobToJobsManager. unfold_effects.
  destruct (w_fault w (w_calls w)); reflexivity.
Qed.

(** What the runner does with the first job of the set. *)
Lemma RunLongRunningService_loop_cons
  (job : TimedServiceJob) (rest : list TimedServiceJob) (w : World) :
  exists (job' : TimedServiceJob) (w1 : World),
    RunLongRunningService_loop (job :: rest) w =
      (job' :: fst (RunLongRunningService_loop rest w1),
       snd (RunLongRunningService_loop rest w1)) /\
    run_job_outcome (w_fault w (w_calls w)) job job' w w1 /\
    w_clock w1 = w_clock w /\ (w_ticks w <= w_ticks w1)%nat /\
    w_fault w1 = w_fault w /\ w_calls w1 = S (w_calls w) /\
    (exists l, w_log w1 = w_log w ++ l) /\
    (forall id, registered_flagged (w_jobs w) id -> registered_flagged (w_jobs w1) id).
Proof.
  cbn [RunLongRunningService_loop].
  rewrite bind_run, StartTimedServiceJob_effect. cbn [fst snd].
  rewrite bind_run, GetTimedServiceJobStatus_effect. cbn [fst snd].
  cbn [tsj_interval_p ti_start ti_end].
  set (w2 := if now w =? _ then _ else _).
  assert (Hw2 : w_clock w2 = w_clock w /\ (w_ticks w <= w_ticks w2)%nat /\
                w_fault w2 = w_fault w /\ w_calls w2 = w_calls w /\
                w_log w2 = w_log w /\ w_jobs w2 = w_jobs w).
  { subst w2. destruct (now w =? _); cbn; repeat split; lia. }
  destruct Hw2 as (Hclock & Hticks & Hfault & Hcalls & Hlog & Hjobs).
  clearbody w2. 
  rewrite bind_run, AddServiceJobToJobsManager_run. rewrite Hfault, Hcalls.
  destruct (w_fault w (w_calls w)) eqn:F; cbn [negb fst snd].
  - rewrite !bind_run. unfold_effects. cbn [fst snd]. eexists _, _.
    split; [reflexivity|]. unfold run_job_outcome. cbn.
    rewrite ?Hclock, ?Hfault, ?Hcalls, ?Hlog, ?Hjobs.
    repeat split; try reflexivity; try assumption.
    + exists (w_ticks w). split; [lia | reflexivity].
    + intros _. apply elem_of_app. right. apply list_elem_of_singleton.
      reflexivity.
    + discriminate.
    + eexists; reflexivity.
    + auto.
  - rewrite !bind_run. unfold_effects. cbn [fst snd]. eexists _, _.
    split; [reflexivity|]. unfold run_job_outcome. cbn.
    rewrite ?Hclock, ?Hfault, ?Hcalls, ?Hlog, ?Hjobs.
    repeat split; try reflexivity; try assumption.
    + exists (w_ticks w). split; [lia | reflexivity].
    + discriminate.
    + intros _. eexists. rewrite lookup_insert_eq. split; reflexivity.
    + exists []. rewrite app_nil_r. reflexivity.
    + intros id Hid. unfold registered_flagged. rewrite lookup_insert.
      case_decide; [eexists; split; reflexivity | exact Hid].
Qed.

(** An outcome stays true when the run goes on: the log and the
    JobsManager only grow. *)
Lemma run_job_outcome_later
  (failed : bool) (job job' : TimedServiceJob) (w w1 w' : World) :
  run_job_outcome failed job job' w w1 ->
  (exists l, w_log w' = w_log w1 ++ l) ->
  (forall id, registered_flagged (w_jobs w1) id -> registered_flagged (w_jobs w') id) ->
  run_job_outcome failed job job' w w'.
Proof.
  unfold run_job_outcome.
  intros (H1 & H2 & H3 & H4 & H5 & H6 & H7 & H8 & H9 & H10) (l & Hl) Hjobs.
  repeat (split; [assumption|]). split.
  - intros Hf. rewrite Hl. apply elem_of_app. left. auto.
  - intros Hf. auto.
Qed.

(** An outcome of a run that began later is one of a run that began
    earlier on the same clock. *)
Lemma run_job_outcome_earlier
  (failed : bool) (job job' : TimedServiceJob) (w w1 w' : World) :
  run_job_outcome failed job job' w1 w' ->
  w_clock w1 = w_clock w -> (w_ticks w <= w_ticks w1)%nat ->
  run_job_outcome failed job job' w w'.
Proof.
  unfold run_job_outcome.
  intros (H1 & H2 & H3 & H4 & H5 & (n & Hn & H6) & H7) Hclock Hticks.
  repeat (split; [assumption|]). split; [|assumption].
  exists n. rewrite <- Hclock. split; [lia | assumption].
Qed.

(** The runner visits every job of the set in order; the k-th job meets
    the k-th registration attempt. *)
Lemma RunLongRunningService_loop_spec (jobs : list TimedServiceJob) :
  forall (w w' : World) (jobs' : list TimedServiceJob),
    RunLongRunningService_loop jobs w = (jobs', w') ->
    length jobs' = length jobs /\
    w_clock w' = w_clock w /\ (w_ticks w <= w_ticks w')%nat /\
    w_fault w' = w_fault w /\ w_calls w' = (w_calls w + length jobs)%nat /\
    (exists l, w_log w' = w_log w ++ l) /\
    (forall id, registered_flagged (w_jobs w) id -> registered_flagged (w_jobs w') id) /\
    forall (k : nat) (job : TimedServiceJob),
      jobs !! k = Some job ->
      exists job' : TimedServiceJob,
        jobs' !! k = Some job' /\
        run_job_outcome (w_fault w (w_calls w + k)) job job' w w'.
Proof.
  induction jobs as [|job rest IH]; intros w w' jobs' Hrun.
  - inversion Hrun; subst. cbn. repeat split; try lia; try done.
    exists []. rewrite app_nil_r. reflexivity.
  - destruct (RunLongRunningService_loop_cons job rest w)
      as (job' & w1 & Heq & Hout & Hclock & Hticks & Hfault & Hcalls
          & (l1 & Hlog) & Hjobs).
    rewrite Heq in Hrun.
    destruct (RunLongRunningService_loop rest w1) as [rest' w2] eqn:Hrest.
    cbn [fst snd] in Hrun. inversion Hrun; subst jobs' w2.
    destruct (IH _ _ _ Hrest)
      as (Hlen & Hclock' & Hticks' & Hfault' & Hcalls' & (l2 & Hlog')
          & Hjobs' & Hall).
    split; [cbn; lia|]. split; [congruence|]. split; [lia|].
    split; [congruence|]. split; [cbn; lia|].
    split; [exists (l1 ++ l2); rewrite Hlog', Hlog, app_assoc; reflexivity|].
    split; [auto|].
    intros k j Hj. destruct k as [|k]; cbn in Hj.
    + inversion Hj; subst j. exists job'. split; [reflexivity|].
      rewrite Nat.add_0_r.
      eapply run_job_outcome_later; [exact Hout | eauto | exact Hjobs'].
    + destruct (Hall k j Hj) as (j' & Hj' & Hout').
      exists j'. split; [exact Hj'|].
      rewrite Hfault, Hcalls in Hout'.
      replace (w_calls w + S k)%nat with (S (w_calls w) + k)%nat by lia.
      eapply run_job_outcome_earlier; eassumption.
Qed.

(** C7: when the parameters ask for [num_tasks > 0] jobs and the batch
    builder delivers the set [jobs], leaving the world [w1], the runner
    returns a set of the same length, which is also the set of the
    service.  The job at each index [k] of it is the k-th job of [jobs]
    after [StartTimedServiceJob]; it met the k-th registration attempt of
    the run, its flag is [true] when that attempt succeeded and the job is
    then in the JobsManager, and its flag is back to [false] when the
    attempt failed and the failure is then in the log.  Whatever the
    attempts do, every job of the set is processed and returned. *)
Theorem RunLongRunningService_registers_each_job
  (service_p : Service) (param_set_p : gmap string ParameterValue)
  (num_tasks : N) (w w1 : World) (jobs : ServiceJobSet) :
  GetCurrentUnsignedIntParameterValueFromParameterSet
    param_set_p LRS_NUMBER_OF_JOBS = Some (Some num_tasks) ->
  (0 < num_tasks)%N ->
  GetServiceJobSet num_tasks
    (match GetCurrentSignedIntParameterValueFromParameterSet
             param_set_p LRS_MIN_DURATION with
     | Some (Some d) => d
     | _ => 1
     end) w = (Some jobs, w1) ->
  exists jobs' : ServiceJobSet,
    fst (fst (RunLongRunningService service_p param_set_p w)) = Some jobs' /\
    se_jobs_p (snd (fst (RunLongRunningService service_p param_set_p w)))
      = Some jobs' /\
    length jobs' = length jobs /\
    forall (k : nat) (job : TimedServiceJob),
      jobs !! k = Some job ->
      exists job' : TimedServiceJob,
        jobs' !! k = Some job' /\
        run_job_outcome (w_fault w (w_calls w1 + k)) job job' w1
          (snd (RunLongRunningService service_p param_set_p w)).
Proof.
  intros Hnum Hpos Hset. unfold RunLongRunningService. rewrite Hnum.
  apply N.ltb_lt in Hpos. rewrite Hpos. rewrite bind_run, Hset. cbn [fst snd].
  rewrite bind_run.
  destruct (RunLongRunningService_loop jobs w1) as [jobs' w'] eqn:Hrun.
  cbn [fst snd ret se_jobs_p].
  apply RunLongRunningService_loop_spec in Hrun
    as (Hlen & _ & _ & _ & _ & _ & _ & Hall).
  exists jobs'. repeat split; try assumption.
  intros k job Hjob. destruct (Hall k job Hjob) as (job' & Hjob' & Hout).
  exists job'. split; [exact Hjob'|].
  replace (w_fault w) with (w_fault w1); [exact Hout|].
  apply GetServiceJobSet_some in Hset as [-> _]. reflexivity.
Qed.

(** ** Persisting a job *)

Lemma ConvertStringToUUID_ConvertUUIDToString (id : uuid_t) :
  ConvertStringToUUID (ConvertUUIDToString id) = Some id.
Proof.
  unfold ConvertStringToUUID, ConvertUUIDToString.
  rewrite NilZero.usu.
  - rewrite DecimalN.Unsigned.of_to. reflexivity.
  - destruct id as [|p]; [discriminate|].
    apply DecimalPos.Unsigned.to_uint_nonnil.
Qed.

Lemma OperationStatus_of_code_code (status : OperationStatus) :
  OperationStatus_of_code (OperationStatus_code status) = Some status.
Proof. destruct status; reflexivity. Qed.

Lemma GetTimedServiceJobAsJSON_ok (job_p : TimedServiceJob) (w : World) :
  no_faults w 3 ->
  GetTimedServiceJobAsJSON job_p w =
    (Some (persisted_document job_p), set_calls (w_calls w + 3) w).
Proof.
  intros Hok.
  pose proof (Hok 0%nat ltac:(lia)) as H0. pose proof (Hok 1%nat ltac:(lia)) as H1.
  pose proof (Hok 2%nat ltac:(lia)) as H2.
  rewrite Nat.add_0_r in H0. rewrite Nat.add_1_r in H1.
  replace (w_calls w + 2)%nat with (S (S (w_calls w))) in H2 by lia.
  unfold GetTimedServiceJobAsJSON, GetServiceJobAsJSON, json_object_set_new.
  unfold_effects. rewrite H0. cbn. rewrite H1. cbn. rewrite H2. cbn.
  f_equal. world_eq.
Qed.

Lemma InitServiceJobFromJSON_persisted (job_p : TimedServiceJob) :
  InitServiceJobFromJSON (persisted_document job_p) = Some (tsj_job job_p).
Proof.
  unfold InitServiceJobFromJSON, persisted_document, GetJSONString, GetJSONLong,
         GetJSONMember, LRS_END_S, LRS_START_S.
  repeat (rewrite lookup_insert_ne by discriminate).
  rewrite lookup_insert_eq, ConvertStringToUUID_ConvertUUIDToString.
  repeat (rewrite lookup_insert_ne by discriminate). rewrite lookup_insert_eq.
  repeat (rewrite lookup_insert_ne by discriminate). rewrite lookup_insert_eq.
  repeat (rewrite lookup_insert_ne by discriminate). rewrite lookup_insert_eq.
  repeat (rewrite lookup_insert_ne by discriminate). rewrite lookup_insert_eq.
  rewrite OperationStatus_of_code_code.
  repeat (rewrite lookup_insert_ne by discriminate). rewrite lookup_insert_eq.
  destruct job_p as [[] ? ?]. reflexivity.
Qed.

Lemma GetJSONLong_persisted (job_p : TimedServiceJob) :
  GetJSONLong (persisted_document job_p) LRS_START_S
    = Some (ti_start (tsj_interval_p job_p)) /\
  GetJSONLong (persisted_document job_p) LRS_END_S
    = Some (ti_end (tsj_interval_p job_p)) /\
  GetJSONBoolean (persisted_document job_p) LRS_ADDED_FLAG_S = None.
Proof.
  unfold persisted_document, GetJSONLong, GetJSONBoolean,
         LRS_END_S, LRS_START_S, LRS_ADDED_FLAG_S.
  split; [|split].
  - rewrite lookup_insert_ne by discriminate. rewrite lookup_insert_eq.
    reflexivity.
  - rewrite lookup_insert_eq. reflexivity.
  - repeat (rewrite lookup_insert_ne by discriminate). reflexivity.
Qed.

(** ** Rehydrating a job *)

Lemma AllocMemory_run (w : World) :
  AllocMemory w =
    if w_fault w (w_calls w) then (None, set_calls (S (w_calls w)) w)
    else (Some (w_junk w (w_calls w)),
          set_live (w_live w + 1) (set_calls (S (w_calls w)) w)).
Proof. reflexivity. Qed.

(** The world once the two blocks of a job have been allocated. *)
Lemma two_allocations (w : World) :
  set_live (w_live (set_live (w_live w + 1) (set_calls (S (w_calls w)) w)) + 1)
    (set_calls (S (w_calls (set_live (w_live w + 1) (set_calls (S (w_calls w)) w))))
       (set_live (w_live w + 1) (set_calls (S (w_calls w)) w)))
  = set_live (w_live w + 2) (set_calls (S (S (w_calls w))) w).
Proof. world_eq. Qed.

(** Rehydration of a document that has all it needs, when memory is there. *)
Lemma GetTimedServiceJobFromJSON_ok
  (json_p : json) (w : World) (base : ServiceJob) (start end_ : Z) :
  no_faults w 2 ->
  InitServiceJobFromJSON json_p = Some base ->
  GetJSONLong json_p LRS_START_S = Some start ->
  GetJSONLong json_p LRS_END_S = Some end_ ->
  let job := mkTimedServiceJob base
               (mkTimeInterval start end_ (w_junk w (S (w_calls w))))
               (persisted_flag json_p) in
  let w2 := set_live (w_live w + 2) (set_calls (S (S (w_calls w))) w) in
  GetTimedServiceJobFromJSON json_p w =
    if bool_decide (sj_status base = OS_STARTED) then
      (Some (set_tsj_job (SetServiceJobStatus base (polled_status job w)) job),
       if bool_decide (polled_status job w <> OS_STARTED) then
         set_jobs (delete (sj_id base) (w_jobs w))
                  (if start =? end_ then w2 else set_ticks (S (w_ticks w)) w2)
       else if start =? end_ then w2 else set_ticks (S (w_ticks w)) w2)
    else (Some job, w2).
Proof.
  intros Hok Hinit Hstart Hend job w2.
  pose proof (Hok 0%nat ltac:(lia)) as H0. pose proof (Hok 1%nat ltac:(lia)) as H1.
  rewrite Nat.add_0_r in H0. rewrite Nat.add_1_r in H1.
  unfold GetTimedServiceJobFromJSON.
  rewrite bind_run, AllocMemory_run, H0. cbn [fst snd].
  rewrite bind_run, AllocMemory_run. cbn [w_fault w_calls set_live set_calls].
  rewrite H1. cbn [fst snd option_map]. rewrite two_allocations. fold w2.
  rewrite Hinit, Hstart, Hend. unfold GetServiceJobStatus.
  cbn [fresh_TimeInterval ti_start ti_end ti_duration w_junk set_live set_calls].
  fold (persisted_flag json_p). fold job.
  assert (Hpoll : polled_status job w2 = polled_status job w).
  { apply polled_status_now. reflexivity. }
  destruct (bool_decide (sj_status base = OS_STARTED)) eqn:Estatus.
  - apply bool_decide_eq_true in Estatus.
    rewrite !bind_run, GetTimedServiceJobStatus_effect. cbn [fst snd].
    rewrite Hpoll, Estatus.
    cbn [job tsj_interval_p ti_start ti_end tsj_job].
    destruct (bool_decide (polled_status job w <> OS_STARTED)) eqn:Epoll.
    + rewrite !bind_run. unfold RemoveServiceJobFromJobsManager, ret.
      cbn [fst snd set_tsj_job tsj_job SetServiceJobStatus sj_id].
      f_equal. destruct (start =? end_); world_eq.
    + unfold ret. cbn [fst snd]. reflexivity.
  - rewrite !bind_run. unfold ret. cbn [fst snd]. reflexivity.
Qed.

(** Rehydration gives up, and leaves no block behind, as soon as memory is
    short or the document lacks something. *)
Lemma GetTimedServiceJobFromJSON_fail (json_p : json) (w : World) :
  w_fault w (w_calls w) = true \/ w_fault w (S (w_calls w)) = true \/
  InitServiceJobFromJSON json_p = None \/
  GetJSONLong json_p LRS_START_S = None \/
  GetJSONLong json_p LRS_END_S = None ->
  fst (GetTimedServiceJobFromJSON json_p w) = None /\
  w_live (snd (GetTimedServiceJobFromJSON json_p w)) = w_live w /\
  w_jobs (snd (GetTimedServiceJobFromJSON json_p w)) = w_jobs w.
Proof.
  intros H. unfold GetTimedServiceJobFromJSON.
  rewrite bind_run, AllocMemory_run.
  destruct (w_fault w (w_calls w)) eqn:F0; cbn [fst snd].
  { unfold_effects. cbn. auto. }
  rewrite bind_run, AllocMemory_run. cbn [w_fault w_calls set_live set_calls].
  destruct (w_fault w (S (w_calls w))) eqn:F1; cbn [fst snd option_map].
  { rewrite !bind_run. unfold FreeTimedServiceJob. unfold_effects. cbn.
    repeat split. lia. }
  rewrite two_allocations.
  destruct (InitServiceJobFromJSON json_p) as [base|] eqn:Hinit.
  2: { rewrite !bind_run. unfold FreeTimedServiceJob. unfold_effects. cbn.
       repeat split. lia. }
  destruct (GetJSONLong json_p LRS_START_S) as [start|] eqn:Hstart.
  2: { rewrite !bind_run. unfold FreeTimedServiceJob. unfold_effects. cbn.
       repeat split. lia. }
  destruct (GetJSONLong json_p LRS_END_S) as [end_|] eqn:Hend.
  2: { rewrite !bind_run. unfold FreeTimedServiceJob. unfold_effects. cbn.
       repeat split. lia. }
  exfalso. destruct H as [H|[H|[H|[H|H]]]]; discriminate.
Qed.

(** C8: rehydration needs both [start] and [end].  When either is missing
    no job is returned, the blocks of the half-built job have been given
    back and the JobsManager is untouched; a job that is returned comes
    from a document that has both; and when the base fields, [start] and
    [end] are there and memory is not short, a job is returned whether or
    not the document has the [added_to_job_manager] member.  The flag of
    the job is that member, and [false] when the member is missing. *)
Theorem GetTimedServiceJobFromJSON_requires_start_and_end
  (json_p : json) (w : World) :
  let r := GetTimedServiceJobFromJSON json_p w in
  (GetJSONLong json_p LRS_START_S = None \/ GetJSONLong json_p LRS_END_S = None ->
   fst r = None /\ w_live (snd r) = w_live w /\ w_jobs (snd r) = w_jobs w) /\
  (no_faults w 2 -> is_Some (InitServiceJobFromJSON json_p) ->
   is_Some (GetJSONLong json_p LRS_START_S) ->
   is_Some (GetJSONLong json_p LRS_END_S) ->
   is_Some (fst r)) /\
  (forall job : TimedServiceJob,
      fst r = Some job ->
      is_Some (GetJSONLong json_p LRS_START_S) /\
      is_Some (GetJSONLong json_p LRS_END_S) /\
      (GetJSONBoolean json_p LRS_ADDED_FLAG_S = None ->
       tsj_added_flag job = false) /\
      (forall b : bool,
          GetJSONBoolean json_p LRS_ADDED_FLAG_S = Some b ->
          tsj_added_flag job = b)).
Proof.
  intros r. subst r. split; [|split].
  - intros H. apply GetTimedServiceJobFromJSON_fail. tauto.
  - intros Hok [base Hinit] [start Hstart] [end_ Hend].
    rewrite (GetTimedServiceJobFromJSON_ok _ _ _ _ _ Hok Hinit Hstart Hend).
    destruct (bool_decide _); cbn [fst]; eauto.
  - intros job Hjob.
    destruct (w_fault w (w_calls w)) eqn:F0.
    { rewrite (proj1 (GetTimedServiceJobFromJSON_fail json_p w ltac:(auto)))
        in Hjob. discriminate. }
    destruct (w_fault w (S (w_calls w))) eqn:F1.
    { rewrite (proj1 (GetTimedServiceJobFromJSON_fail json_p w ltac:(auto)))
        in Hjob. discriminate. }
    destruct (InitServiceJobFromJSON json_p) as [base|] eqn:Hinit.
    2: { rewrite (proj1 (GetTimedServiceJobFromJSON_fail json_p w ltac:(auto)))
           in Hjob. discriminate. }
    destruct (GetJSONLong json_p LRS_START_S) as [start|] eqn:Hstart.
    2: { rewrite (proj1 (GetTimedServiceJobFromJSON_fail json_p w ltac:(auto)))
           in Hjob. discriminate. }
    destruct (GetJSONLong json_p LRS_END_S) as [end_|] eqn:Hend.
    2: { rewrite (proj1 (GetTimedServiceJobFromJSON_fail json_p w ltac:(auto 6)))
           in Hjob. discriminate. }
    assert (Hok : no_faults w 2).
    { intros k Hk. destruct k as [|[|k]]; [| |lia].
      - rewrite Nat.add_0_r. exact F0.
      - rewrite Nat.add_1_r. exact F1. }
    rewrite (GetTimedServiceJobFromJSON_ok _ _ _ _ _ Hok Hinit Hstart Hend)
      in Hjob.
    assert (Hflag : tsj_added_flag job = persisted_flag json_p).
    { destruct (bool_decide _); cbn [fst] in Hjob; inversion Hjob; reflexivity. }
    split; [eauto|]. split; [eauto|]. rewrite Hflag. unfold persisted_flag.
    split.
    + intros ->. reflexivity.
    + intros b ->. reflexivity.
Qed.

(** Polling reads nothing of the job but its interval. *)
Lemma polled_status_interval (job1 job2 : TimedServiceJob) (w : World) :
  tsj_interval_p job1 = tsj_interval_p job2 ->
  polled_status job1 w = polled_status job2 w.
Proof.
  intros H. unfold polled_status, GetTimedServiceJobStatus. unfold_effects.
  rewrite H. destruct (_ =? _); reflexivity.
Qed.

(** C4: take a document with the base fields, [start] and [end], and let
    memory not be short, so that rehydration returns a job.  When the
    stored status is started, the job carries the status that polling its
    interval at the current time gives; when that is no longer started,
    the entry of the job has been removed from the JobsManager, and
    otherwise the JobsManager is as it was.  When the stored status is not
    started, the job keeps it, the clock has not been read and the
    JobsManager is as it was. *)
Theorem GetTimedServiceJobFromJSON_reconciles_started
  (json_p : json) (w : World) (base : ServiceJob) (start end_ : Z) :
  no_faults w 2 ->
  InitServiceJobFromJSON json_p = Some base ->
  GetJSONLong json_p LRS_START_S = Some start ->
  GetJSONLong json_p LRS_END_S = Some end_ ->
  exists (job : TimedServiceJob) (w' : World),
    GetTimedServiceJobFromJSON json_p w = (Some job, w') /\
    sj_id (tsj_job job) = sj_id base /\
    ti_start (tsj_interval_p job) = start /\
    ti_end (tsj_interval_p job) = end_ /\
    (sj_status base = OS_STARTED ->
     sj_status (tsj_job job) = polled_status job w /\
     (polled_status job w <> OS_STARTED ->
      w_jobs w' = delete (sj_id base) (w_jobs w)) /\
     (polled_status job w = OS_STARTED -> w_jobs w' = w_jobs w)) /\
    (sj_status base <> OS_STARTED ->
     sj_status (tsj_job job) = sj_status base /\
     w_jobs w' = w_jobs w /\ w_ticks w' = w_ticks w).
Proof.
  intros Hok Hinit Hstart Hend.
  rewrite (GetTimedServiceJobFromJSON_ok _ _ _ _ _ Hok Hinit Hstart Hend).
  set (job0 := mkTimedServiceJob base
                 (mkTimeInterval start end_ (w_junk w (S (w_calls w))))
                 (persisted_flag json_p)).
  destruct (bool_decide (sj_status base = OS_STARTED)) eqn:Estatus.
  - apply bool_decide_eq_true in Estatus.
    eexists _, _. split; [reflexivity|].
    assert (Hpoll : polled_status
                      (set_tsj_job (SetServiceJobStatus base (polled_status job0 w))
                                   job0) w
                    = polled_status job0 w).
    { apply polled_status_interval. reflexivity. }
    rewrite Hpoll. cbn [set_tsj_job tsj_job tsj_interval_p SetServiceJobStatus
                        sj_id sj_status ti_start ti_end job0].
    repeat split.
    + intros Hne. rewrite bool_decide_eq_true_2 by exact Hne.
      destruct (start =? end_); reflexivity.
    + intros Heq. rewrite bool_decide_eq_false_2 by (intros Hne; exact (Hne Heq)).
      destruct (start =? end_); reflexivity.
    + contradiction.
    + contradiction.
    + contradiction.
  - apply bool_decide_eq_false in Estatus.
    eexists _, _. split; [reflexivity|]. cbn. repeat split; contradiction.
Qed.

(** ** The round trip *)

(** C2, amended: when no call fails, writing a job and reading the document
    back gives a job with the same identifier, name, description, type tag
    and result, and the same start and end of its interval.  The duration
    is not in the document and nothing is said of it.  The status comes
    back as it was stored unless it was started; then it is the status that
    polling gives at the time of reading, and the entry of the job is
    removed from the JobsManager when that is no longer started. *)
Theorem round_trip_keeps_identity_and_timestamps
  (job : TimedServiceJob) (w w2 : World) :
  no_faults w 3 -> no_faults w2 2 ->
  exists (doc : json) (w1 : World) (job' : TimedServiceJob) (w3 : World),
    GetTimedServiceJobAsJSON job w = (Some doc, w1) /\
    GetTimedServiceJobFromJSON doc w2 = (Some job', w3) /\
    sj_id (tsj_job job') = sj_id (tsj_job job) /\
    sj_name (tsj_job job') = sj_name (tsj_job job) /\
    sj_description (tsj_job job') = sj_description (tsj_job job) /\
    sj_type (tsj_job job') = sj_type (tsj_job job) /\
    sj_result (tsj_job job') = sj_result (tsj_job job) /\
    ti_start (tsj_interval_p job') = ti_start (tsj_interval_p job) /\
    ti_end (tsj_interval_p job') = ti_end (tsj_interval_p job) /\
    (sj_status (tsj_job job) <> OS_STARTED ->
     sj_status (tsj_job job') = sj_status (tsj_job job) /\
     w_jobs w3 = w_jobs w2) /\
    (sj_status (tsj_job job) = OS_STARTED ->
     sj_status (tsj_job job') = polled_status job w2 /\
     (polled_status job w2 <> OS_STARTED ->
      w_jobs w3 = delete (sj_id (tsj_job job)) (w_jobs w2)) /\
     (polled_status job w2 = OS_STARTED -> w_jobs w3 = w_jobs w2)).
Proof.
  intros Hw Hw2.
  destruct (GetJSONLong_persisted job) as (Hstart & Hend & Hflag).
  exists (persisted_document job), (set_calls (w_calls w + 3) w).
  rewrite (GetTimedServiceJobAsJSON_ok job w Hw).
  rewrite (GetTimedServiceJobFromJSON_ok _ _ _ _ _ Hw2
             (InitServiceJobFromJSON_persisted job) Hstart Hend).
  unfold persisted_flag. rewrite Hflag.
  set (job0 := mkTimedServiceJob (tsj_job job)
                 (mkTimeInterval (ti_start (tsj_interval_p job))
                                 (ti_end (tsj_interval_p job))
                                 (w_junk w2 (S (w_calls w2)))) false).
  assert (Hpoll : polled_status job0 w2 = polled_status job w2).
  { unfold polled_status, GetTimedServiceJobStatus. unfold_effects.
    cbn [job0 tsj_interval_p ti_start ti_end].
    destruct (_ =? _); reflexivity. }
  rewrite Hpoll.
  destruct (bool_decide (sj_status (tsj_job job) = OS_STARTED)) eqn:Estatus.
  - apply bool_decide_eq_true in Estatus. eexists _, _.
    split; [reflexivity|]. split; [reflexivity|].
    cbn [set_tsj_job tsj_job tsj_interval_p SetServiceJobStatus tsj_added_flag
         sj_id sj_name sj_description sj_type sj_result sj_status
         ti_start ti_end ti_duration job0].
    repeat split.
    + contradiction.
    + contradiction.
    + intros Hne. rewrite bool_decide_eq_true_2 by exact Hne.
      destruct (_ =? _); reflexivity.
    + intros Heq. rewrite bool_decide_eq_false_2 by (intros Hne; exact (Hne Heq)).
      destruct (_ =? _); reflexivity.
  - apply bool_decide_eq_false in Estatus. eexists _, _.
    split; [reflexivity|]. split; [reflexivity|]. cbn.
    repeat split; contradiction.
Qed.

(** ** The result query *)

Lemma GetLongRunningResultsAsJSON_known
  (job_id : uuid_t) (job : TimedServiceJob) (w : World) :
  w_jobs w !! job_id = Some job -> no_faults w 4 ->
  GetLongRunningResultsAsJSON job_id w =
    (Some (JArr [JObj (<["end" := JInt (int32_wrap (ti_end (tsj_interval_p job)))]>
                         {["start" :=
                             JInt (int32_wrap (ti_start (tsj_interval_p job)))]})]),
     set_calls (w_calls w + 4) w).
Proof.
  intros Hjob Hok.
  pose proof (Hok 0%nat ltac:(lia)) as H0. pose proof (Hok 1%nat ltac:(lia)) as H1.
  pose proof (Hok 2%nat ltac:(lia)) as H2. pose proof (Hok 3%nat ltac:(lia)) as H3.
  rewrite Nat.add_0_r in H0. rewrite Nat.add_1_r in H1.
  replace (w_calls w + 2)%nat with (S (S (w_calls w))) in H2 by lia.
  replace (w_calls w + 3)%nat with (S (S (S (w_calls w)))) in H3 by lia.
  unfold GetLongRunningResultsAsJSON, GetServiceJobFromJobsManager,
         json_pack_ex_si_si, GetDataResourceAsJSONByParts, json_array,
         json_array_append_new.
  unfold_effects. rewrite Hjob, H0. cbn. rewrite H1. cbn. rewrite H2. cbn.
  rewrite H3. cbn. f_equal. world_eq.
Qed.


(** C5, the code at a known identifier: with [stored_job] registered under
    the identifier 10 and no call failing, the result query returns a list
    of one element, and that element is the bare object with [start] and
    [end].  The envelope that [GetDataResourceAsJSONByParts] builds around
    the object, with the object as its [data] member, is not what the list
    holds: the element has no [data] and no [protocol] member. *)
Theorem GetLongRunningResultsAsJSON_returns_bare_payload :
  fst (GetLongRunningResultsAsJSON 10%N (registry_world 1010))
    = Some (JArr [stored_payload]) /\
  GetJSONLong stored_payload "start" = Some 1000 /\
  GetJSONLong stored_payload "end" = Some 1030 /\
  (exists envelope : json,
      fst (GetDataResourceAsJSONByParts PROTOCOL_INLINE_S None "Long Runner"
             stored_payload (registry_world 1010)) = Some envelope /\
      GetJSONString envelope "protocol" = Some PROTOCOL_INLINE_S /\
      GetJSONMember envelope "data" = Some stored_payload) /\
  GetJSONMember stored_payload "protocol" = None /\
  GetJSONMember stored_payload "data" = None.
Proof.
  split.
  - rewrite (GetLongRunningResultsAsJSON_known 10%N stored_job).
    + reflexivity.
    + reflexivity.
    + intros k _. reflexivity.
  - split; [reflexivity|]. split; [reflexivity|]. split.
    + eexists. split; [reflexivity|]. split; reflexivity.
    + split; reflexivity.
Qed.

(** ** The claims at concrete inputs *)

(** C3 at a job that is half way through its thirty seconds. *)
Lemma stored_job_polls_started_at_1010 :
  fst (fst (GetTimedServiceJobStatus stored_job (calm_world 1010 0))) = OS_STARTED.
Proof.
  destruct (GetTimedServiceJobStatus_case_split stored_job (calm_world 1010 0))
    as (_ & H & _).
  destruct (H ltac:(discriminate)) as (_ & _ & Hstarted & _).
  apply Hstarted; cbn; lia.
Defined.

(** C1 at a duration of thirty seconds: started at 1000, polled at 1010. *)
Lemma thirty_second_job_polls_started :
  polled_status (started_job (new_job 10%N 30) (calm_world 1000 0))
                (calm_world 1010 0) = OS_STARTED.
Proof.
  destruct (started_job_lifecycle_positive 30 ltac:(lia)
              "job 0" "duration" (calm_world 1000 0) _ _ eq_refl) as [_ H].
  assert (Hlo : TIME_MIN <= now (calm_world 1000 0))
    by (unfold TIME_MIN; cbn; lia).
  assert (Hhi : now (calm_world 1000 0) + 30 <= TIME_MAX)
    by (unfold TIME_MAX; cbn; lia).
  destruct (H (calm_world 1000 0) Hlo Hhi) as (_ & _ & Hq).
  apply (proj1 (Hq (calm_world 1010 0))). cbn. lia.
Defined.

(** C1 as stated fails at the duration 0: the job that is allocated with
    duration 0 and started at 1000 has start and end both at 1000, and is
    reported idle at the query time 1000, which lies in [[1000, 1000 + 0]],
    and idle again at 1001, which lies after it. *)
Lemma zero_duration_job_polls_idle :
  fst (AllocateTimedServiceJob "job 0" "duration" 0 (calm_world 1000 0))
    = Some (new_job 10%N 0) /\
  ti_start (tsj_interval_p (started_job (new_job 10%N 0) (calm_world 1000 0)))
    = 1000 /\
  ti_end (tsj_interval_p (started_job (new_job 10%N 0) (calm_world 1000 0)))
    = 1000 /\
  polled_status (started_job (new_job 10%N 0) (calm_world 1000 0))
                (calm_world 1000 0) = OS_IDLE /\
  polled_status (started_job (new_job 10%N 0) (calm_world 1000 0))
                (calm_world 1001 0) = OS_IDLE /\
  ~ (forall d : Z, 0 <= d -> started_job_lifecycle d).
Proof.
  split; [reflexivity|]. split; [reflexivity|]. split; [reflexivity|].
  split; [reflexivity|]. split; [reflexivity|].
  intros Hall.
  destruct (Hall 0 ltac:(lia) "job 0" "duration" (calm_world 1000 0) _ _ eq_refl)
    as [_ H].
  assert (Hlo : TIME_MIN <= now (calm_world 1000 0))
    by (unfold TIME_MIN; cbn; lia).
  assert (Hhi : now (calm_world 1000 0) + 0 <= TIME_MAX)
    by (unfold TIME_MAX; cbn; lia).
  destruct (H (calm_world 1000 0) Hlo Hhi) as (_ & _ & Hq).
  assert (Hstarted := proj1 (Hq (calm_world 1000 0)) ltac:(cbn; lia)).
  discriminate Hstarted.
Qed.

(** C10 at a duration of minus five seconds. *)
Lemma minus_five_second_job_never_started :
  exists (job : TimedServiceJob) (w1 : World),
    AllocateTimedServiceJob "job 0" "duration" (-5) (calm_world 1000 0)
      = (Some job, w1) /\
    ti_duration (tsj_interval_p job) = -5 /\
    forall w : World,
      TIME_MIN <= now w + -5 -> now w <= TIME_MAX ->
      ti_end (tsj_interval_p (started_job job w))
        < ti_start (tsj_interval_p (started_job job w)) /\
      forall wq : World,
        (ti_start (tsj_interval_p (started_job job w)) <= now wq ->
         polled_status (started_job job w) wq = OS_SUCCEEDED) /\
        polled_status (started_job job w) wq <> OS_STARTED.
Proof.
  apply negative_duration_never_started.
  - lia.
  - intros k _. reflexivity.
Defined.

(** C9 at a service whose one job is still running at 1010. *)
Lemma close_is_refused_at_1010 :
  fst (fst (CloseLongRunningService stored_service (calm_world 1010 0))) = false /\
  w_live (snd (CloseLongRunningService stored_service (calm_world 1010 0)))
    = w_live (calm_world 1010 0).
Proof.
  destruct (CloseLongRunningService_refuses_running_jobs
              stored_service (calm_world 1010 0) 1010 (fun _ => eq_refl))
    as (Hiff & _ & Hlive & _).
  assert (H : fst (fst (CloseLongRunningService stored_service
                          (calm_world 1010 0))) = false).
  { apply Hiff. exists stored_job. split; [left | left; reflexivity]. }
  split; [exact H | exact (Hlive H)].
Defined.

(** C6 at a request for two jobs of at least ten seconds. *)
Lemma batch_of_two_jobs :
  match fst (GetServiceJobSet 2 10 (calm_world 1000 0)) with
  | Some jobs => length jobs = 2%nat
  | None => False
  end.
Proof.
  assert (Hlo : INT32_MIN <= 10) by (unfold INT32_MIN; lia).
  assert (Hhi : 10 + 59 <= INT32_MAX) by (unfold INT32_MAX; lia).
  pose proof (GetServiceJobSet_all_or_nothing 2 10 (calm_world 1000 0) Hlo Hhi)
    as H.
  cbv zeta in H.
  destruct (fst (GetServiceJobSet 2 10 (calm_world 1000 0))).
  - exact (proj1 (proj2 H)).
  - destruct H as [(k & _ & Hk) _]. discriminate Hk.
Defined.

(** C6 as it was stated, for every minimum duration: at the largest [int]
    as the minimum, with [rand () % 60] at 5, the sum does not fit an [int];
    the one job of the batch gets the duration -2147483644, which is not
    within 59 seconds above the minimum. *)
Lemma largest_minimum_duration_wraps :
  (exists job : TimedServiceJob,
      fst (GetServiceJobSet 1 INT32_MAX (calm_world 1000 0)) = Some [job] /\
      ti_duration (tsj_interval_p job) = -2147483644 /\
      ~ (INT32_MAX <= ti_duration (tsj_interval_p job) <= INT32_MAX + 59)) /\
  ~ (forall (num_jobs : N) (d : Z) (w : World)
            (jobs : ServiceJobSet) (job : TimedServiceJob),
        (1 <= num_jobs)%N -> INT32_MIN <= d <= INT32_MAX ->
        fst (GetServiceJobSet num_jobs d w) = Some jobs ->
        job ∈ jobs ->
        d <= ti_duration (tsj_interval_p job) <= d + 59).
Proof.
  let v := eval vm_compute in
    (fst (GetServiceJobSet 1 INT32_MAX (calm_world 1000 0))) in
  assert (Hset : fst (GetServiceJobSet 1 INT32_MAX (calm_world 1000 0)) = v)
    by (vm_compute; reflexivity).
  match type of Hset with
  | _ = Some [?job] =>
    assert (Hd : ti_duration (tsj_interval_p job) = -2147483644)
      by (vm_compute; reflexivity);
    split;
    [ exists job; split; [exact Hset|]; split; [exact Hd|];
      rewrite Hd; unfold INT32_MAX; lia
    | intros Hall;
      assert (Hrange : INT32_MIN <= INT32_MAX <= INT32_MAX)
        by (unfold INT32_MIN, INT32_MAX; lia);
      pose proof (Hall 1%N INT32_MAX (calm_world 1000 0) [job] job
                    ltac:(lia) Hrange Hset ltac:(left))
        as Hin;
      rewrite Hd in Hin; unfold INT32_MAX in Hin; lia ]
  end.
Qed.

(** C7 at a request for two jobs when the registration of the second job
    fails: both jobs come back, the second one with its flag at [false]. *)
Lemma second_job_comes_back_unregistered :
  exists jobs' : ServiceJobSet,
    fst (fst (RunLongRunningService (mkService None (mkLongRunningServiceData 3))
                two_jobs_request second_registration_fails)) = Some jobs' /\
    length jobs' = 2%nat /\
    exists job1 job2 : TimedServiceJob,
      jobs' !! 0%nat = Some job1 /\ tsj_added_flag job1 = true /\
      jobs' !! 1%nat = Some job2 /\ tsj_added_flag job2 = false.
Proof.
  let v := eval vm_compute in (GetServiceJobSet 2 10 second_registration_fails) in
  assert (Hset : GetServiceJobSet 2 10 second_registration_fails = v)
    by (vm_compute; reflexivity).
  match type of Hset with
  | _ = (Some ?jobs, ?w1) =>
    destruct (RunLongRunningService_registers_each_job
                (mkService None (mkLongRunningServiceData 3))
                two_jobs_request 2%N second_registration_fails w1 jobs
                eq_refl ltac:(lia) Hset)
      as (jobs' & Hret & _ & Hlen & Hall)
  end.
  exists jobs'. split; [exact Hret|]. split; [exact Hlen|].
  destruct (Hall 0%nat _ eq_refl) as (job1 & Hjob1 & Hout1).
  destruct (Hall 1%nat _ eq_refl) as (job2 & Hjob2 & Hout2).
  exists job1, job2.
  destruct Hout1 as (_ & _ & _ & _ & _ & _ & _ & Hflag1 & _).
  destruct Hout2 as (_ & _ & _ & _ & _ & _ & _ & Hflag2 & _).
  split; [exact Hjob1|]. split; [exact Hflag1|].
  split; [exact Hjob2 | exact Hflag2].
Defined.

(** C4 at the document of [stored_job] read back at 2000, long after its
    end: the job comes back succeeded and its entry is gone. *)
Lemma stale_started_job_is_removed :
  exists (job : TimedServiceJob) (w' : World),
    GetTimedServiceJobFromJSON (persisted_document stored_job)
                               (registry_world 2000) = (Some job, w') /\
    sj_status (tsj_job job) = OS_SUCCEEDED /\
    w_jobs w' !! 10%N = None.
Proof.
  destruct (GetTimedServiceJobFromJSON_reconciles_started
              (persisted_document stored_job) (registry_world 2000)
              (tsj_job stored_job) 1000 1030
              (fun k _ => eq_refl) eq_refl eq_refl eq_refl)
    as (job & w' & Hrun & _ & Hstart & Hend & Hstarted & _).
  destruct (Hstarted eq_refl) as (Hstatus & Hremoved & _).
  assert (Hpoll : polled_status job (registry_world 2000) = OS_SUCCEEDED).
  { apply polled_status_succeeded; rewrite ?Hstart, ?Hend; cbn; lia. }
  exists job, w'. split; [exact Hrun|]. split; [congruence|].
  rewrite Hremoved by (rewrite Hpoll; discriminate).
  apply lookup_delete_eq.
Defined.

(** C8 at the document of [stored_job] with its [end] taken out. *)
Lemma document_without_end_is_rejected :
  fst (GetTimedServiceJobFromJSON
         (JObj {[ "start" := JInt 1000 ]}) (calm_world 1010 0)) = None /\
  w_live (snd (GetTimedServiceJobFromJSON
                 (JObj {[ "start" := JInt 1000 ]}) (calm_world 1010 0))) = 0.
Proof.
  destruct (GetTimedServiceJobFromJSON_requires_start_and_end
              (JObj {[ "start" := JInt 1000 ]}) (calm_world 1010 0))
    as (Hmissing & _).
  destruct (Hmissing (or_intror eq_refl)) as (Hnone & Hlive & _).
  split; [exact Hnone | exact Hlive].
Defined.

(** C2, amended, at [stored_job], written at 1010 and read back at 1020. *)
Lemma stored_job_round_trip :
  exists (doc : json) (w1 : World) (job' : TimedServiceJob) (w3 : World),
    GetTimedServiceJobAsJSON stored_job (calm_world 1010 0) = (Some doc, w1) /\
    GetTimedServiceJobFromJSON doc (calm_world 1020 0) = (Some job', w3) /\
    sj_id (tsj_job job') = 10%N /\
    ti_start (tsj_interval_p job') = 1000 /\
    ti_end (tsj_interval_p job') = 1030.
Proof.
  destruct (round_trip_keeps_identity_and_timestamps
              stored_job (calm_world 1010 0) (calm_world 1020 0)
              (fun k _ => eq_refl) (fun k _ => eq_refl))
    as (doc & w1 & job' & w3 & Hw & Hr & Hid & _ & _ & _ & _ & Hs & He & _).
  exists doc, w1, job', w3.
  split; [exact Hw|]. split; [exact Hr|]. split; [exact Hid|].
  split; [exact Hs | exact He].
Defined.

(** C2 as stated fails on the duration: [stored_job] has a duration of 30;
    written at 1010 and read back at 1020 into fresh memory that reads as
    0, it comes back with the same start and end and a duration of 0. *)
Lemma round_trip_loses_duration :
  fst (GetTimedServiceJobAsJSON stored_job (calm_world 1010 0))
    = Some (persisted_document stored_job) /\
  fst (GetTimedServiceJobFromJSON (persisted_document stored_job)
                                  (calm_world 1020 0))
    = Some (mkTimedServiceJob
              (mkServiceJob 10%N "job 0" "duration 30" LRS_SERVICE_JOB_TYPE_S
                            OS_STARTED JNull)
              (mkTimeInterval 1000 1030 0) false) /\
  tsj_interval_p stored_job = mkTimeInterval 1000 1030 30.
Proof.
  split; [|split; [|reflexivity]].
  - rewrite GetTimedServiceJobAsJSON_ok; [reflexivity | intros k _; reflexivity].
  - rewrite (GetTimedServiceJobFromJSON_ok
               (persisted_document stored_job) (calm_world 1020 0)
               (tsj_job stored_job) 1000 1030
               (fun k _ => eq_refl)
               (InitServiceJobFromJSON_persisted stored_job) eq_refl eq_refl).
    reflexivity.
Qed.

(** * Further properties of the code *)

(** ** The status over time *)

(** X1: as the clock moves on, the status of a job never goes back: a job
    that polls succeeded polls succeeded at every later reading, a job that
    polls started polls started or succeeded at every later reading, and a
    job polls idle at one reading exactly when it polls idle at any
    other. *)
Theorem polled_status_never_goes_back (job_p : TimedServiceJob) (w1 w2 : World) :
  now w1 <= now w2 ->
  (polled_status job_p w1 = OS_SUCCEEDED -> polled_status job_p w2 = OS_SUCCEEDED) /\
  (polled_status job_p w1 = OS_STARTED ->
   polled_status job_p w2 = OS_STARTED \/ polled_status job_p w2 = OS_SUCCEEDED) /\
  (polled_status job_p w1 = OS_IDLE <-> polled_status job_p w2 = OS_IDLE).
Proof.
  intros Hle.
  destruct (Z.eq_dec (ti_start (tsj_interval_p job_p))
                     (ti_end (tsj_interval_p job_p))) as [Heq|Hne].
  - rewrite !(polled_status_idle job_p _ Heq).
    split; [discriminate|]. split; [discriminate | tauto].
  - rewrite !(polled_status_running job_p _ Hne).
    destruct (now w1 >=? ti_start (tsj_interval_p job_p)) eqn:A1;
    destruct (now w1 <=? ti_end (tsj_interval_p job_p)) eqn:B1;
    destruct (now w2 >=? ti_start (tsj_interval_p job_p)) eqn:A2;
    destruct (now w2 <=? ti_end (tsj_interval_p job_p)) eqn:B2;
    try (split; [|split; [|split]]; first [discriminate | tauto]);
    rewrite ?Z.geb_le, ?Z.leb_le, ?Z.leb_gt in *;
    try apply Z.geb_leb in A1; try apply Z.geb_leb in A2;
    rewrite ?Z.leb_le, ?Z.leb_gt in *; lia.
Qed.

(** X1 at [stored_job]: succeeded at 1031, hence at 2000. *)
Lemma stored_job_stays_succeeded :
  polled_status stored_job (calm_world 2000 0) = OS_SUCCEEDED.
Proof.
  assert (Hle : now (calm_world 1031 0) <= now (calm_world 2000 0))
    by (cbn; lia).
  exact (proj1 (polled_status_never_goes_back stored_job _ _ Hle) eq_refl).
Defined.

(** X2: what a poll reports is settled by the start, the end and the
    reading of the clock: two jobs with the same start and end report the
    same status at equal readings, whatever their stored status, duration,
    flag and identity, and whatever else the two worlds hold. *)
Theorem poll_reads_start_end_and_clock_only
  (job1 job2 : TimedServiceJob) (w1 w2 : World) :
  ti_start (tsj_interval_p job1) = ti_start (tsj_interval_p job2) ->
  ti_end (tsj_interval_p job1) = ti_end (tsj_interval_p job2) ->
  now w1 = now w2 ->
  fst (fst (GetTimedServiceJobStatus job1 w1))
    = fst (fst (GetTimedServiceJobStatus job2 w2)).
Proof.
  intros Hs He Hnow. unfold GetTimedServiceJobStatus. unfold_effects.
  rewrite Hs, He.
  destruct (ti_start (tsj_interval_p job2) =? ti_end (tsj_interval_p job2));
    cbn [negb fst]; [reflexivity|]. rewrite Hnow. reflexivity.
Qed.

(** X2 at [stored_job] and a new job given the same timestamps. *)
Lemma stored_job_and_its_copy_poll_alike :
  fst (fst (GetTimedServiceJobStatus stored_job (calm_world 1010 0)))
    = fst (fst (GetTimedServiceJobStatus
                  (set_tsj_interval (mkTimeInterval 1000 1030 7) (new_job 3%N 7))
                  (registry_world 1010))).
Proof.
  apply poll_reads_start_end_and_clock_only; reflexivity.
Defined.

(** ** Allocation and release *)

(** X3: [AllocateTimedServiceJob] either returns a job, having taken two
    blocks and one identifier and logged nothing, or returns no job, having
    kept no block and taken no identifier and logged one message. *)
Theorem AllocateTimedServiceJob_keeps_no_block_on_failure
  (name_s description_s : string) (d : Z) (w : World) :
  match fst (AllocateTimedServiceJob name_s description_s d w) with
  | Some job =>
    w_live (snd (AllocateTimedServiceJob name_s description_s d w)) = w_live w + 2 /\
    w_uuids (snd (AllocateTimedServiceJob name_s description_s d w))
      = S (w_uuids w) /\
    sj_id (tsj_job job) = w_uuid w (w_uuids w) /\
    w_log (snd (AllocateTimedServiceJob name_s description_s d w)) = w_log w
  | None =>
    w_live (snd (AllocateTimedServiceJob name_s description_s d w)) = w_live w /\
    w_uuids (snd (AllocateTimedServiceJob name_s description_s d w)) = w_uuids w /\
    exists message : string,
      w_log (snd (AllocateTimedServiceJob name_s description_s d w))
        = w_log w ++ [message]
  end.
Proof.
  unfold AllocateTimedServiceJob, InitServiceJob.
  rewrite bind_run, AllocMemory_run.
  destruct (w_fault w (w_calls w)); cbn [fst snd].
  - unfold_effects. cbn. repeat split. eexists. reflexivity.
  - rewrite bind_run, AllocMemory_run. cbn [w_fault w_calls set_live set_calls].
    destruct (w_fault w (S (w_calls w))); cbn [fst snd].
    + unfold_effects. cbn. repeat split; [lia|]. eexists. reflexivity.
    + unfold_effects. cbn. repeat split. lia.
Qed.

(** X4: a job that [AllocateTimedServiceJob] returned and that is handed
    to [FreeTimedServiceJob] leaves as many blocks allocated as there were
    before it was made. *)
Theorem FreeTimedServiceJob_gives_back_what_was_allocated
  (name_s description_s : string) (d : Z) (w w1 : World) (job : TimedServiceJob) :
  AllocateTimedServiceJob name_s description_s d w = (Some job, w1) ->
  w_live (snd (FreeTimedServiceJob (Some (tsj_interval_p job)) w1)) = w_live w.
Proof.
  intros Halloc. apply AllocateTimedServiceJob_some in Halloc as (_ & _ & _ & ->).
  unfold FreeTimedServiceJob. unfold_effects. cbn. lia.
Qed.

(** X4 at a job of thirty seconds. *)
Lemma thirty_second_job_is_given_back :
  w_live (snd (FreeTimedServiceJob
                 (Some (tsj_interval_p (new_job 10%N 30)))
                 (snd (AllocateTimedServiceJob "job 0" "duration" 30
                         (calm_world 1000 0))))) = 0.
Proof.
  exact (FreeTimedServiceJob_gives_back_what_was_allocated
           "job 0" "duration" 30 (calm_world 1000 0) _ (new_job 10%N 30) eq_refl).
Defined.

(** ** More on the batch *)

(** When the loop gives up it has logged something. *)
Lemma GetServiceJobSet_loop_logs_failure (left : nat) :
  forall (i : nat) (d : Z) (jobs jobs' : ServiceJobSet) (w w' : World),
    GetServiceJobSet_loop left i d jobs w = (false, jobs', w') ->
    exists l : list string, l <> [] /\ w_log w' = w_log w ++ l.
Proof.
  induction left as [|left IH]; intros i d jobs jobs' w w' Hrun.
  - discriminate Hrun.
  - destruct (w_fault w (w_calls w)) eqn:F1.
    { revert Hrun. cbn [GetServiceJobSet_loop].
      unfold AllocateTimedServiceJob. unfold_effects. cbn. rewrite F1. cbn.
      intros H. inversion H; subst. cbn. rewrite <- ?app_assoc.
      eexists. split; [|reflexivity]. cbn. discriminate. }
    destruct (w_fault w (S (w_calls w))) eqn:F2.
    { revert Hrun. cbn [GetServiceJobSet_loop].
      unfold AllocateTimedServiceJob. unfold_effects. cbn. rewrite F1. cbn.
      rewrite F2. cbn. intros H. inversion H; subst. cbn.
      rewrite <- ?app_assoc. eexists. split; [|reflexivity]. cbn. discriminate. }
    destruct (w_fault w (S (S (w_calls w)))) eqn:F3.
    { revert Hrun. cbn [GetServiceJobSet_loop].
      unfold AllocateTimedServiceJob, InitServiceJob, AddServiceJobToService,
             FreeTimedServiceJob.
      unfold_effects. cbn. rewrite F1. cbn. rewrite F2. cbn. rewrite F3. cbn.
      intros H. inversion H; subst. cbn. rewrite <- ?app_assoc.
      eexists. split; [|reflexivity]. cbn. discriminate. }
    destruct (GetServiceJobSet_loop_step left i d jobs w)
      as [(_ & _ & _ & Hstep) | (k & w1 & Hk & Hf & _)].
    + rewrite Hstep in Hrun. apply IH in Hrun as (l & Hl & Hlog).
      exists l. split; [exact Hl | exact Hlog].
    + exfalso. destruct k as [|[|[|k]]]; [| | |lia].
      * rewrite Nat.add_0_r in Hf. congruence.
      * rewrite Nat.add_1_r in Hf. congruence.
      * replace (w_calls w + 2)%nat with (S (S (w_calls w))) in Hf by lia.
        congruence.
Qed.

(** When no call fails the loop runs to its end. *)
Lemma GetServiceJobSet_loop_ok (left : nat) :
  forall (i : nat) (d : Z) (jobs : ServiceJobSet) (w : World),
    no_faults w (3 * left) ->
    GetServiceJobSet_loop left i d jobs w =
      (true, jobs ++ map (batch_job w i d) (seq 0 left), after_batch w left).
Proof.
  induction left as [|left IH]; intros i d jobs w Hok.
  - cbn. unfold ret. rewrite app_nil_r, after_batch_0. reflexivity.
  - destruct (GetServiceJobSet_loop_step left i d jobs w)
      as [(_ & _ & _ & Hstep) | (k & w1 & Hk & Hf & _)].
    + rewrite Hstep, IH.
      * rewrite <- app_assoc. cbn [app]. rewrite batch_jobs_S, after_batch_S.
        reflexivity.
      * intros k Hk. specialize (Hok (3 + k)%nat ltac:(lia)).
        unfold after_batch. cbn.
        replace (w_calls w + 3 + k)%nat with (w_calls w + (3 + k))%nat by lia.
        exact Hok.
    + rewrite (Hok k ltac:(lia)) in Hf. discriminate.
Qed.

Lemma GetServiceJobSet_ok (num_jobs : N) (d : Z) (w : World) :
  no_faults w (1 + 3 * N.to_nat num_jobs) ->
  GetServiceJobSet num_jobs d w =
    (Some (map (batch_job (set_live (w_live w + 1) (set_calls (S (w_calls w)) w))
                          0 d)
               (seq 0 (N.to_nat num_jobs))),
     after_batch (set_live (w_live w + 1) (set_calls (S (w_calls w)) w))
                 (N.to_nat num_jobs)).
Proof.
  intros Hok. unfold GetServiceJobSet.
  rewrite bind_run, AllocateServiceJobSet_run.
  pose proof (Hok 0%nat ltac:(lia)) as H0. rewrite Nat.add_0_r in H0.
  rewrite H0. cbn [fst snd]. rewrite bind_run, GetServiceJobSet_loop_ok.
  - cbn [fst snd app]. reflexivity.
  - intros k Hk. cbn. specialize (Hok (S k) ltac:(lia)).
    replace (S (w_calls w + k))%nat with (w_calls w + S k)%nat by lia.
    exact Hok.
Qed.

(** X5: a batch that [GetServiceJobSet] delivered holds one block for the
    set and two for each job, and [FreeServiceJobSet] gives all of them
    back. *)
Theorem FreeServiceJobSet_gives_back_the_batch
  (num_jobs : N) (d : Z) (w w1 : World) (jobs : ServiceJobSet) :
  GetServiceJobSet num_jobs d w = (Some jobs, w1) ->
  w_live w1 = w_live w + 1 + 2 * Z.of_N num_jobs /\
  w_live (snd (FreeServiceJobSet jobs w1)) = w_live w.
Proof.
  intros Hset. apply GetServiceJobSet_some in Hset as [-> ->].
  unfold FreeServiceJobSet. rewrite bind_run, FreeServiceJobs_effect.
  unfold_effects. cbn [fst snd]. rewrite length_map, length_seq.
  unfold after_batch. cbn. lia.
Qed.

(** X5 at a batch of two jobs. *)
Lemma batch_of_two_is_given_back :
  exists (jobs : ServiceJobSet) (w1 : World),
    GetServiceJobSet 2 10 (calm_world 1000 0) = (Some jobs, w1) /\
    w_live w1 = 5 /\
    w_live (snd (FreeServiceJobSet jobs w1)) = 0.
Proof.
  eexists _, _. split.
  - apply GetServiceJobSet_ok. intros k _. reflexivity.
  - apply (FreeServiceJobSet_gives_back_the_batch 2 10 (calm_world 1000 0)).
    apply GetServiceJobSet_ok. intros k _. reflexivity.
Defined.

(** X6: the jobs of a delivered batch carry, in order, the identifiers that
    the generator produced during the batch; two jobs at different places
    of the batch have different identifiers whenever the generator gave
    different identifiers for those places. *)
Theorem GetServiceJobSet_identifiers
  (num_jobs : N) (d : Z) (w w1 : World) (jobs : ServiceJobSet) :
  GetServiceJobSet num_jobs d w = (Some jobs, w1) ->
  (forall (i : nat) (job : TimedServiceJob),
      jobs !! i = Some job -> sj_id (tsj_job job) = w_uuid w (w_uuids w + i)) /\
  w_uuids w1 = (w_uuids w + N.to_nat num_jobs)%nat /\
  ((forall i j : nat,
       (i < j < N.to_nat num_jobs)%nat ->
       w_uuid w (w_uuids w + i) <> w_uuid w (w_uuids w + j)) ->
   forall (i j : nat) (job_i job_j : TimedServiceJob),
     jobs !! i = Some job_i -> jobs !! j = Some job_j -> i <> j ->
     sj_id (tsj_job job_i) <> sj_id (tsj_job job_j)).
Proof.
  intros Hset. apply GetServiceJobSet_some in Hset as [-> ->].
  assert (Hid : forall (i : nat) (job : TimedServiceJob),
             map (batch_job (set_live (w_live w + 1)
                               (set_calls (S (w_calls w)) w)) 0 d)
                 (seq 0 (N.to_nat num_jobs)) !! i = Some job ->
             (i < N.to_nat num_jobs)%nat /\
             sj_id (tsj_job job) = w_uuid w (w_uuids w + i)).
  { intros i job Hjob. apply lookup_batch_jobs in Hjob as [Hi ->].
    split; [exact Hi | reflexivity]. }
  split; [|split].
  - intros i job Hjob. apply (Hid i job Hjob).
  - reflexivity.
  - intros Hfresh i j job_i job_j Hi Hj Hne.
    destruct (Hid i job_i Hi) as [Hlt_i ->].
    destruct (Hid j job_j Hj) as [Hlt_j ->].
    destruct (Nat.lt_ge_cases i j) as [Hlt|Hge].
    + apply Hfresh. lia.
    + intros Heq. apply (Hfresh j i ltac:(lia)). symmetry. exact Heq.
Qed.

(** X6 at a batch of two jobs. *)
Lemma batch_of_two_has_identifiers_10_and_11 :
  exists (jobs : ServiceJobSet) (w1 : World),
    GetServiceJobSet 2 10 (calm_world 1000 0) = (Some jobs, w1) /\
    forall (i : nat) (job : TimedServiceJob),
      jobs !! i = Some job -> sj_id (tsj_job job) = N.of_nat (10 + (0 + i)).
Proof.
  eexists _, _. split.
  - apply GetServiceJobSet_ok. intros k _. reflexivity.
  - exact (proj1 (GetServiceJobSet_identifiers 2 10 (calm_world 1000 0) _ _
                    (GetServiceJobSet_ok 2 10 (calm_world 1000 0)
                       (fun k _ => eq_refl)))).
Defined.

(** X7: in a delivered batch the description of a job is "duration "
    followed by its duration in decimal when the minimum duration is not
    negative; when the minimum duration is below -59, so that every
    duration is negative, the number printed is the duration plus 2^64. *)
Theorem GetServiceJobSet_descriptions
  (num_jobs : N) (d : Z) (w w1 : World) (jobs : ServiceJobSet) :
  INT32_MIN <= d -> d + 59 <= INT32_MAX ->
  GetServiceJobSet num_jobs d w = (Some jobs, w1) ->
  forall (i : nat) (job : TimedServiceJob),
    jobs !! i = Some job ->
    (0 <= d ->
     sj_description (tsj_job job)
       = "duration " +:+ pretty (ti_duration (tsj_interval_p job))) /\
    (d + 59 < 0 ->
     sj_description (tsj_job job)
       = "duration " +:+ pretty (2 ^ 64 + ti_duration (tsj_interval_p job))).
Proof.
  intros Hlo Hhi Hset i job Hjob.
  apply GetServiceJobSet_some in Hset as [-> ->].
  apply lookup_batch_jobs in Hjob as [_ ->].
  cbn [batch_job tsj_job sj_description tsj_interval_p ti_duration].
  pose proof (batch_duration_range
                (set_live (w_live w + 1) (set_calls (S (w_calls w)) w))
                d i Hlo Hhi) as Hrange.
  unfold INT32_MIN, INT32_MAX in *. unfold size_t_cast. split; intros Hd.
  - rewrite Z.mod_small by lia. reflexivity.
  - f_equal. f_equal.
    rewrite <- (Z.mod_add _ 1 (2 ^ 64)) by lia.
    rewrite Z.mod_small by lia. lia.
Qed.

(** X7 at a batch of two jobs of at least ten seconds. *)
Lemma batch_of_two_describes_its_durations :
  exists (jobs : ServiceJobSet) (w1 : World),
    GetServiceJobSet 2 10 (calm_world 1000 0) = (Some jobs, w1) /\
    forall (i : nat) (job : TimedServiceJob),
      jobs !! i = Some job ->
      sj_description (tsj_job job)
        = "duration " +:+ pretty (ti_duration (tsj_interval_p job)).
Proof.
  assert (Hlo : INT32_MIN <= 10) by (unfold INT32_MIN; lia).
  assert (Hhi : 10 + 59 <= INT32_MAX) by (unfold INT32_MAX; lia).
  assert (Hd : 0 <= 10) by lia.
  eexists _, _. split.
  - apply GetServiceJobSet_ok. intros k _. reflexivity.
  - intros i job Hjob.
    exact (proj1 (GetServiceJobSet_descriptions 2 10 (calm_world 1000 0) _ _
                    Hlo Hhi
                    (GetServiceJobSet_ok 2 10 (calm_world 1000 0)
                       (fun k _ => eq_refl))
                    i job Hjob) Hd).
Defined.

(** X8: a batch that is delivered has logged nothing.  A batch that is not
    delivered has logged at least one message, unless it was the allocation
    of the set itself that failed: that failure is silent. *)
Theorem GetServiceJobSet_logging (num_jobs : N) (d : Z) (w : World) :
  match fst (GetServiceJobSet num_jobs d w) with
  | Some _ => w_log (snd (GetServiceJobSet num_jobs d w)) = w_log w
  | None =>
    (w_fault w (w_calls w) = true /\
     w_log (snd (GetServiceJobSet num_jobs d w)) = w_log w) \/
    (w_fault w (w_calls w) = false /\
     exists l : list string,
       l <> [] /\ w_log (snd (GetServiceJobSet num_jobs d w)) = w_log w ++ l)
  end.
Proof.
  destruct (GetServiceJobSet num_jobs d w) as [[jobs|] w1] eqn:Hset; cbn [fst snd].
  - apply GetServiceJobSet_some in Hset as [-> _]. reflexivity.
  - revert Hset. unfold GetServiceJobSet.
    rewrite bind_run, AllocateServiceJobSet_run.
    destruct (w_fault w (w_calls w)) eqn:F0; cbn [fst snd].
    + intros H. inversion H; subst. left. split; reflexivity.
    + rewrite bind_run.
      destruct (GetServiceJobSet_loop _ _ _ _ _) as [[flag js] w2] eqn:Hloop.
      cbn [fst snd]. destruct flag; [discriminate|].
      apply GetServiceJobSet_loop_logs_failure in Hloop as (l & Hl & Hlog).
      unfold FreeServiceJobSet. rewrite !bind_run, FreeServiceJobs_effect.
      unfold_effects. cbn [fst snd]. intros H. inversion H; subst.
      right. split; [reflexivity|]. exists l. split; [exact Hl|].
      cbn. exact Hlog.
Qed.

(** ** More on the runner *)

Lemma RunLongRunningService_loop_step
  (job : TimedServiceJob) (rest : list TimedServiceJob) (w : World) :
  RunLongRunningService_loop (job :: rest) w =
    (run_job job w :: fst (RunLongRunningService_loop rest (run_world job w)),
     snd (RunLongRunningService_loop rest (run_world job w))).
Proof.
  cbn [RunLongRunningService_loop].
  rewrite bind_run, StartTimedServiceJob_effect. cbn [fst snd].
  rewrite bind_run, GetTimedServiceJobStatus_effect. cbn [fst snd].
  rewrite bind_run, AddServiceJobToJobsManager_run.
  cbn [tsj_interval_p ti_start ti_end].
  unfold run_world. unfold run_job.
  destruct (now w =? time_t_wrap (now w + ti_duration (tsj_interval_p job)));
    cbn [w_fault w_calls w_jobs w_log set_ticks];
    destruct (w_fault w (w_calls w)); cbn [negb fst snd];
    rewrite !bind_run; unfold_effects; cbn [fst snd negb];
    reflexivity.
Qed.

Lemma run_world_frame (job : TimedServiceJob) (w : World) :
  w_clock (run_world job w) = w_clock w /\
  (w_ticks w < w_ticks (run_world job w))%nat /\
  w_fault (run_world job w) = w_fault w /\
  w_calls (run_world job w) = S (w_calls w) /\
  w_live (run_world job w) = w_live w /\
  w_jobs (run_world job w) =
    if w_fault w (w_calls w) then w_jobs w
    else <[sj_id (tsj_job job) := run_job job w]> (w_jobs w).
Proof.
  unfold run_world.
  destruct (now w =? _); destruct (w_fault w (w_calls w)); cbn;
    repeat split; lia.
Qed.

Lemma RunLongRunningService_loop_ids (jobs : list TimedServiceJob) :
  forall w : World,
    job_ids (fst (RunLongRunningService_loop jobs w)) = job_ids jobs.
Proof.
  induction jobs as [|job rest IH]; intros w; [reflexivity|].
  rewrite RunLongRunningService_loop_step. cbn [fst job_ids map].
  f_equal. apply IH.
Qed.

(** The runner leaves alone what the JobsManager holds under identifiers
    that are not in the set. *)
Lemma RunLongRunningService_loop_other_ids (jobs : list TimedServiceJob) :
  forall (w : World) (id : uuid_t),
    id ∉ job_ids jobs ->
    w_jobs (snd (RunLongRunningService_loop jobs w)) !! id = w_jobs w !! id.
Proof.
  induction jobs as [|job rest IH]; intros w id Hid; [reflexivity|].
  rewrite RunLongRunningService_loop_step. cbn [snd].
  cbn [job_ids map] in Hid. apply not_elem_of_cons in Hid as [Hne Hrest].
  rewrite IH by exact Hrest.
  destruct (run_world_frame job w) as (_ & _ & _ & _ & _ & ->).
  destruct (w_fault w (w_calls w)); [reflexivity|].
  apply lookup_insert_ne. congruence.
Qed.

(** With identifiers that differ, a job that the runner registered is what
    the JobsManager holds under its identifier when the run is over, and
    the runner has left alone what the JobsManager held under the
    identifier of a job that it could not register. *)
Lemma RunLongRunningService_loop_registry (jobs : list TimedServiceJob) :
  forall w : World,
    NoDup (job_ids jobs) ->
    forall (k : nat) (job' : TimedServiceJob),
      fst (RunLongRunningService_loop jobs w) !! k = Some job' ->
      w_jobs (snd (RunLongRunningService_loop jobs w)) !! sj_id (tsj_job job') =
        if tsj_added_flag job' then Some job'
        else w_jobs w !! sj_id (tsj_job job').
Proof.
  induction jobs as [|job rest IH]; intros w Hnodup k job' Hk.
  - discriminate Hk.
  - rewrite RunLongRunningService_loop_step in Hk |- *. cbn [fst snd] in *.
    cbn [job_ids map] in Hnodup. apply NoDup_cons in Hnodup as [Hfresh Hnodup].
    destruct (run_world_frame job w) as (_ & _ & _ & _ & _ & Hjobs).
    destruct k as [|k]; cbn in Hk.
    + inversion Hk; subst job'. cbn [run_job tsj_job tsj_added_flag].
      rewrite RunLongRunningService_loop_other_ids by exact Hfresh.
      rewrite Hjobs. cbn [SetServiceJobStatus sj_id].
      destruct (w_fault w (w_calls w)); cbn [negb]; [reflexivity|].
      apply lookup_insert_eq.
    + rewrite (IH _ Hnodup k job' Hk).
      destruct (tsj_added_flag job'); [reflexivity|].
      rewrite Hjobs. destruct (w_fault w (w_calls w)); [reflexivity|].
      apply lookup_insert_ne. intros Heq. apply Hfresh.
      assert (Hin : sj_id (tsj_job job')
                    ∈ job_ids (fst (RunLongRunningService_loop rest
                                      (run_world job w)))).
      { unfold job_ids. change (map ?f ?l) with (f <$> l).
        apply list_elem_of_fmap. exists job'. split; [reflexivity|].
        apply list_elem_of_lookup. eauto. }
      rewrite RunLongRunningService_loop_ids in Hin. rewrite Heq. exact Hin.
Qed.

(** On a clock that stands at [t], every job comes back stamped with [t]
    and with the status that a poll at [t] gives. *)
Lemma RunLongRunningService_loop_standing (t : Z) (jobs : list TimedServiceJob) :
  forall w : World,
    (forall n : nat, w_clock w n = t) ->
    forall (k : nat) (job : TimedServiceJob),
      jobs !! k = Some job ->
      exists job' : TimedServiceJob,
        fst (RunLongRunningService_loop jobs w) !! k = Some job' /\
        tsj_interval_p job' =
          mkTimeInterval t (time_t_wrap (t + ti_duration (tsj_interval_p job)))
                         (ti_duration (tsj_interval_p job)) /\
        sj_status (tsj_job job') = polled_status job' w /\
        tsj_job job' = SetServiceJobStatus (tsj_job job) (sj_status (tsj_job job')).
Proof.
  induction jobs as [|job0 rest IH]; intros w Hclock k job Hk.
  - discriminate Hk.
  - rewrite RunLongRunningService_loop_step. cbn [fst].
    destruct (run_world_frame job0 w) as (Hc & _).
    destruct k as [|k]; cbn in Hk.
    + inversion Hk; subst job0. exists (run_job job w).
      split; [reflexivity|].
      cbn [run_job tsj_interval_p tsj_job SetServiceJobStatus sj_status].
      unfold stamped_interval, now. rewrite Hclock.
      split; [reflexivity|]. split; [|reflexivity].
      transitivity (polled_status (started_job job w) w).
      * apply polled_status_now. unfold now. cbn. rewrite !Hclock. reflexivity.
      * apply polled_status_interval. unfold started_job, run_job.
        rewrite StartTimedServiceJob_effect. reflexivity.
    + destruct (IH (run_world job0 w) ltac:(intros n; rewrite Hc; apply Hclock)
                   k job Hk) as (job' & Hjob' & Hint & Hstatus & Hbase).
      exists job'. split; [exact Hjob'|]. split; [exact Hint|].
      split; [|exact Hbase]. rewrite Hstatus. apply polled_status_now.
      unfold now. rewrite Hc, !Hclock. reflexivity.
Qed.

(** The batch builder reads no clock and touches no registered job. *)
Lemma GetServiceJobSet_loop_frame (left : nat) :
  forall (i : nat) (d : Z) (jobs : ServiceJobSet) (w : World),
    w_jobs (snd (GetServiceJobSet_loop left i d jobs w)) = w_jobs w /\
    w_ticks (snd (GetServiceJobSet_loop left i d jobs w)) = w_ticks w /\
    w_clock (snd (GetServiceJobSet_loop left i d jobs w)) = w_clock w.
Proof.
  induction left as [|left IH]; intros i d jobs w.
  - cbn. repeat split.
  - destruct (w_fault w (w_calls w)) eqn:F1.
    { cbn [GetServiceJobSet_loop]. unfold AllocateTimedServiceJob.
      unfold_effects. cbn. rewrite F1. cbn. repeat split. }
    destruct (w_fault w (S (w_calls w))) eqn:F2.
    { cbn [GetServiceJobSet_loop]. unfold AllocateTimedServiceJob.
      unfold_effects. cbn. rewrite F1. cbn. rewrite F2. cbn. repeat split. }
    destruct (w_fault w (S (S (w_calls w)))) eqn:F3.
    { cbn [GetServiceJobSet_loop].
      unfold AllocateTimedServiceJob, InitServiceJob, AddServiceJobToService,
             FreeTimedServiceJob.
      unfold_effects. cbn. rewrite F1. cbn. rewrite F2. cbn. rewrite F3. cbn.
      repeat split. }
    destruct (GetServiceJobSet_loop_step left i d jobs w)
      as [(_ & _ & _ & Hstep) | (k & w1 & Hk & Hf & _)].
    + rewrite Hstep.
      destruct (IH (S i) d (jobs ++ [batch_job w i d 0]) (after_batch w 1))
        as (H1 & H2 & H3).
      rewrite H1, H2, H3. unfold after_batch. cbn. repeat split.
    + exfalso. destruct k as [|[|[|k]]]; [| | |lia].
      * rewrite Nat.add_0_r in Hf. congruence.
      * rewrite Nat.add_1_r in Hf. congruence.
      * replace (w_calls w + 2)%nat with (S (S (w_calls w))) in Hf by lia.
        congruence.
Qed.

(** A batch that is not delivered has left the world as it was, but for
    the calls and the random numbers it used and the messages it logged. *)
Lemma GetServiceJobSet_none (num_jobs : N) (d : Z) (w w' : World) :
  GetServiceJobSet num_jobs d w = (None, w') ->
  w_live w' = w_live w /\ w_jobs w' = w_jobs w /\ w_ticks w' = w_ticks w.
Proof.
  unfold GetServiceJobSet. rewrite bind_run, AllocateServiceJobSet_run.
  destruct (w_fault w (w_calls w)); cbn [fst snd].
  - intros H. inversion H; subst. cbn. repeat split.
  - rewrite bind_run.
    pose proof (GetServiceJobSet_loop_frame (N.to_nat num_jobs) 0 d []
                  (set_live (w_live w + 1) (set_calls (S (w_calls w)) w)))
      as (Hjobs & Hticks & _).
    destruct (GetServiceJobSet_loop _ _ _ _ _) as [[flag js] w2] eqn:Hloop.
    apply GetServiceJobSet_loop_spec in Hloop. cbn [fst snd] in *.
    destruct flag; [discriminate|].
    destruct Hloop as (m & k & _ & _ & _ & -> & Hlive). cbn [app].
    unfold FreeServiceJobSet. rewrite !bind_run, FreeServiceJobs_effect.
    unfold_effects. cbn [fst snd]. intros H. inversion H; subst. cbn.
    rewrite Hlive, Hjobs, Hticks, length_map, length_seq. cbn.
    repeat split. lia.
Qed.

(** What the runner does once the parameters and the batch are there. *)
Lemma RunLongRunningService_delivered
  (service_p : Service) (param_set_p : gmap string ParameterValue)
  (num_tasks : N) (w w1 : World) (jobs : ServiceJobSet) :
  GetCurrentUnsignedIntParameterValueFromParameterSet
    param_set_p LRS_NUMBER_OF_JOBS = Some (Some num_tasks) ->
  (0 < num_tasks)%N ->
  GetServiceJobSet num_tasks
    (match GetCurrentSignedIntParameterValueFromParameterSet
             param_set_p LRS_MIN_DURATION with
     | Some (Some d) => d
     | _ => 1
     end) w = (Some jobs, w1) ->
  RunLongRunningService service_p param_set_p w =
    (Some (fst (RunLongRunningService_loop jobs w1)),
     mkService (Some (fst (RunLongRunningService_loop jobs w1)))
               (se_data_p service_p),
     snd (RunLongRunningService_loop jobs w1)).
Proof.
  intros Hnum Hpos Hset. unfold RunLongRunningService. rewrite Hnum.
  apply N.ltb_lt in Hpos. rewrite Hpos. rewrite bind_run, Hset. cbn [fst snd].
  rewrite bind_run. reflexivity.
Qed.

(** X9: when the batch builder delivers no set, [RunLongRunningService]
    returns no set and leaves the service without one, whatever set it had
    before; no job has been started or registered and no block is left
    allocated. *)
Theorem RunLongRunningService_without_a_batch
  (service_p : Service) (param_set_p : gmap string ParameterValue)
  (num_tasks : N) (w : World) :
  GetCurrentUnsignedIntParameterValueFromParameterSet
    param_set_p LRS_NUMBER_OF_JOBS = Some (Some num_tasks) ->
  (0 < num_tasks)%N ->
  fst (GetServiceJobSet num_tasks
         (match GetCurrentSignedIntParameterValueFromParameterSet
                  param_set_p LRS_MIN_DURATION with
          | Some (Some d) => d
          | _ => 1
          end) w) = None ->
  fst (fst (RunLongRunningService service_p param_set_p w)) = None /\
  se_jobs_p (snd (fst (RunLongRunningService service_p param_set_p w))) = None /\
  w_jobs (snd (RunLongRunningService service_p param_set_p w)) = w_jobs w /\
  w_ticks (snd (RunLongRunningService service_p param_set_p w)) = w_ticks w /\
  w_live (snd (RunLongRunningService service_p param_set_p w)) = w_live w.
Proof.
  intros Hnum Hpos Hnone. unfold RunLongRunningService. rewrite Hnum.
  apply N.ltb_lt in Hpos. rewrite Hpos. rewrite bind_run.
  destruct (GetServiceJobSet num_tasks _ w) as [[jobs|] w1] eqn:Hset;
    [discriminate|].
  apply GetServiceJobSet_none in Hset as (Hlive & Hjobs & Hticks).
  cbn. auto.
Qed.

(** X9 at a request for two jobs when the very first allocation fails. *)
Lemma run_without_memory_returns_nothing :
  fst (fst (RunLongRunningService stored_service two_jobs_request
              (mkWorld (fun _ => 1000) 0 (fun _ => true) (fun _ => 0) 0
                       (fun _ => 5%N) 0 (fun k => N.of_nat k) 0 ∅ [] 0))) = None /\
  se_jobs_p (snd (fst (RunLongRunningService stored_service two_jobs_request
              (mkWorld (fun _ => 1000) 0 (fun _ => true) (fun _ => 0) 0
                       (fun _ => 5%N) 0 (fun k => N.of_nat k) 0 ∅ [] 0)))) = None.
Proof.
  destruct (RunLongRunningService_without_a_batch stored_service two_jobs_request
              2%N (mkWorld (fun _ => 1000) 0 (fun _ => true) (fun _ => 0) 0
                           (fun _ => 5%N) 0 (fun k => N.of_nat k) 0 ∅ [] 0)
              eq_refl ltac:(lia) eq_refl) as (H1 & H2 & _).
  split; [exact H1 | exact H2].
Defined.

(** ** The parameters *)

Lemma GetLongRunningServiceParameters_run (service_p : Service) (w : World) :
  GetLongRunningServiceParameters service_p w =
    if w_fault w (w_calls w) then (None, set_calls (S (w_calls w)) w)
    else if w_fault w (S (w_calls w))
    then (None, set_live (w_live w) (set_calls (S (S (w_calls w))) w))
    else if w_fault w (S (S (w_calls w)))
    then (None, set_live (w_live w) (set_calls (S (S (S (w_calls w)))) w))
    else (Some (<[LRS_MIN_DURATION := PV_SignedInt None]>
                  (<[LRS_NUMBER_OF_JOBS :=
                       PV_UnsignedInt
                         (Some (Z.to_N (lsd_default_number_of_jobs
                                          (se_data_p service_p))))]> ∅)),
          set_live (w_live w + 1) (set_calls (S (S (S (w_calls w)))) w)).
Proof.
  unfold GetLongRunningServiceParameters, AllocateParameterSet,
         EasyCreateAndAddUnsignedIntParameterToParameterSet,
         EasyCreateAndAddSignedIntParameterToParameterSet, FreeParameterSet.
  rewrite bind_run, bind_run, AllocMemory_run.
  destruct (w_fault w (w_calls w)); cbn [fst snd]; [reflexivity|].
  unfold_effects. cbn.
  destruct (w_fault w (S (w_calls w))); cbn.
  { f_equal. world_eq. }
  destruct (w_fault w (S (S (w_calls w)))); cbn.
  { f_equal. world_eq. }
  f_equal.
Qed.

(** X10: [GetLongRunningServiceParameters] either returns a set with
    exactly the two parameters, the number of jobs with the default of the
    service as its value and the minimum duration with no value, having
    taken one block; or it returns nothing and leaves no block behind.  For
    every name, [GetLongRunningServiceParameterTypesForNamedParameters]
    knows a type exactly when the returned set has a parameter of that
    name, and the type is that of the parameter. *)
Theorem GetLongRunningServiceParameters_all_or_nothing
  (service_p : Service) (w : World) :
  match fst (GetLongRunningServiceParameters service_p w) with
  | Some params =>
    GetCurrentUnsignedIntParameterValueFromParameterSet params LRS_NUMBER_OF_JOBS
      = Some (Some (Z.to_N (lsd_default_number_of_jobs (se_data_p service_p)))) /\
    GetCurrentSignedIntParameterValueFromParameterSet params LRS_MIN_DURATION
      = Some None /\
    (forall name_s : string,
        match GetLongRunningServiceParameterTypesForNamedParameters name_s with
        | Some PT_UNSIGNED_INT => exists v, params !! name_s = Some (PV_UnsignedInt v)
        | Some PT_SIGNED_INT => exists v, params !! name_s = Some (PV_SignedInt v)
        | None => params !! name_s = None
        end) /\
    w_live (snd (GetLongRunningServiceParameters service_p w)) = w_live w + 1
  | None =>
    w_live (snd (GetLongRunningServiceParameters service_p w)) = w_live w
  end.
Proof.
  rewrite GetLongRunningServiceParameters_run.
  destruct (w_fault w (w_calls w)); [reflexivity|].
  destruct (w_fault w (S (w_calls w))); [reflexivity|].
  destruct (w_fault w (S (S (w_calls w)))); [reflexivity|].
  cbn [fst snd]. split; [reflexivity|]. split; [reflexivity|].
  split; [|reflexivity].
  intros name_s. unfold GetLongRunningServiceParameterTypesForNamedParameters,
                        strcmp_eq.
  destruct (bool_decide (name_s = LRS_NUMBER_OF_JOBS)) eqn:E1.
  { apply bool_decide_eq_true in E1. subst name_s. eexists. reflexivity. }
  apply bool_decide_eq_false in E1.
  destruct (bool_decide (name_s = LRS_MIN_DURATION)) eqn:E2.
  { apply bool_decide_eq_true in E2. subst name_s. eexists. reflexivity. }
  apply bool_decide_eq_false in E2.
  rewrite lookup_insert_ne by congruence.
  rewrite lookup_insert_ne by congruence. reflexivity.
Qed.

(** X11: a run with the parameters as [GetLongRunningServiceParameters]
    makes them, unchanged, builds as many jobs as the default of the
    service says, each with a duration between 1 and 60 seconds, as long
    as no call of the batch fails. *)
Theorem run_with_default_parameters
  (service_p : Service) (w w2 : World) (params : gmap string ParameterValue) :
  fst (GetLongRunningServiceParameters service_p w) = Some params ->
  (0 < Z.to_N (lsd_default_number_of_jobs (se_data_p service_p)))%N ->
  no_faults w2 (1 + 3 * N.to_nat (Z.to_N (lsd_default_number_of_jobs
                                            (se_data_p service_p)))) ->
  exists jobs : ServiceJobSet,
    fst (fst (RunLongRunningService service_p params w2)) = Some jobs /\
    length jobs = N.to_nat (Z.to_N (lsd_default_number_of_jobs
                                      (se_data_p service_p))) /\
    forall job : TimedServiceJob,
      job ∈ jobs -> 1 <= ti_duration (tsj_interval_p job) <= 60.
Proof.
  intros Hparams Hpos Hok.
  rewrite GetLongRunningServiceParameters_run in Hparams.
  destruct (w_fault w (w_calls w)); [discriminate|].
  destruct (w_fault w (S (w_calls w))); [discriminate|].
  destruct (w_fault w (S (S (w_calls w)))); [discriminate|].
  cbn [fst] in Hparams. inversion Hparams; subst params. clear Hparams.
  set (n := Z.to_N (lsd_default_number_of_jobs (se_data_p service_p))) in *.
  set (params := <[LRS_MIN_DURATION := PV_SignedInt None]> _).
  assert (Hnum : GetCurrentUnsignedIntParameterValueFromParameterSet
                   params LRS_NUMBER_OF_JOBS = Some (Some n)) by reflexivity.
  assert (Hmin : GetCurrentSignedIntParameterValueFromParameterSet
                   params LRS_MIN_DURATION = Some None) by reflexivity.
  pose proof (GetServiceJobSet_ok n 1 w2 Hok) as Hset.
  assert (Hset' :
    GetServiceJobSet n
      (match GetCurrentSignedIntParameterValueFromParameterSet
               params LRS_MIN_DURATION with
       | Some (Some d) => d
       | _ => 1
       end) w2 = GetServiceJobSet n 1 w2) by (rewrite Hmin; reflexivity).
  rewrite Hset in Hset'.
  rewrite (RunLongRunningService_delivered service_p params n w2 _ _
             Hnum Hpos Hset').
  cbn [fst snd]. eexists. split; [reflexivity|].
  set (w3 := set_live (w_live w2 + 1) (set_calls (S (w_calls w2)) w2)) in *.
  pose proof (RunLongRunningService_loop_spec
                (map (batch_job w3 0 1) (seq 0 (N.to_nat n)))
                (after_batch w3 (N.to_nat n)) _ _
                (surjective_pairing _)) as (Hlen & _ & _ & _ & _ & _ & _ & Hall).
  split; [rewrite Hlen, length_map, length_seq; reflexivity|].
  intros job' Hin. apply list_elem_of_lookup in Hin as [k Hk].
  assert (Hk' : (k < length (map (batch_job w3 0 1) (seq 0 (N.to_nat n))))%nat).
  { rewrite <- Hlen. apply lookup_lt_Some in Hk. exact Hk. }
  apply lookup_lt_is_Some in Hk' as [job Hjob].
  destruct (Hall k job Hjob) as (job'' & Hjob'' & Hout).
  rewrite Hk in Hjob''. inversion Hjob''; subst job''.
  destruct Hout as (_ & _ & _ & _ & Hdur & _). rewrite Hdur.
  apply lookup_batch_jobs in Hjob as [_ ->]. cbn.
  pose proof (batch_duration_range w3 1 k) as Hrange.
  unfold INT32_MIN, INT32_MAX in Hrange. lia.
Qed.

(** X11 at the service as [AllocateLongRunningServiceData] sets it up, with
    a default of three jobs. *)
Lemma default_run_builds_three_jobs :
  exists jobs : ServiceJobSet,
    fst (fst (RunLongRunningService
                (mkService None (mkLongRunningServiceData 3))
                (<[LRS_MIN_DURATION := PV_SignedInt None]>
                   {[ LRS_NUMBER_OF_JOBS := PV_UnsignedInt (Some 3%N) ]})
                (calm_world 1000 0))) = Some jobs /\
    length jobs = 3%nat.
Proof.
  destruct (run_with_default_parameters
              (mkService None (mkLongRunningServiceData 3))
              (calm_world 1000 0) (calm_world 1000 0)
              (<[LRS_MIN_DURATION := PV_SignedInt None]>
                 {[ LRS_NUMBER_OF_JOBS := PV_UnsignedInt (Some 3%N) ]})
              eq_refl ltac:(cbn; lia) (fun k _ => eq_refl))
    as (jobs & Hrun & Hlen & _).
  exists jobs. split; [exact Hrun | exact Hlen].
Defined.

(** ** The run as a whole *)

Lemma GetServiceJobSet_some_frame
  (num_jobs : N) (d : Z) (w w1 : World) (jobs : ServiceJobSet) :
  GetServiceJobSet num_jobs d w = (Some jobs, w1) ->
  w_clock w1 = w_clock w /\ w_jobs w1 = w_jobs w /\ w_ticks w1 = w_ticks w.
Proof.
  intros Hset. apply GetServiceJobSet_some in Hset as [-> _].
  unfold after_batch. cbn. repeat split.
Qed.

(** X12: on a clock that stands at [t] during the run, every job of the
    batch comes back with start [t] and end [t] plus its duration, as long
    as these are [time_t] values.  Its stored status is started when its
    duration is positive, idle when its duration is 0 and succeeded when
    its duration is negative. *)
Theorem RunLongRunningService_on_a_standing_clock
  (service_p : Service) (param_set_p : gmap string ParameterValue)
  (num_tasks : N) (w w1 : World) (jobs : ServiceJobSet) (t : Z) :
  GetCurrentUnsignedIntParameterValueFromParameterSet
    param_set_p LRS_NUMBER_OF_JOBS = Some (Some num_tasks) ->
  (0 < num_tasks)%N ->
  GetServiceJobSet num_tasks
    (match GetCurrentSignedIntParameterValueFromParameterSet
             param_set_p LRS_MIN_DURATION with
     | Some (Some d) => d
     | _ => 1
     end) w = (Some jobs, w1) ->
  (forall n : nat, w_clock w n = t) ->
  exists jobs' : ServiceJobSet,
    fst (fst (RunLongRunningService service_p param_set_p w)) = Some jobs' /\
    forall (k : nat) (job : TimedServiceJob),
      jobs !! k = Some job ->
      TIME_MIN <= t + ti_duration (tsj_interval_p job) <= TIME_MAX ->
      exists job' : TimedServiceJob,
        jobs' !! k = Some job' /\
        ti_start (tsj_interval_p job') = t /\
        ti_end (tsj_interval_p job') = t + ti_duration (tsj_interval_p job) /\
        (0 < ti_duration (tsj_interval_p job) ->
         sj_status (tsj_job job') = OS_STARTED) /\
        (ti_duration (tsj_interval_p job) = 0 ->
         sj_status (tsj_job job') = OS_IDLE) /\
        (ti_duration (tsj_interval_p job) < 0 ->
         sj_status (tsj_job job') = OS_SUCCEEDED).
Proof.
  intros Hnum Hpos Hset Hclock.
  rewrite (RunLongRunningService_delivered _ _ _ _ _ _ Hnum Hpos Hset).
  cbn [fst snd]. eexists. split; [reflexivity|].
  intros k job Hjob Hrange.
  destruct (GetServiceJobSet_some_frame _ _ _ _ _ Hset) as (Hc & _ & _).
  assert (Hclock1 : forall n : nat, w_clock w1 n = t)
    by (intros n; rewrite Hc; apply Hclock).
  destruct (RunLongRunningService_loop_standing t jobs w1 Hclock1 k job Hjob)
    as (job' & Hjob' & Hint & Hstatus & _).
  exists job'. split; [exact Hjob'|].
  rewrite Hstatus, Hint. cbn [ti_start ti_end].
  rewrite time_t_wrap_id by exact Hrange.
  split; [reflexivity|]. split; [reflexivity|].
  assert (Hnow : now w1 = t) by apply Hclock1.
  split; [|split]; intros Hd.
  - apply polled_status_started; rewrite Hint; cbn [ti_start ti_end];
      rewrite ?time_t_wrap_id by exact Hrange; lia.
  - apply polled_status_idle. rewrite Hint. cbn [ti_start ti_end].
    rewrite time_t_wrap_id by exact Hrange. lia.
  - apply polled_status_succeeded; rewrite Hint; cbn [ti_start ti_end];
      rewrite ?time_t_wrap_id by exact Hrange; lia.
Qed.

(** X13: when the identifiers of the batch differ from one another, the
    JobsManager holds after the run, under the identifier of every job that
    came back with its flag set, exactly that job; under the identifier of
    a job that came back with its flag cleared, and under every identifier
    that is not in the batch, it holds what it held before the run. *)
Theorem RunLongRunningService_registry
  (service_p : Service) (param_set_p : gmap string ParameterValue)
  (num_tasks : N) (w w1 : World) (jobs : ServiceJobSet) :
  GetCurrentUnsignedIntParameterValueFromParameterSet
    param_set_p LRS_NUMBER_OF_JOBS = Some (Some num_tasks) ->
  (0 < num_tasks)%N ->
  GetServiceJobSet num_tasks
    (match GetCurrentSignedIntParameterValueFromParameterSet
             param_set_p LRS_MIN_DURATION with
     | Some (Some d) => d
     | _ => 1
     end) w = (Some jobs, w1) ->
  NoDup (job_ids jobs) ->
  exists jobs' : ServiceJobSet,
    fst (fst (RunLongRunningService service_p param_set_p w)) = Some jobs' /\
    job_ids jobs' = job_ids jobs /\
    (forall (k : nat) (job' : TimedServiceJob),
        jobs' !! k = Some job' ->
        w_jobs (snd (RunLongRunningService service_p param_set_p w))
          !! sj_id (tsj_job job')
        = if tsj_added_flag job' then Some job'
          else w_jobs w !! sj_id (tsj_job job')) /\
    (forall id : uuid_t,
        id ∉ job_ids jobs ->
        w_jobs (snd (RunLongRunningService service_p param_set_p w)) !! id
        = w_jobs w !! id).
Proof.
  intros Hnum Hpos Hset Hnodup.
  rewrite (RunLongRunningService_delivered _ _ _ _ _ _ Hnum Hpos Hset).
  cbn [fst snd]. eexists. split; [reflexivity|].
  destruct (GetServiceJobSet_some_frame _ _ _ _ _ Hset) as (_ & Hj & _).
  rewrite <- Hj. split; [apply RunLongRunningService_loop_ids|]. split.
  - intros k job' Hk.
    exact (RunLongRunningService_loop_registry jobs w1 Hnodup k job' Hk).
  - intros id Hid. apply RunLongRunningService_loop_other_ids. exact Hid.
Qed.

(** X12 at a request for two jobs at 1000: the first job gets fifteen
    seconds and comes back started. *)
Lemma first_of_two_jobs_comes_back_started :
  exists (jobs' : ServiceJobSet) (job' : TimedServiceJob),
    fst (fst (RunLongRunningService (mkService None (mkLongRunningServiceData 3))
                two_jobs_request (calm_world 1000 0))) = Some jobs' /\
    jobs' !! 0%nat = Some job' /\
    ti_start (tsj_interval_p job') = 1000 /\
    ti_end (tsj_interval_p job') = 1015 /\
    sj_status (tsj_job job') = OS_STARTED.
Proof.
  let v := eval vm_compute in (GetServiceJobSet 2 10 (calm_world 1000 0)) in
  assert (Hset : GetServiceJobSet 2 10 (calm_world 1000 0) = v)
    by (vm_compute; reflexivity).
  match type of Hset with
  | _ = (Some ?jobs, ?w1) =>
    destruct (RunLongRunningService_on_a_standing_clock
                (mkService None (mkLongRunningServiceData 3))
                two_jobs_request 2%N (calm_world 1000 0) w1 jobs 1000
                eq_refl ltac:(lia) Hset (fun _ => eq_refl))
      as (jobs' & Hret & Hall)
  end.
  assert (Hrange : TIME_MIN <= 1000 + 15 <= TIME_MAX)
    by (unfold TIME_MIN, TIME_MAX; lia).
  destruct (Hall 0%nat _ eq_refl Hrange)
    as (job' & Hjob' & Hstart & Hend & Hstarted & _).
  exists jobs', job'. split; [exact Hret|]. split; [exact Hjob'|].
  split; [exact Hstart|]. split; [exact Hend|]. apply Hstarted. cbn. lia.
Defined.

(** X13 at a request for two jobs when the registration of the second job
    fails: the first job is registered under 10, nothing is under 11. *)
Lemma only_the_first_of_two_jobs_is_registered :
  is_Some (w_jobs (snd (RunLongRunningService
                          (mkService None (mkLongRunningServiceData 3))
                          two_jobs_request second_registration_fails))
           !! 10%N) /\
  w_jobs (snd (RunLongRunningService
                 (mkService None (mkLongRunningServiceData 3))
                 two_jobs_request second_registration_fails)) !! 11%N = None.
Proof.
  let v := eval vm_compute in (GetServiceJobSet 2 10 second_registration_fails) in
  assert (Hset : GetServiceJobSet 2 10 second_registration_fails = v)
    by (vm_compute; reflexivity).
  let r := eval vm_compute in
    (fst (fst (RunLongRunningService
                 (mkService None (mkLongRunningServiceData 3))
                 two_jobs_request second_registration_fails))) in
  assert (Hrun : fst (fst (RunLongRunningService
                             (mkService None (mkLongRunningServiceData 3))
                             two_jobs_request second_registration_fails)) = r)
    by (vm_compute; reflexivity).
  match type of Hset with
  | _ = (Some ?jobs, ?w1) =>
    assert (Hnodup : NoDup (job_ids jobs))
      by (apply NoDup_cons_2;
          [apply not_elem_of_cons; split; [discriminate | apply not_elem_of_nil]
          | apply NoDup_singleton]);
    destruct (RunLongRunningService_registry
                (mkService None (mkLongRunningServiceData 3))
                two_jobs_request 2%N second_registration_fails w1 jobs
                eq_refl ltac:(lia) Hset Hnodup)
      as (jobs' & Hret & _ & Hown & _)
  end.
  rewrite Hrun in Hret. inversion Hret; subst jobs'. clear Hret.
  split.
  - pose proof (Hown 0%nat _ eq_refl) as H0.
    cbn [sj_id tsj_job tsj_added_flag] in H0. eexists. exact H0.
  - exact (Hown 1%nat _ eq_refl).
Defined.

(** ** Running, then asking *)

(** On a standing clock every job of a batch comes back with its start at
    the clock and its end between the minimum duration and 59 seconds more
    after it. *)
Lemma batch_run_intervals
  (num_jobs : N) (d : Z) (w w1 : World) (jobs : ServiceJobSet) (t : Z) :
  INT32_MIN <= d -> d + 59 <= INT32_MAX ->
  GetServiceJobSet num_jobs d w = (Some jobs, w1) ->
  (forall n : nat, w_clock w n = t) ->
  TIME_MIN <= t + d -> t + d + 59 <= TIME_MAX ->
  length (fst (RunLongRunningService_loop jobs w1)) = N.to_nat num_jobs /\
  forall (k : nat) (job' : TimedServiceJob),
    fst (RunLongRunningService_loop jobs w1) !! k = Some job' ->
    ti_start (tsj_interval_p job') = t /\
    t + d <= ti_end (tsj_interval_p job') <= t + d + 59.
Proof.
  intros Hlo Hhi Hset Hclock Htlo Hthi.
  destruct (GetServiceJobSet_some_frame _ _ _ _ _ Hset) as (Hc & _ & _).
  assert (Hclock1 : forall n : nat, w_clock w1 n = t)
    by (intros n; rewrite Hc; apply Hclock).
  pose proof (RunLongRunningService_loop_spec jobs w1 _ _ (surjective_pairing _))
    as (Hlen & _).
  apply GetServiceJobSet_some in Hset as [_ Hjobs].
  split.
  - rewrite Hlen, Hjobs, length_map, length_seq. reflexivity.
  - intros k job' Hk.
    assert (Hlt : (k < length jobs)%nat).
    { rewrite <- Hlen. apply lookup_lt_Some in Hk. exact Hk. }
    apply lookup_lt_is_Some in Hlt as [job Hjob].
    destruct (RunLongRunningService_loop_standing t jobs w1 Hclock1 k job Hjob)
      as (job'' & Hjob'' & Hint & _).
    rewrite Hk in Hjob''. inversion Hjob''; subst job''.
    rewrite Hint. cbn [ti_start ti_end].
    rewrite Hjobs in Hjob. apply lookup_batch_jobs in Hjob as [_ ->].
    cbn [batch_job tsj_interval_p ti_duration].
    pose proof (batch_duration_range
                  (set_live (w_live w + 1) (set_calls (S (w_calls w)) w))
                  d k Hlo Hhi) as Hrange.
    rewrite time_t_wrap_id by lia. split; [reflexivity | lia].
Qed.

(** Whether the service closes, on a standing clock. *)
Lemma CloseLongRunningService_flag (service_p : Service) (w : World) (t : Z) :
  (forall n : nat, w_clock w n = t) ->
  fst (fst (CloseLongRunningService service_p w)) = false <->
  exists job,
    job ∈ match se_jobs_p service_p with Some jobs => jobs | None => [] end /\
    (polled_status job w = OS_STARTED \/ polled_status job w = OS_PENDING).
Proof.
  intros Hclock. unfold CloseLongRunningService.
  destruct (se_jobs_p service_p) as [js|].
  - destruct (CloseLongRunningService_loop js w) as [[flag js'] w1] eqn:Hrun.
    destruct (CloseLongRunningService_loop_spec t js _ _ _ _ Hclock Hrun)
      as [Hiff _].
    unfold_effects. rewrite Hrun. destruct flag; cbn [fst snd]; exact Hiff.
  - unfold_effects. cbn [fst snd]. split; [discriminate|].
    intros (job & Hin & _). inversion Hin.
Qed.

(** X14: after a run on a clock standing at [t], with a minimum duration
    [d >= 1], the service cannot be closed while the clock stands anywhere
    from [t] to [t + d], and it can be closed once the clock stands after
    [t + d + 59]. *)
Theorem close_after_run
  (service_p : Service) (param_set_p : gmap string ParameterValue)
  (num_tasks : N) (d : Z) (w w1 : World) (jobs : ServiceJobSet) (t : Z) :
  GetCurrentUnsignedIntParameterValueFromParameterSet
    param_set_p LRS_NUMBER_OF_JOBS = Some (Some num_tasks) ->
  (0 < num_tasks)%N ->
  d = match GetCurrentSignedIntParameterValueFromParameterSet
              param_set_p LRS_MIN_DURATION with
      | Some (Some d) => d
      | _ => 1
      end ->
  1 <= d -> d + 59 <= INT32_MAX ->
  GetServiceJobSet num_tasks d w = (Some jobs, w1) ->
  (forall n : nat, w_clock w n = t) ->
  TIME_MIN <= t -> t + d + 59 <= TIME_MAX ->
  forall (w2 : World) (t2 : Z),
    (forall n : nat, w_clock w2 n = t2) ->
    (t <= t2 <= t + d ->
     fst (fst (CloseLongRunningService
                 (snd (fst (RunLongRunningService service_p param_set_p w)))
                 w2)) = false) /\
    (t + d + 59 < t2 ->
     fst (fst (CloseLongRunningService
                 (snd (fst (RunLongRunningService service_p param_set_p w)))
                 w2)) = true).
Proof.
  intros Hnum Hpos Hd Hd1 Hdhi Hset Hclock Htlo Hthi w2 t2 Hclock2.
  assert (Hset' := Hset). rewrite Hd in Hset'.
  rewrite (RunLongRunningService_delivered _ _ _ _ _ _ Hnum Hpos Hset').
  cbn [fst snd].
  assert (Hdlo : INT32_MIN <= d) by (unfold INT32_MIN; lia).
  destruct (batch_run_intervals num_tasks d w w1 jobs t Hdlo Hdhi Hset Hclock
              ltac:(lia) Hthi) as [Hlen Hint].
  assert (Hnow2 : now w2 = t2) by apply Hclock2.
  split; intros Ht2.
  - apply (CloseLongRunningService_flag _ w2 t2 Hclock2). cbn [se_jobs_p].
    assert (Hlt : (0 < length (fst (RunLongRunningService_loop jobs w1)))%nat)
      by (rewrite Hlen; lia).
    apply lookup_lt_is_Some in Hlt as [job' Hjob'].
    destruct (Hint 0%nat job' Hjob') as [Hstart Hend].
    exists job'. split; [apply list_elem_of_lookup; eauto|]. left.
    apply polled_status_started; lia.
  - destruct (fst (fst (CloseLongRunningService _ w2))) eqn:E; [reflexivity|].
    apply (CloseLongRunningService_flag _ w2 t2 Hclock2) in E
      as (job' & Hin & Hpoll).
    cbn [se_jobs_p] in Hin. apply list_elem_of_lookup in Hin as [k Hk].
    destruct (Hint k job' Hk) as [Hstart Hend].
    rewrite (polled_status_succeeded job' w2) in Hpoll by lia.
    destruct Hpoll; discriminate.
Qed.

(** X14 at a request for two jobs of at least ten seconds at 1000: closing
    is refused at 1005 and accepted at 1070. *)
Lemma close_is_refused_at_1005_and_accepted_at_1070 :
  fst (fst (CloseLongRunningService
              (snd (fst (RunLongRunningService
                           (mkService None (mkLongRunningServiceData 3))
                           two_jobs_request (calm_world 1000 0))))
              (calm_world 1005 0))) = false /\
  fst (fst (CloseLongRunningService
              (snd (fst (RunLongRunningService
                           (mkService None (mkLongRunningServiceData 3))
                           two_jobs_request (calm_world 1000 0))))
              (calm_world 1070 0))) = true.
Proof.
  let v := eval vm_compute in (GetServiceJobSet 2 10 (calm_world 1000 0)) in
  assert (Hset : GetServiceJobSet 2 10 (calm_world 1000 0) = v)
    by (vm_compute; reflexivity).
  assert (H59 : 10 + 59 <= INT32_MAX) by (unfold INT32_MAX; lia).
  assert (Hlo : TIME_MIN <= 1000) by (unfold TIME_MIN; lia).
  assert (Hhi : 1000 + 10 + 59 <= TIME_MAX) by (unfold TIME_MAX; lia).
  match type of Hset with
  | _ = (Some ?jobs, ?w1) =>
    pose proof (close_after_run
                  (mkService None (mkLongRunningServiceData 3))
                  two_jobs_request 2%N 10 (calm_world 1000 0) w1 jobs 1000
                  eq_refl ltac:(lia) eq_refl ltac:(lia) H59 Hset
                  (fun _ => eq_refl) Hlo Hhi) as Hclose
  end.
  split.
  - apply (proj1 (Hclose (calm_world 1005 0) 1005 (fun _ => eq_refl))). lia.
  - apply (proj2 (Hclose (calm_world 1070 0) 1070 (fun _ => eq_refl))). lia.
Defined.

(** ** The queries *)

Lemma GetLongRunningServiceStatus_run (job_id : uuid_t) (w : World) :
  GetLongRunningServiceStatus job_id w =
    match w_jobs w !! job_id with
    | Some job =>
      (polled_status job w,
       set_jobs (<[job_id := set_tsj_job
                               (SetServiceJobStatus (tsj_job job)
                                  (polled_status job w)) job]> (w_jobs w))
                (if ti_start (tsj_interval_p job) =? ti_end (tsj_interval_p job)
                 then w else set_ticks (S (w_ticks w)) w))
    | None =>
      (OS_ERROR,
       set_log (w_log w ++ ["Failed to get job data for " +:+ dquote
                              +:+ ConvertUUIDToString job_id +:+ dquote]) w)
    end.
Proof.
  unfold GetLongRunningServiceStatus, GetServiceJobFromJobsManager.
  rewrite bind_run. cbn [fst snd].
  destruct (w_jobs w !! job_id) as [job|].
  - rewrite bind_run, GetTimedServiceJobStatus_effect. cbn [fst snd].
    rewrite bind_run. cbn [fst snd]. unfold ret. f_equal.
    destruct (_ =? _); world_eq.
  - unfold_effects. reflexivity.
Qed.

(** X15: the status query for an identifier that the JobsManager does not
    know answers with the error status, logs one message that quotes the
    identifier, reads no clock and changes no registered job.  For an
    identifier that it knows, the answer is what polling the registered job
    gives; the job stays registered under the identifier with that status
    stored and its interval and flag as they were, every other registered
    job is untouched and nothing is logged. *)
Theorem GetLongRunningServiceStatus_by_identifier (job_id : uuid_t) (w : World) :
  (w_jobs w !! job_id = None ->
   fst (GetLongRunningServiceStatus job_id w) = OS_ERROR /\
   w_log (snd (GetLongRunningServiceStatus job_id w))
     = w_log w ++ ["Failed to get job data for " +:+ dquote
                     +:+ ConvertUUIDToString job_id +:+ dquote] /\
   w_jobs (snd (GetLongRunningServiceStatus job_id w)) = w_jobs w /\
   w_ticks (snd (GetLongRunningServiceStatus job_id w)) = w_ticks w) /\
  (forall job : TimedServiceJob,
      w_jobs w !! job_id = Some job ->
      fst (GetLongRunningServiceStatus job_id w) = polled_status job w /\
      (exists job' : TimedServiceJob,
          w_jobs (snd (GetLongRunningServiceStatus job_id w)) !! job_id
            = Some job' /\
          sj_status (tsj_job job') = polled_status job w /\
          same_but_status job job') /\
      (forall other : uuid_t,
          other <> job_id ->
          w_jobs (snd (GetLongRunningServiceStatus job_id w)) !! other
            = w_jobs w !! other) /\
      w_log (snd (GetLongRunningServiceStatus job_id w)) = w_log w).
Proof.
  rewrite GetLongRunningServiceStatus_run. split.
  - intros ->. cbn. repeat split.
  - intros job ->. cbn [fst snd]. split; [reflexivity|]. split; [|split].
    + eexists. split.
      * destruct (_ =? _); cbn; apply lookup_insert_eq.
      * split; [reflexivity|]. unfold same_but_status. cbn. repeat split.
    + intros other Hne. destruct (_ =? _); cbn;
        apply lookup_insert_ne; congruence.
    + destruct (_ =? _); reflexivity.
Qed.

(** X15 with [stored_job] registered under 10 and the clock at 1010: the
    query for 10 answers started, the query for 11 answers with the error
    status. *)
Lemma stored_job_is_reported_started_and_11_is_unknown :
  fst (GetLongRunningServiceStatus 10%N (registry_world 1010)) = OS_STARTED /\
  fst (GetLongRunningServiceStatus 11%N (registry_world 1010)) = OS_ERROR.
Proof.
  split.
  - destruct (GetLongRunningServiceStatus_by_identifier 10%N (registry_world 1010))
      as [_ Hknown].
    destruct (Hknown stored_job eq_refl) as [Hstatus _].
    rewrite Hstatus. reflexivity.
  - destruct (GetLongRunningServiceStatus_by_identifier 11%N (registry_world 1010))
      as [Hunknown _].
    exact (proj1 (Hunknown eq_refl)).
Defined.

(** X16: after a run on a clock standing at [t], with a minimum duration
    [d >= 1] and identifiers that differ, take a job that came back with
    its flag set.  In any later world that has the JobsManager as the run
    left it, the status query for the identifier of the job answers
    started while the clock reads from [t] to [t + d], and succeeded once
    the clock reads more than [t + d + 59]. *)
Theorem status_by_identifier_after_run
  (service_p : Service) (param_set_p : gmap string ParameterValue)
  (num_tasks : N) (d : Z) (w w1 : World) (jobs : ServiceJobSet) (t : Z) :
  GetCurrentUnsignedIntParameterValueFromParameterSet
    param_set_p LRS_NUMBER_OF_JOBS = Some (Some num_tasks) ->
  (0 < num_tasks)%N ->
  d = match GetCurrentSignedIntParameterValueFromParameterSet
              param_set_p LRS_MIN_DURATION with
      | Some (Some d) => d
      | _ => 1
      end ->
  1 <= d -> d + 59 <= INT32_MAX ->
  GetServiceJobSet num_tasks d w = (Some jobs, w1) ->
  NoDup (job_ids jobs) ->
  (forall n : nat, w_clock w n = t) ->
  TIME_MIN <= t -> t + d + 59 <= TIME_MAX ->
  forall (jobs' : ServiceJobSet) (k : nat) (job' : TimedServiceJob) (w2 : World),
    fst (fst (RunLongRunningService service_p param_set_p w)) = Some jobs' ->
    jobs' !! k = Some job' ->
    tsj_added_flag job' = true ->
    w_jobs w2 = w_jobs (snd (RunLongRunningService service_p param_set_p w)) ->
    (t <= now w2 <= t + d ->
     fst (GetLongRunningServiceStatus (sj_id (tsj_job job')) w2) = OS_STARTED) /\
    (t + d + 59 < now w2 ->
     fst (GetLongRunningServiceStatus (sj_id (tsj_job job')) w2) = OS_SUCCEEDED).
Proof.
  intros Hnum Hpos Hd Hd1 Hdhi Hset Hnodup Hclock Htlo Hthi
         jobs' k job' w2 Hret Hk Hflag Hjobs2.
  assert (Hset' := Hset). rewrite Hd in Hset'.
  rewrite (RunLongRunningService_delivered _ _ _ _ _ _ Hnum Hpos Hset')
    in Hret, Hjobs2.
  cbn [fst snd] in Hret, Hjobs2. inversion Hret; subst jobs'. clear Hret.
  assert (Hdlo : INT32_MIN <= d) by (unfold INT32_MIN; lia).
  destruct (batch_run_intervals num_tasks d w w1 jobs t Hdlo Hdhi Hset Hclock
              ltac:(lia) Hthi) as [_ Hint].
  destruct (Hint k job' Hk) as [Hstart Hend].
  pose proof (RunLongRunningService_loop_registry jobs w1 Hnodup k job' Hk)
    as Hreg.
  rewrite Hflag, <- Hjobs2 in Hreg.
  rewrite GetLongRunningServiceStatus_run, Hreg. cbn [fst].
  split; intros Hnow.
  - apply polled_status_started; lia.
  - apply polled_status_succeeded; lia.
Qed.

(** X16 at a request for two jobs at 1000: the first job, registered under
    10, is reported started at 1005. *)
Lemma first_job_is_reported_started_at_1005 :
  fst (GetLongRunningServiceStatus 10%N
         (set_jobs
            (w_jobs (snd (RunLongRunningService
                            (mkService None (mkLongRunningServiceData 3))
                            two_jobs_request (calm_world 1000 0))))
            (calm_world 1005 0))) = OS_STARTED.
Proof.
  set (w2 := set_jobs _ (calm_world 1005 0)).
  assert (Hjobs2 :
    w_jobs w2 = w_jobs (snd (RunLongRunningService
                               (mkService None (mkLongRunningServiceData 3))
                               two_jobs_request (calm_world 1000 0))))
    by (vm_compute; reflexivity).
  assert (Hnow : 1000 <= now w2 <= 1000 + 10)
    by (vm_compute; split; discriminate).
  let v := eval vm_compute in (GetServiceJobSet 2 10 (calm_world 1000 0)) in
  assert (Hset : GetServiceJobSet 2 10 (calm_world 1000 0) = v)
    by (vm_compute; reflexivity).
  let r := eval vm_compute in
    (fst (fst (RunLongRunningService
                 (mkService None (mkLongRunningServiceData 3))
                 two_jobs_request (calm_world 1000 0)))) in
  assert (Hrun : fst (fst (RunLongRunningService
                             (mkService None (mkLongRunningServiceData 3))
                             two_jobs_request (calm_world 1000 0))) = r)
    by (vm_compute; reflexivity).
  assert (H59 : 10 + 59 <= INT32_MAX) by (unfold INT32_MAX; lia).
  assert (Hlo : TIME_MIN <= 1000) by (unfold TIME_MIN; lia).
  assert (Hhi : 1000 + 10 + 59 <= TIME_MAX) by (unfold TIME_MAX; lia).
  match type of Hset with
  | _ = (Some ?jobs, ?w1) =>
    assert (Hnodup : NoDup (job_ids jobs))
      by (apply NoDup_cons_2;
          [apply not_elem_of_cons; split; [discriminate | apply not_elem_of_nil]
          | apply NoDup_singleton]);
    match type of Hrun with
    | _ = Some (?job' :: ?rest) =>
      exact (proj1 (status_by_identifier_after_run
                      (mkService None (mkLongRunningServiceData 3))
                      two_jobs_request 2%N 10 (calm_world 1000 0) w1 jobs 1000
                      eq_refl ltac:(lia) eq_refl ltac:(lia) H59 Hset Hnodup
                      (fun _ => eq_refl) Hlo Hhi
                      (job' :: rest) 0%nat job' w2 Hrun eq_refl eq_refl Hjobs2)
                   Hnow)
    end
  end.
Defined.


(** An [int] holds its own value and no other. *)
Lemma int32_wrap_range (z : Z) : INT32_MIN <= int32_wrap z <= INT32_MAX.
Proof.
  unfold INT32_MIN, INT32_MAX, int32_wrap, wrap.
  pose proof (Z.mod_pos_bound (z + 2 ^ (32 - 1)) (2 ^ 32) ltac:(lia)). lia.
Qed.

Lemma int32_wrap_fixed (z : Z) :
  int32_wrap z = z <-> INT32_MIN <= z <= INT32_MAX.
Proof.
  split.
  - intros H. rewrite <- H. apply int32_wrap_range.
  - apply int32_wrap_id.
Qed.

(** The members of the object that the result query packs. *)
Lemma packed_members (start end_ start' end' : Z) :
  JArr [JObj (<["end" := JInt end_]> {["start" := JInt start]})]
    = JArr [JObj (<["end" := JInt end']> {["start" := JInt start']})] ->
  start = start' /\ end_ = end'.
Proof.
  intros H. split.
  - apply (f_equal (fun results =>
                      match results with
                      | JArr [element] => GetJSONLong element "start"
                      | _ => None
                      end)) in H.
    unfold GetJSONLong in H.
    rewrite !lookup_insert_ne in H by discriminate.
    rewrite !lookup_singleton_eq in H. congruence.
  - apply (f_equal (fun results =>
                      match results with
                      | JArr [element] => GetJSONLong element "end"
                      | _ => None
                      end)) in H.
    unfold GetJSONLong in H.
    rewrite !lookup_insert_eq in H. congruence.
Qed.



(** ** Closing, whatever the clock does *)

Lemma same_but_status_refl (job : TimedServiceJob) : same_but_status job job.
Proof. destruct job as [[] ? ?]. repeat split. Qed.

Lemma same_but_status_polled (job : TimedServiceJob) (status : OperationStatus) :
  same_but_status job (set_tsj_job (SetServiceJobStatus (tsj_job job) status) job).
Proof. repeat split. Qed.

(** The loop keeps every job in its place and touches nothing in the world
    but the clock, which it reads at most once for each job. *)
Lemma CloseLongRunningService_loop_keeps (jobs : list TimedServiceJob) :
  forall w : World,
    Forall2 same_but_status jobs (snd (fst (CloseLongRunningService_loop jobs w))) /\
    exists n : nat,
      (w_ticks w <= n <= w_ticks w + length jobs)%nat /\
      snd (CloseLongRunningService_loop jobs w) = set_ticks n w.
Proof.
  induction jobs as [|job rest IH]; intros w.
  - cbn. split; [constructor|]. exists (w_ticks w).
    split; [lia|]. destruct w; reflexivity.
  - cbn [CloseLongRunningService_loop].
    rewrite bind_run, GetTimedServiceJobStatus_effect. cbn [fst snd].
    set (w1 := if ti_start (tsj_interval_p job) =? ti_end (tsj_interval_p job)
               then w else set_ticks (S (w_ticks w)) w).
    assert (Hw1 : exists n1 : nat,
               (w_ticks w <= n1 <= S (w_ticks w))%nat /\ w1 = set_ticks n1 w).
    { subst w1. destruct (_ =? _).
      - exists (w_ticks w). split; [lia|]. destruct w; reflexivity.
      - exists (S (w_ticks w)). split; [lia|reflexivity]. }
    destruct Hw1 as (n1 & Hn1 & Hw1).
    destruct (bool_decide (polled_status job w = OS_PENDING)
              || bool_decide (polled_status job w = OS_STARTED)).
    + unfold ret. cbn [fst snd length]. split.
      * constructor; [apply same_but_status_polled|].
        clear. induction rest; constructor;
          [apply same_but_status_refl | assumption].
      * exists n1. split; [lia | exact Hw1].
    + rewrite bind_run. unfold ret. cbn [fst snd length].
      destruct (IH w1) as (Hall & n & Hn & Hw).
      split.
      * constructor; [apply same_but_status_polled | exact Hall].
      * exists n. rewrite Hw, Hw1. rewrite Hw1 in Hn. cbn in Hn.
        split; [lia | reflexivity].
Qed.

(** X18: closing never drops, adds or reorders a job of the service, and
    changes nothing in a job but the status that is stored in it, whatever
    the clock reads and whether or not the answer is "closed"; the clock is
    read at most once for each job.  The service data stays attached to
    the service, nothing is logged, and one block is given back exactly
    when the answer is "closed".  A service without a job set is always
    closed, and the clock is not read for it. *)
Theorem CloseLongRunningService_keeps_the_jobs (service_p : Service) (w : World) :
  let r := CloseLongRunningService service_p w in
  se_data_p (snd (fst r)) = se_data_p service_p /\
  match se_jobs_p service_p with
  | Some jobs =>
    exists jobs' : list TimedServiceJob,
      se_jobs_p (snd (fst r)) = Some jobs' /\
      Forall2 same_but_status jobs jobs' /\
      (w_ticks w <= w_ticks (snd r) <= w_ticks w + length jobs)%nat
  | None =>
    se_jobs_p (snd (fst r)) = None /\ fst (fst r) = true /\
    w_ticks (snd r) = w_ticks w
  end /\
  w_log (snd r) = w_log w /\
  w_live (snd r) = w_live w - (if fst (fst r) then 1 else 0).
Proof.
  intros r. subst r. unfold CloseLongRunningService.
  destruct (se_jobs_p service_p) as [jobs|] eqn:Hjobs.
  - destruct (CloseLongRunningService_loop_keeps jobs w) as (Hall & n & Hn & Hw).
    rewrite !bind_run. rewrite Hw. unfold ret. cbn [fst snd].
    destruct (fst (fst (CloseLongRunningService_loop jobs w)));
      unfold_effects; cbn; (split; [reflexivity|]);
      (split; [eexists; split; [reflexivity|]; split; [exact Hall | lia]|]);
      repeat split; lia.
  - unfold_effects. cbn. repeat split. exact Hjobs.
Qed.

(** X18 at [stored_service], asked at 1010, when its job is running: the
    service keeps its one job, with the interval and the flag of
    [stored_job]. *)
Lemma stored_service_keeps_its_job :
  exists job' : TimedServiceJob,
    se_jobs_p (snd (fst (CloseLongRunningService stored_service
                           (calm_world 1010 0)))) = Some [job'] /\
    tsj_interval_p job' = mkTimeInterval 1000 1030 30 /\
    tsj_added_flag job' = true.
Proof.
  destruct (CloseLongRunningService_keeps_the_jobs stored_service
              (calm_world 1010 0))
    as (_ & (jobs' & Hjobs & Hall & _) & _).
  inversion Hall as [|job job' rest rest' Hsame Hrest]; subst.
  inversion Hrest; subst.
  exists job'. split; [exact Hjobs|].
  destruct Hsame as (_ & Hinterval & Hflag). split; assumption.
Defined.

(** ** Writing a job, whatever goes wrong *)

Lemma no_faults_3 (w : World) :
  no_faults w 3 <->
  w_fault w (w_calls w) = false /\
  w_fault w (S (w_calls w)) = false /\
  w_fault w (S (S (w_calls w))) = false.
Proof.
  split.
  - intros Hok.
    pose proof (Hok 0%nat ltac:(lia)) as H0.
    pose proof (Hok 1%nat ltac:(lia)) as H1.
    pose proof (Hok 2%nat ltac:(lia)) as H2.
    rewrite Nat.add_0_r in H0. rewrite Nat.add_1_r in H1.
    replace (w_calls w + 2)%nat with (S (S (w_calls w))) in H2 by lia.
    auto.
  - intros (H0 & H1 & H2) k Hk.
    destruct k as [|[|[|k]]]; [| | |lia].
    + rewrite Nat.add_0_r. exact H0.
    + rewrite Nat.add_1_r. exact H1.
    + replace (w_calls w + 2)%nat with (S (S (w_calls w))) by lia. exact H2.
Qed.

(** Writing a job, whatever the next three calls do. *)
Lemma GetTimedServiceJobAsJSON_run (job_p : TimedServiceJob) (w : World) :
  GetTimedServiceJobAsJSON job_p w =
    if w_fault w (w_calls w) then
      (None, set_log (w_log w ++ ["Failed to create JSON for TimedServiceJob"])
               (set_calls (w_calls w + 1) w))
    else if w_fault w (S (w_calls w)) then
      (None, set_log (w_log w ++
                        ["Failed to add " +:+ LRS_END_S +:+ " "
                           +:+ pretty (size_t_cast (ti_end (tsj_interval_p job_p)))
                           +:+ " to json"])
               (set_calls (w_calls w + 2) w))
    else if w_fault w (S (S (w_calls w))) then
      (None, set_log (w_log w ++
                        ["Failed to add " +:+ LRS_END_S +:+ " "
                           +:+ pretty (size_t_cast (ti_end (tsj_interval_p job_p)))
                           +:+ " to json"])
               (set_calls (w_calls w + 3) w))
    else (Some (persisted_document job_p), set_calls (w_calls w + 3) w).
Proof.
  unfold GetTimedServiceJobAsJSON, GetServiceJobAsJSON, json_object_set_new.
  unfold_effects.
  destruct (w_fault w (w_calls w)); cbn; [f_equal; world_eq|].
  destruct (w_fault w (S (w_calls w))); cbn; [f_equal; world_eq|].
  destruct (w_fault w (S (S (w_calls w)))); cbn; f_equal; world_eq.
Qed.



(** X20: the serialiser hands out the text that [json_dumps] makes of the
    document of the job, with a length that counts the terminating zero
    byte: one more than the length of the text, as long as that fits an
    unsigned int.  It hands out nothing when the document cannot be
    written or [json_dumps] fails, and then the last message in the log
    says which of the two it was and quotes the identifier of the job. *)
Theorem SerialiseTimedServiceJob_outcomes
  (json_dumps : json -> option string) (base_job_p : TimedServiceJob) (w : World) :
  let r := SerialiseTimedServiceJob json_dumps base_job_p w in
  let uuid_s := dquote +:+ ConvertUUIDToString (sj_id (tsj_job base_job_p))
                  +:+ dquote in
  (forall (value_s : string) (value_length : Z),
      fst r = Some (value_s, value_length) ->
      no_faults w 3 /\
      json_dumps (persisted_document base_job_p) = Some value_s /\
      0 <= value_length < 2 ^ 32 /\
      (Z.of_nat (String.length value_s) + 1 < 2 ^ 32 ->
       value_length = Z.of_nat (String.length value_s) + 1) /\
      w_log (snd r) = w_log w) /\
  (no_faults w 3 ->
   forall value_s : string,
     json_dumps (persisted_document base_job_p) = Some value_s ->
     is_Some (fst r)) /\
  (no_faults w 3 ->
   json_dumps (persisted_document base_job_p) = None ->
   fst r = None /\
   w_log (snd r) = w_log w ++ ["json_dumps failed for " +:+ uuid_s]) /\
  (~ no_faults w 3 ->
   fst r = None /\
   exists message : string,
     w_log (snd r)
       = w_log w ++ [message; "GetTimedServiceJobAsJSON failed for " +:+ uuid_s]).
Proof.
  intros r uuid_s. subst r uuid_s. unfold SerialiseTimedServiceJob.
  rewrite bind_run, GetTimedServiceJobAsJSON_run, no_faults_3.
  destruct (w_fault w (w_calls w)) eqn:F0;
    [|destruct (w_fault w (S (w_calls w))) eqn:F1;
      [|destruct (w_fault w (S (S (w_calls w)))) eqn:F2]];
    cbn [fst snd].
  1-3: unfold_effects; cbn [fst snd];
       (split; [intros ? ? Hr; discriminate|]);
       (split; [intros (H0 & H1 & H2); discriminate|]);
       (split; [intros (H0 & H1 & H2); discriminate|]);
       intros _; (split; [reflexivity|]); eexists; cbn;
       rewrite <- app_assoc; reflexivity.
  destruct (json_dumps (persisted_document base_job_p)) as [job_s|] eqn:Hdumps.
  - unfold ret. cbn [fst snd]. split; [|split; [|split]].
    + intros value_s value_length Hr. inversion Hr; subst value_s.
      split; [apply no_faults_3; auto|]. split; [reflexivity|]. split; [|split].
      * apply Z.mod_pos_bound. lia.
      * intros Hfits. apply Z.mod_small. lia.
      * reflexivity.
    + intros _ value_s _. eexists. reflexivity.
    + intros _ Hnone. discriminate.
    + intros Hno. exfalso. apply Hno. auto.
  - unfold_effects. cbn [fst snd]. split; [|split; [|split]].
    + intros ? ? Hr. discriminate.
    + intros _ value_s Hsome. discriminate.
    + intros _ _. split; reflexivity.
    + intros Hno. exfalso. apply Hno. auto.
Qed.

(** X20 at [stored_job] with a [json_dumps] that writes two characters: the
    length handed out is 3. *)
Lemma two_characters_are_three_bytes :
  fst (SerialiseTimedServiceJob (fun _ => Some "{}") stored_job
         (calm_world 1010 0)) = Some ("{}", 3).
Proof.
  destruct (SerialiseTimedServiceJob_outcomes (fun _ => Some "{}") stored_job
              (calm_world 1010 0)) as (Hsome & Hdumps & _).
  destruct (Hdumps (fun k _ => eq_refl) "{}" eq_refl) as [[value_s value_length] Hr].
  destruct (Hsome value_s value_length Hr) as (_ & Htext & _ & Hlength & _).
  inversion Htext; subst value_s.
  rewrite Hr, Hlength; [reflexivity | vm_compute; reflexivity].
Defined.

(** ** Reading a job back, in more detail *)

(** X21: when no call fails, the job that comes back from the document of
    [job] has its flag cleared, whether or not [job] was registered, and
    as its duration whatever the fresh block of its interval held: the
    document carries neither. *)
Theorem round_trip_forgets_flag_and_duration
  (job : TimedServiceJob) (w w2 : World) :
  no_faults w 3 -> no_faults w2 2 ->
  exists (doc : json) (job' : TimedServiceJob),
    fst (GetTimedServiceJobAsJSON job w) = Some doc /\
    fst (GetTimedServiceJobFromJSON doc w2) = Some job' /\
    GetJSONMember doc LRS_ADDED_FLAG_S = None /\
    GetJSONMember doc "duration" = None /\
    tsj_added_flag job' = false /\
    ti_duration (tsj_interval_p job') = w_junk w2 (S (w_calls w2)).
Proof.
  intros Hw Hw2.
  destruct (GetJSONLong_persisted job) as (Hstart & Hend & Hflag).
  exists (persisted_document job).
  rewrite (GetTimedServiceJobAsJSON_ok job w Hw).
  rewrite (GetTimedServiceJobFromJSON_ok _ _ _ _ _ Hw2
             (InitServiceJobFromJSON_persisted job) Hstart Hend).
  unfold persisted_flag. rewrite Hflag.
  assert (Hmembers :
    GetJSONMember (persisted_document job) LRS_ADDED_FLAG_S = None /\
    GetJSONMember (persisted_document job) "duration" = None).
  { unfold persisted_document, GetJSONMember, LRS_ADDED_FLAG_S, LRS_START_S,
           LRS_END_S.
    split; repeat (rewrite lookup_insert_ne by discriminate); reflexivity. }
  destruct Hmembers as [Hm1 Hm2].
  destruct (bool_decide (sj_status (tsj_job job) = OS_STARTED));
    eexists; (split; [reflexivity|]); (split; [reflexivity|]);
    (split; [exact Hm1|]); (split; [exact Hm2|]); split; reflexivity.
Qed.

(** X21 at [stored_job], which is registered and lasts 30 seconds: read
    back into memory that holds 7, it is not registered and lasts 7. *)
Lemma stored_job_comes_back_unflagged :
  exists (doc : json) (job' : TimedServiceJob),
    fst (GetTimedServiceJobAsJSON stored_job (calm_world 1010 0)) = Some doc /\
    fst (GetTimedServiceJobFromJSON doc (calm_world 1010 7)) = Some job' /\
    GetJSONMember doc LRS_ADDED_FLAG_S = None /\
    GetJSONMember doc "duration" = None /\
    tsj_added_flag job' = false /\
    ti_duration (tsj_interval_p job') = 7.
Proof.
  exact (round_trip_forgets_flag_and_duration stored_job
           (calm_world 1010 0) (calm_world 1010 7)
           (fun k _ => eq_refl) (fun k _ => eq_refl)).
Defined.

(** X22: a job that has been read back from its document writes the same
    document again, as long as it was not stored as started; a job stored
    as started writes the document of the job with the status that polling
    gave when it was read. *)
Theorem second_document_is_the_first
  (job : TimedServiceJob) (w w2 w3 : World) :
  no_faults w 3 -> no_faults w2 2 -> no_faults w3 3 ->
  exists (doc : json) (job' : TimedServiceJob) (doc' : json),
    fst (GetTimedServiceJobAsJSON job w) = Some doc /\
    fst (GetTimedServiceJobFromJSON doc w2) = Some job' /\
    fst (GetTimedServiceJobAsJSON job' w3) = Some doc' /\
    (sj_status (tsj_job job) <> OS_STARTED -> doc' = doc) /\
    (sj_status (tsj_job job) = OS_STARTED ->
     doc' = persisted_document
              (set_tsj_job (SetServiceJobStatus (tsj_job job) (polled_status job w2))
                           job)).
Proof.
  intros Hw Hw2 Hw3.
  destruct (GetJSONLong_persisted job) as (Hstart & Hend & Hflag).
  exists (persisted_document job).
  rewrite (GetTimedServiceJobAsJSON_ok job w Hw).
  rewrite (GetTimedServiceJobFromJSON_ok _ _ _ _ _ Hw2
             (InitServiceJobFromJSON_persisted job) Hstart Hend).
  unfold persisted_flag. rewrite Hflag.
  set (job0 := mkTimedServiceJob (tsj_job job)
                 (mkTimeInterval (ti_start (tsj_interval_p job))
                                 (ti_end (tsj_interval_p job))
                                 (w_junk w2 (S (w_calls w2)))) false).
  assert (Hpoll : polled_status job0 w2 = polled_status job w2).
  { unfold polled_status, GetTimedServiceJobStatus. unfold_effects.
    cbn [job0 tsj_interval_p ti_start ti_end].
    destruct (_ =? _); reflexivity. }
  rewrite Hpoll.
  destruct (bool_decide (sj_status (tsj_job job) = OS_STARTED)) eqn:Estatus.
  - apply bool_decide_eq_true in Estatus. eexists _, _. cbn [fst].
    rewrite (GetTimedServiceJobAsJSON_ok _ w3 Hw3). cbn [fst].
    split; [reflexivity|]. split; [reflexivity|]. split; [reflexivity|].
    split; [contradiction|]. intros _. reflexivity.
  - apply bool_decide_eq_false in Estatus. eexists _, _. cbn [fst].
    rewrite (GetTimedServiceJobAsJSON_ok _ w3 Hw3). cbn [fst].
    split; [reflexivity|]. split; [reflexivity|]. split; [reflexivity|].
    split; [|contradiction]. intros _.
    unfold persisted_document. cbn [job0 tsj_job tsj_interval_p ti_start ti_end].
    reflexivity.
Qed.

(** X22 at a job that has succeeded: its second document is its first. *)
Lemma succeeded_job_writes_the_same_document_twice :
  exists (doc : json) (job' : TimedServiceJob) (doc' : json),
    fst (GetTimedServiceJobAsJSON
           (set_tsj_job (SetServiceJobStatus (tsj_job stored_job) OS_SUCCEEDED)
                        stored_job)
           (calm_world 1040 0)) = Some doc /\
    fst (GetTimedServiceJobFromJSON doc (calm_world 1050 7)) = Some job' /\
    fst (GetTimedServiceJobAsJSON job' (calm_world 1060 0)) = Some doc' /\
    doc' = doc.
Proof.
  destruct (second_document_is_the_first
              (set_tsj_job (SetServiceJobStatus (tsj_job stored_job) OS_SUCCEEDED)
                           stored_job)
              (calm_world 1040 0) (calm_world 1050 7) (calm_world 1060 0)
              (fun k _ => eq_refl) (fun k _ => eq_refl) (fun k _ => eq_refl))
    as (doc & job' & doc' & H1 & H2 & H3 & Hsame & _).
  exists doc, job', doc'. split; [exact H1|]. split; [exact H2|].
  split; [exact H3|]. apply Hsame. discriminate.
Defined.

(** X23: reading a job back logs nothing when it returns a job.  When it
    returns none it has not read the clock and has logged the first thing
    that went wrong, and nothing else: the block of the job or of the
    interval that could not be had, the base fields that could not be
    read (two lines), and else the missing [start], or the missing [end]
    when [start] is there. *)
Theorem GetTimedServiceJobFromJSON_logging (json_p : json) (w : World) :
  let r := GetTimedServiceJobFromJSON json_p w in
  match fst r with
  | Some _ => w_log (snd r) = w_log w
  | None =>
    w_ticks (snd r) = w_ticks w /\
    w_log (snd r) = w_log w ++
      (if w_fault w (w_calls w) then ["Failed to allocate TimedServiceJob"]
       else if w_fault w (S (w_calls w)) then ["Failed to allocate TimeInterval"]
       else match InitServiceJobFromJSON json_p with
            | None => ["Failed to init ServiceJob from JSON";
                       "Init ServiceJob failure: "]
            | Some _ =>
              match GetJSONLong json_p LRS_START_S with
              | None => ["Failed to get start from JSON"]
              | Some _ => ["Failed to get end from JSON"]
              end
            end)
  end.
Proof.
  intros r. subst r.
  destruct (w_fault w (w_calls w)) eqn:F0.
  { unfold GetTimedServiceJobFromJSON.
    rewrite bind_run, AllocMemory_run, F0. unfold_effects. cbn.
    split; [reflexivity|]. rewrite <- ?app_assoc. reflexivity. }
  destruct (w_fault w (S (w_calls w))) eqn:F1.
  { unfold GetTimedServiceJobFromJSON.
    rewrite bind_run, AllocMemory_run, F0. cbn [fst snd].
    rewrite bind_run, AllocMemory_run. cbn [w_fault w_calls set_live set_calls].
    rewrite F1. cbn [fst snd option_map].
    rewrite !bind_run. unfold FreeTimedServiceJob. unfold_effects. cbn.
    split; [reflexivity|]. rewrite <- ?app_assoc. reflexivity. }
  destruct (InitServiceJobFromJSON json_p) as [base|] eqn:Hinit;
    [destruct (GetJSONLong json_p LRS_START_S) as [start|] eqn:Hstart;
     [destruct (GetJSONLong json_p LRS_END_S) as [end_|] eqn:Hend|]|].
  - assert (Hok : no_faults w 2).
    { intros k Hk. destruct k as [|[|k]]; [| |lia].
      - rewrite Nat.add_0_r. exact F0.
      - rewrite Nat.add_1_r. exact F1. }
    rewrite (GetTimedServiceJobFromJSON_ok _ _ _ _ _ Hok Hinit Hstart Hend).
    destruct (bool_decide (sj_status base = OS_STARTED)); cbn [fst snd];
      [|reflexivity].
    destruct (bool_decide _); destruct (start =? end_); reflexivity.
  - unfold GetTimedServiceJobFromJSON.
    rewrite bind_run, AllocMemory_run, F0. cbn [fst snd].
    rewrite bind_run, AllocMemory_run. cbn [w_fault w_calls set_live set_calls].
    rewrite F1. cbn [fst snd option_map]. rewrite Hinit, Hstart, Hend.
    rewrite !bind_run. unfold FreeTimedServiceJob. unfold_effects. cbn.
    split; [reflexivity|]. rewrite <- ?app_assoc. reflexivity.
  - unfold GetTimedServiceJobFromJSON.
    rewrite bind_run, AllocMemory_run, F0. cbn [fst snd].
    rewrite bind_run, AllocMemory_run. cbn [w_fault w_calls set_live set_calls].
    rewrite F1. cbn [fst snd option_map]. rewrite Hinit, Hstart.
    rewrite !bind_run. unfold FreeTimedServiceJob. unfold_effects. cbn.
    split; [reflexivity|]. rewrite <- ?app_assoc. reflexivity.
  - unfold GetTimedServiceJobFromJSON.
    rewrite bind_run, AllocMemory_run, F0. cbn [fst snd].
    rewrite bind_run, AllocMemory_run. cbn [w_fault w_calls set_live set_calls].
    rewrite F1. cbn [fst snd option_map]. rewrite Hinit.
    rewrite !bind_run. unfold FreeTimedServiceJob. unfold_effects. cbn.
    split; [reflexivity|]. rewrite <- ?app_assoc. reflexivity.
Qed.

(** X23 at a document that has neither [start] nor [end]: it is [start]
    that is reported. *)
Lemma missing_start_is_reported_first :
  w_log (snd (GetTimedServiceJobFromJSON
                (JObj (delete LRS_START_S
                         (delete LRS_END_S
                            (match persisted_document stored_job with
                             | JObj m => m
                             | _ => ∅
                             end))))
                (calm_world 1010 0)))
    = ["Failed to get start from JSON"].
Proof.
  assert (Hnone :
    fst (GetTimedServiceJobFromJSON
           (JObj (delete LRS_START_S
                    (delete LRS_END_S
                       (match persisted_document stored_job with
                        | JObj m => m
                        | _ => ∅
                        end))))
           (calm_world 1010 0)) = None)
    by (vm_compute; reflexivity).
  pose proof (GetTimedServiceJobFromJSON_logging
                (JObj (delete LRS_START_S
                         (delete LRS_END_S
                            (match persisted_document stored_job with
                             | JObj m => m
                             | _ => ∅
                             end))))
                (calm_world 1010 0)) as Hlog.
  cbv zeta in Hlog. rewrite Hnone in Hlog. destruct Hlog as [_ Hlog].
  rewrite Hlog. vm_compute. reflexivity.
Defined.

(** ** Jobs that take no time *)

(** X24: a job of duration 0 that is started has the started status stored
    in it, yet every poll, at the time of the start or at any other time,
    reports it idle and does not read the clock; a service that holds
    nothing but this job is closed whenever it is asked. *)
Theorem zero_duration_job_stays_idle
  (job : TimedServiceJob) (data_p : LongRunningServiceData) (w : World) :
  ti_duration (tsj_interval_p job) = 0 ->
  TIME_MIN <= now w <= TIME_MAX ->
  sj_status (tsj_job (started_job job w)) = OS_STARTED /\
  forall wq : World,
    polled_status (started_job job w) wq = OS_IDLE /\
    snd (GetTimedServiceJobStatus (started_job job w) wq) = wq /\
    fst (fst (CloseLongRunningService
                (mkService (Some [started_job job w]) data_p) wq)) = true.
Proof.
  intros Hd Hnow. unfold started_job. rewrite StartTimedServiceJob_effect.
  cbn [fst]. rewrite Hd, Z.add_0_r, time_t_wrap_id by lia.
  split; [reflexivity|]. intros wq.
  set (job' := mkTimedServiceJob _ _ _).
  assert (Hidle : polled_status job' wq = OS_IDLE).
  { apply polled_status_idle. reflexivity. }
  split; [exact Hidle|]. split.
  - rewrite GetTimedServiceJobStatus_effect. cbn [snd job' tsj_interval_p
      ti_start ti_end]. rewrite Z.eqb_refl. reflexivity.
  - unfold CloseLongRunningService. cbn [se_jobs_p CloseLongRunningService_loop].
    rewrite !bind_run, GetTimedServiceJobStatus_effect. cbn [fst snd].
    rewrite Hidle. cbn [bool_decide orb]. rewrite ?bind_run. reflexivity.
Qed.

(** X24 at a new job of duration 0 started at 1000 and asked at 1000. *)
Lemma zero_duration_job_is_idle_at_its_start :
  sj_status (tsj_job (started_job (new_job 10%N 0) (calm_world 1000 0)))
    = OS_STARTED /\
  polled_status (started_job (new_job 10%N 0) (calm_world 1000 0))
                (calm_world 1000 0) = OS_IDLE.
Proof.
  assert (Hnow : TIME_MIN <= now (calm_world 1000 0) <= TIME_MAX)
    by (unfold TIME_MIN, TIME_MAX; cbn; lia).
  destruct (zero_duration_job_stays_idle (new_job 10%N 0)
              (mkLongRunningServiceData 3) (calm_world 1000 0) eq_refl Hnow)
    as [Hstored Hall].
  split; [exact Hstored | exact (proj1 (Hall (calm_world 1000 0)))].
Defined.

(** ** Running, then asking for results *)

(** X25: after a run on a clock standing at [t], with a minimum duration
    [d >= 1] and identifiers that differ, take a job that came back with
    its flag set.  In any later world that has the JobsManager as the run
    left it and in which no call fails, the result query for the
    identifier of the job returns a list of one object, whatever the clock
    reads by then, so also while the job is still running.  The object
    holds, as an [int] takes them, [t] as its [start] and as its [end] a
    time from [t + d] to [t + d + 59]: these very values when [t] and
    [t + d + 59] are [int] values, and not [t] when [t] is beyond the
    largest [int]. *)
Theorem results_by_identifier_after_run
  (service_p : Service) (param_set_p : gmap string ParameterValue)
  (num_tasks : N) (d : Z) (w w1 : World) (jobs : ServiceJobSet) (t : Z) :
  GetCurrentUnsignedIntParameterValueFromParameterSet
    param_set_p LRS_NUMBER_OF_JOBS = Some (Some num_tasks) ->
  (0 < num_tasks)%N ->
  d = match GetCurrentSignedIntParameterValueFromParameterSet
              param_set_p LRS_MIN_DURATION with
      | Some (Some d) => d
      | _ => 1
      end ->
  1 <= d -> d + 59 <= INT32_MAX ->
  GetServiceJobSet num_tasks d w = (Some jobs, w1) ->
  NoDup (job_ids jobs) ->
  (forall n : nat, w_clock w n = t) ->
  TIME_MIN <= t -> t + d + 59 <= TIME_MAX ->
  forall (jobs' : ServiceJobSet) (k : nat) (job' : TimedServiceJob) (w2 : World),
    fst (fst (RunLongRunningService service_p param_set_p w)) = Some jobs' ->
    jobs' !! k = Some job' ->
    tsj_added_flag job' = true ->
    w_jobs w2 = w_jobs (snd (RunLongRunningService service_p param_set_p w)) ->
    no_faults w2 4 ->
    exists end_ : Z,
      t + d <= end_ <= t + d + 59 /\
      fst (GetLongRunningResultsAsJSON (sj_id (tsj_job job')) w2)
        = Some (JArr [JObj (<["end" := JInt (int32_wrap end_)]>
                              {["start" := JInt (int32_wrap t)]})]) /\
      (INT32_MIN <= t -> t + d + 59 <= INT32_MAX ->
       fst (GetLongRunningResultsAsJSON (sj_id (tsj_job job')) w2)
         = Some (JArr [JObj (<["end" := JInt end_]> {["start" := JInt t]})])) /\
      (INT32_MAX < t ->
       fst (GetLongRunningResultsAsJSON (sj_id (tsj_job job')) w2)
         <> Some (JArr [JObj (<["end" := JInt end_]> {["start" := JInt t]})])).
Proof.
  intros Hnum Hpos Hd Hd1 Hdhi Hset Hnodup Hclock Htlo Hthi
         jobs' k job' w2 Hret Hk Hflag Hjobs2 Hok.
  assert (Hset' := Hset). rewrite Hd in Hset'.
  rewrite (RunLongRunningService_delivered _ _ _ _ _ _ Hnum Hpos Hset')
    in Hret, Hjobs2.
  cbn [fst snd] in Hret, Hjobs2. inversion Hret; subst jobs'. clear Hret.
  assert (Hdlo : INT32_MIN <= d) by (unfold INT32_MIN; lia).
  destruct (batch_run_intervals num_tasks d w w1 jobs t Hdlo Hdhi Hset Hclock
              ltac:(lia) Hthi) as [_ Hint].
  destruct (Hint k job' Hk) as [Hstart Hend].
  pose proof (RunLongRunningService_loop_registry jobs w1 Hnodup k job' Hk)
    as Hreg.
  rewrite Hflag, <- Hjobs2 in Hreg.
  rewrite (GetLongRunningResultsAsJSON_known _ job' w2 Hreg Hok). cbn [fst].
  exists (ti_end (tsj_interval_p job')). rewrite Hstart.
  split; [exact Hend|]. split; [reflexivity|]. split.
  - intros Hlo Hhi. rewrite !int32_wrap_id by lia. reflexivity.
  - intros Hbig Heq. apply (f_equal (default JNull)) in Heq. cbn [default] in Heq.
    apply packed_members in Heq as [Hs _].
    apply int32_wrap_fixed in Hs. lia.
Qed.

(** X25 at a request for two jobs at 1000: the results of the first job,
    asked for at 1005, give 1000 as its start and an end from 1010 to
    1069. *)
Lemma first_job_has_results_at_1005 :
  exists end_ : Z,
    1000 + 10 <= end_ <= 1000 + 10 + 59 /\
    fst (GetLongRunningResultsAsJSON 10%N
           (set_jobs
              (w_jobs (snd (RunLongRunningService
                              (mkService None (mkLongRunningServiceData 3))
                              two_jobs_request (calm_world 1000 0))))
              (calm_world 1005 0)))
      = Some (JArr [JObj (<["end" := JInt end_]> {["start" := JInt 1000]})]).
Proof.
  set (w2 := set_jobs _ (calm_world 1005 0)).
  assert (Hjobs2 :
    w_jobs w2 = w_jobs (snd (RunLongRunningService
                               (mkService None (mkLongRunningServiceData 3))
                               two_jobs_request (calm_world 1000 0))))
    by (vm_compute; reflexivity).
  assert (Hok : no_faults w2 4) by (intros k _; reflexivity).
  let v := eval vm_compute in (GetServiceJobSet 2 10 (calm_world 1000 0)) in
  assert (Hset : GetServiceJobSet 2 10 (calm_world 1000 0) = v)
    by (vm_compute; reflexivity).
  let r := eval vm_compute in
    (fst (fst (RunLongRunningService
                 (mkService None (mkLongRunningServiceData 3))
                 two_jobs_request (calm_world 1000 0)))) in
  assert (Hrun : fst (fst (RunLongRunningService
                             (mkService None (mkLongRunningServiceData 3))
                             two_jobs_request (calm_world 1000 0))) = r)
    by (vm_compute; reflexivity).
  assert (H59 : 10 + 59 <= INT32_MAX) by (unfold INT32_MAX; lia).
  assert (Hlo : TIME_MIN <= 1000) by (unfold TIME_MIN; lia).
  assert (Hhi : 1000 + 10 + 59 <= TIME_MAX) by (unfold TIME_MAX; lia).
  assert (Hilo : INT32_MIN <= 1000) by (unfold INT32_MIN; lia).
  assert (Hihi : 1000 + 10 + 59 <= INT32_MAX) by (unfold INT32_MAX; lia).
  match type of Hset with
  | _ = (Some ?jobs, ?w1) =>
    assert (Hnodup : NoDup (job_ids jobs))
      by (apply NoDup_cons_2;
          [apply not_elem_of_cons; split; [discriminate | apply not_elem_of_nil]
          | apply NoDup_singleton]);
    match type of Hrun with
    | _ = Some (?job' :: ?rest) =>
      destruct (results_by_identifier_after_run
                  (mkService None (mkLongRunningServiceData 3))
                  two_jobs_request 2%N 10 (calm_world 1000 0) w1 jobs 1000
                  eq_refl ltac:(lia) eq_refl ltac:(lia) H59 Hset Hnodup
                  (fun _ => eq_refl) Hlo Hhi
                  (job' :: rest) 0%nat job' w2 Hrun eq_refl eq_refl Hjobs2 Hok)
        as (end_ & Hend & _ & Hexact & _)
    end
  end.
  exists end_. split; [exact Hend | exact (Hexact Hilo Hihi)].
Defined.

(** ** The service data *)

(** X26: the service data is one block, and a service whose data has just
    been allocated offers three as the number of jobs and leaves the
    minimum duration unset; closing such a service while it has no job set
    gives the block back. *)
Theorem fresh_service_offers_three_jobs
  (w w1 : World) (data_p : LongRunningServiceData) :
  AllocateLongRunningServiceData w = (Some data_p, w1) ->
  w_live w1 = w_live w + 1 /\
  (forall w2 : World,
      no_faults w2 3 ->
      exists params : gmap string ParameterValue,
        fst (GetLongRunningServiceParameters (mkService None data_p) w2)
          = Some params /\
        GetCurrentUnsignedIntParameterValueFromParameterSet
          params LRS_NUMBER_OF_JOBS = Some (Some 3%N) /\
        GetCurrentSignedIntParameterValueFromParameterSet
          params LRS_MIN_DURATION = Some None) /\
  (forall w2 : World,
      w_live w2 = w_live w1 ->
      fst (fst (CloseLongRunningService (mkService None data_p) w2)) = true /\
      w_live (snd (CloseLongRunningService (mkService None data_p) w2))
        = w_live w).
Proof.
  unfold AllocateLongRunningServiceData. rewrite bind_run, AllocMemory_run.
  destruct (w_fault w (w_calls w)); cbn [fst snd]; unfold ret; intros Halloc;
    [discriminate|].
  inversion Halloc; subst data_p w1. clear Halloc.
  split; [reflexivity|]. split.
  - intros w2 Hok. apply no_faults_3 in Hok as (H0 & H1 & H2).
    rewrite GetLongRunningServiceParameters_run, H0, H1, H2. cbn [fst].
    eexists. split; [reflexivity|]. split; reflexivity.
  - intros w2 Hlive. unfold CloseLongRunningService. unfold_effects.
    cbn in *. split; [reflexivity | lia].
Qed.

(** X26 in the calm world. *)
Lemma calm_world_service_offers_three_jobs :
  exists params : gmap string ParameterValue,
    fst (GetLongRunningServiceParameters
           (mkService None (mkLongRunningServiceData 3)) (calm_world 1000 0))
      = Some params /\
    GetCurrentUnsignedIntParameterValueFromParameterSet
      params LRS_NUMBER_OF_JOBS = Some (Some 3%N) /\
    GetCurrentSignedIntParameterValueFromParameterSet
      params LRS_MIN_DURATION = Some None.
Proof.
  exact (proj1 (proj2 (fresh_service_offers_three_jobs
                         (calm_world 1000 0) _ (mkLongRunningServiceData 3)
                         eq_refl))
           (calm_world 1000 0) (fun k _ => eq_refl)).
Defined.
